(** * Sentiment-Analyzer-Frontend: a shallow embedding of the coordination logic

    The development follows the JavaScript sources module by module:

    - [Js]          the effect discipline of the code: a state monad with
                    exceptions ([throw], [try ... catch]) and the operators
                    the sources rely on ([||], [!==], [>] on numbers);
    - [Job], [Annotation], [File]   the rows and files the code handles;
    - [AnnotationsViewerComponent]  the annotation view;
    - [Supabase]    the external backend as the code consumes it (storage
                    bucket, tables with the defaults of the SQL schema,
                    realtime channels), with scripted failures;
    - [MarkerEngineService]         the access layer;
    - [DocumentUploadComponent]     client-side validation of the upload view;
    - [ProcessingStatusComponent]   the status view;
    - [RealtimeAnnotationsService]  the change-subscription layer;
    - [MarkerIntegrationApp]        the orchestrator's wiring of the change
                                    feed to the status and annotation views;
    - [Props]       the vocabulary of the properties and the sample data.

    An [async] method of the access layer is modelled as the run of its body
    from call to end: awaiting a remote call is a step of the monad. The
    methods of the change-subscription layer that work on the subscription
    table are modelled as tasks, suspended at each [await] and resumed by a
    scheduler, so that calls can overlap; the same methods run from call to
    end are what the tasks do when no other call runs in between
    ([subscribeToJob_alone] and its siblings). The properties follow the
    models, view by view. *)

From Stdlib Require Import ZArith List Ascii String Sorted Permutation Lia.
From Stdlib Require Import Floats.SpecFloat Floats.PrimFloat Floats.FloatOps.
From stdpp Require Import base option list gmap strings sorting pretty.

Open Scope string_scope.

(** ** The effect discipline of the sources *)

Module Js.

(** A thrown JavaScript value. The sources only ever throw the [error] member
    of a backend response or let a [TypeError] of the runtime escape. *)
Record JsError := mkError { message : string }.

Inductive outcome (A : Type) : Type :=
| Returned (a : A)
| Thrown (e : JsError).
Arguments Returned {A} a.
Arguments Thrown {A} e.

(** A computation over a world [W]: mutations made before a [throw] persist,
    as they do for object fields in JavaScript. *)
Definition M (W A : Type) : Type := W -> outcome A * W.

Definition ret {W A} (a : A) : M W A := fun w => (Returned a, w).

Definition bind {W A B} (m : M W A) (k : A -> M W B) : M W B :=
  fun w => match m w with
           | (Returned a, w') => k a w'
           | (Thrown e, w') => (Thrown e, w')
           end.

Definition throw {W A} (e : JsError) : M W A := fun w => (Thrown e, w).

(** [try { m } catch (error) { h error }] *)
Definition try_catch {W A} (m : M W A) (h : JsError -> M W A) : M W A :=
  fun w => match m w with
           | (Returned a, w') => (Returned a, w')
           | (Thrown e, w') => h e w'
           end.

Definition get {W} : M W W := fun w => (Returned w, w).
Definition gets {W A} (f : W -> A) : M W A := fun w => (Returned (f w), w).
Definition modify {W} (f : W -> W) : M W unit := fun w => (Returned tt, f w).

(** Running a computation of a component inside a larger world. *)
Definition zoom {W V A} (proj : W -> V) (inj : V -> W -> W) (m : M V A) : M W A :=
  fun w => let (r, v') := m (proj w) in (r, inj v' w).

(** [if (h) h(ev)] for an optional callback. *)
Definition call_if_set {W E} (h : option (E -> M W unit)) (ev : E) : M W unit :=
  match h with
  | Some f => f ev
  | None => ret tt
  end.

Definition returned {A} (o : outcome A) : bool :=
  match o with Returned _ => true | Thrown _ => false end.

(** A property read off a row: absent ([undefined]), SQL NULL ([null]) or a
    value. *)
Inductive nullable (A : Type) : Type :=
| Undefined
| Null
| Val (a : A).
Arguments Undefined {A}.
Arguments Null {A}.
Arguments Val {A} a.

#[global] Instance nullable_eq_dec {A} `{EqDecision A} : EqDecision (nullable A).
Proof. solve_decision. Defined.

Definition nullable_to_sum {A} (x : nullable A) : bool + A :=
  match x with
  | Undefined => inl false
  | Null => inl true
  | Val a => inr a
  end.

Definition nullable_of_sum {A} (y : bool + A) : nullable A :=
  match y with
  | inl false => Undefined
  | inl true => Null
  | inr a => Val a
  end.

Lemma nullable_of_to_sum {A} (x : nullable A) :
  nullable_of_sum (nullable_to_sum x) = x.
Proof. by destruct x. Qed.

(** Properties are usable as keys of a [Map]. *)
#[global] Instance nullable_countable {A} `{Countable A} : Countable (nullable A) :=
  inj_countable' nullable_to_sum nullable_of_sum nullable_of_to_sum.

(** [a !== b] on properties whose values have a decidable equality (strings,
    integers). *)
Definition strict_neq {A} `{EqDecision A} (a b : nullable A) : bool :=
  match a, b with
  | Undefined, Undefined => false
  | Null, Null => false
  | Val x, Val y => negb (bool_decide (x = y))
  | _, _ => true
  end.

(** Truthiness of a string property: [undefined], [null] and the empty string
    are falsy. *)
Definition truthy_string (s : nullable string) : bool :=
  match s with
  | Val (String _ _) => true
  | _ => false
  end.

(** [a || b] where [b] is a string. *)
Definition or_string (a : nullable string) (b : string) : string :=
  match a with
  | Val (String c s) => String c s
  | _ => b
  end.

(** [a || b] where [b] is a property again. *)
Definition or_else (a b : nullable string) : nullable string :=
  if truthy_string a then a else b.

(** Truthiness of a number: [undefined], [null], [0], [-0] and [NaN] are
    falsy. Numbers are IEEE-754 binary64 values ([spec_float]). *)
Definition truthy_number (x : nullable spec_float) : bool :=
  match x with
  | Val (S754_zero _) => false
  | Val S754_nan => false
  | Val _ => true
  | _ => false
  end.

Definition zero : spec_float := S754_zero false.

(** [x || 0] *)
Definition or_zero (x : nullable spec_float) : spec_float :=
  match x with
  | Val f => if truthy_number (Val f) then f else zero
  | _ => zero
  end.

(** [n || 0] on an integer column. *)
Definition or_zero_int (x : nullable Z) : Z :=
  match x with
  | Val n => n
  | _ => 0%Z
  end.

(** [a > b] and [a < b] on numbers (false as soon as one side is NaN). *)
Definition gt (a b : spec_float) : bool := SFltb b a.
Definition lt (a b : spec_float) : bool := SFltb a b.

(** [String.prototype.toLowerCase], on the ASCII letters (the strings of the
    model are byte strings). *)
Definition lower_ascii (c : ascii) : ascii :=
  let n := nat_of_ascii c in
  if (65 <=? n)%nat && (n <=? 90)%nat then ascii_of_nat (n + 32) else c.

Fixpoint toLowerCase (s : string) : string :=
  match s with
  | EmptyString => EmptyString
  | String c s' => String (lower_ascii c) (toLowerCase s')
  end.

(** [s.split('.')]: the pieces between the dots, at least one piece. *)
Fixpoint split_dot_aux (cur : string) (s : string) : list string :=
  match s with
  | EmptyString => [cur]
  | String c s' =>
      if Ascii.eqb c "."%char then cur :: split_dot_aux EmptyString s'
      else split_dot_aux (cur +:+ String c EmptyString) s'
  end.

Definition split_dot (s : string) : list string := split_dot_aux EmptyString s.

(** [arr.pop()] of a non-empty array: its last element. *)
Definition pop (l : list string) : string := List.last l EmptyString.

(** The double quote and the line feed of the template literals. *)
Definition dq : string := String (ascii_of_nat 34) EmptyString.
Definition nl : string := String (ascii_of_nat 10) EmptyString.

(** [{ ...a, ...b }] at one property: the value of [b] where [b] carries the
    property, that of [a] where it does not. *)
Definition spread {A} (a b : nullable A) : nullable A :=
  match b with
  | Undefined => a
  | _ => b
  end.

(** The characters that are markup to an HTML parser where a template
    interpolates a value into an attribute or into the content of an element:
    the angle brackets, the ampersand and the double quote. *)
Definition is_markup (c : ascii) : bool :=
  Ascii.eqb c "<" || Ascii.eqb c ">" || Ascii.eqb c "&" || Ascii.eqb c (ascii_of_nat 34).

(** The markup characters of a string, in their order. *)
Fixpoint markup_chars (s : string) : string :=
  match s with
  | EmptyString => EmptyString
  | String c s' => if is_markup c then String c (markup_chars s') else markup_chars s'
  end.

(** ** Tasks

    An [async] method runs until it settles or reaches an [await]. There it
    is suspended on the awaited request, and the scheduler resumes it with
    the answer in a later turn; other tasks can run in between. [D] is the
    state of the party that answers the request, [S] the state the method
    works on. *)
#[warnings="-register-all"]
Inductive Task (D S A : Type) : Type :=
| Settled (r : outcome A)
| Suspended (request : M D unit) (resume : outcome unit -> S -> Task D S A * S).
Arguments Settled {D S A} r.
Arguments Suspended {D S A} request resume.

(** An [async] method: called, it runs to its first [await]. *)
Definition Async (D S A : Type) : Type := S -> Task D S A * S.

Definition settled {D S A} (t : Task D S A) : bool :=
  match t with Settled _ => true | Suspended _ _ => false end.

(** [await p] on the promise of a task: the awaiting method goes on in a turn
    after the one in which the task settles, also when the task had settled
    at the call. *)
Fixpoint await_task {D S A B} (t : Task D S A) (k : outcome A -> Async D S B)
  : Task D S B :=
  match t with
  | Settled r => Suspended (ret tt) (fun _ s => k r s)
  | Suspended request resume =>
      Suspended request
        (fun answer s => let (t', s') := resume answer s in (await_task t' k, s'))
  end.

(** A task whose result is not looked at. *)
Fixpoint forget {D S A} (t : Task D S A) : Task D S unit :=
  match t with
  | Settled (Returned _) => Settled (Returned tt)
  | Settled (Thrown e) => Settled (Thrown e)
  | Suspended request resume =>
      Suspended request
        (fun answer s => let (t', s') := resume answer s in (forget t', s'))
  end.

(** One turn of a suspended task: the awaited request is answered and the
    task runs to its next [await]. A settled task has no turn left. *)
Definition resume_task {D S A} (get : S -> D) (put : D -> S -> S) (t : Task D S A)
  : Async D S A :=
  fun s =>
    match t with
    | Settled r => (Settled r, s)
    | Suspended request resume =>
        let (answer, d) := request (get s) in
        resume answer (put d s)
    end.

(** A task run to its end with no other task in between. *)
Fixpoint run_task {D S A} (get : S -> D) (put : D -> S -> S) (t : Task D S A)
  : M S A :=
  fun s =>
    match t with
    | Settled r => (r, s)
    | Suspended request resume =>
        let (answer, d) := request (get s) in
        let (t', s') := resume answer (put d s) in
        run_task get put t' s'
    end.

(** An [async] method run from its call to its end with no other task in
    between. *)
Definition run_alone {D S A} (get : S -> D) (put : D -> S -> S) (m : Async D S A)
  : M S A :=
  fun s => let (t, s') := m s in run_task get put t s'.

End Js.

Notation "'let!' x ':=' m 'in' k" := (Js.bind m (fun x => k))
  (at level 10, x pattern, m at level 100, k at level 200).
Notation "'do!' m 'in' k" := (Js.bind m (fun _ => k))
  (at level 10, m at level 100, k at level 200).

(** ** Rows of the backend tables, as the front end receives them

    A column the code reads with [||], [?.] or [!==] is a [Js.nullable]: a row
    of the change feed may lack it ([undefined]) and the table may hold SQL
    NULL ([null]). Timestamps are milliseconds since the epoch. *)

Module Job.

Record row := mk {
  id : Js.nullable string;
  user_id : Js.nullable string;
  file_path : Js.nullable string;
  file_name : Js.nullable string;
  file_size : Js.nullable Z;
  file_type : Js.nullable string;
  status : Js.nullable string;
  progress : Js.nullable Z;
  extracted_text : Js.nullable string;
  markdown_output : Js.nullable string;
  options : list (string * bool);
  error_message : Js.nullable string;
  created_at : Js.nullable Z;
  updated_at : Js.nullable Z;
  completed_at : Js.nullable Z
}.

(** [{}]: the row of a change event that carries no columns. *)
Definition empty : row :=
  mk Js.Undefined Js.Undefined Js.Undefined Js.Undefined Js.Undefined
     Js.Undefined Js.Undefined Js.Undefined Js.Undefined Js.Undefined
     [] Js.Undefined Js.Undefined Js.Undefined Js.Undefined.

Definition set_status (s : Js.nullable string) (r : row) : row :=
  mk (id r) (user_id r) (file_path r) (file_name r) (file_size r) (file_type r)
     s (progress r) (extracted_text r) (markdown_output r) (options r)
     (error_message r) (created_at r) (updated_at r) (completed_at r).

Definition set_progress (p : Js.nullable Z) (r : row) : row :=
  mk (id r) (user_id r) (file_path r) (file_name r) (file_size r) (file_type r)
     (status r) p (extracted_text r) (markdown_output r) (options r)
     (error_message r) (created_at r) (updated_at r) (completed_at r).

Definition set_updated_at (u : Js.nullable Z) (r : row) : row :=
  mk (id r) (user_id r) (file_path r) (file_name r) (file_size r) (file_type r)
     (status r) (progress r) (extracted_text r) (markdown_output r) (options r)
     (error_message r) (created_at r) u (completed_at r).

End Job.

Module Annotation.

(** [text] and [position] are NOT NULL columns and [id] is the primary key. *)
Record row := mk {
  id : string;
  job_id : Js.nullable string;
  text : string;
  position : Z;
  sentiment_score : Js.nullable spec_float;
  emotion : Js.nullable string;
  metadata : list (string * string);
  created_at : Js.nullable Z
}.

(** [{ ...a, ...updates }]. Every row carries [id], [text], [position] and
    [metadata]; a nullable column that reads [undefined] is not carried. *)
Definition spread (a updates : row) : row :=
  mk (id updates)
     (Js.spread (job_id a) (job_id updates))
     (text updates)
     (position updates)
     (Js.spread (sentiment_score a) (sentiment_score updates))
     (Js.spread (emotion a) (emotion updates))
     (metadata updates)
     (Js.spread (created_at a) (created_at updates)).

End Annotation.

(** ** assets/js/components/annotations-viewer.component.js *)

Module AnnotationsViewerComponent.

(** A span that one turn of the [forEach] of [renderAnnotations] writes into
    [#annotations-content]: the values interpolated into its class, into its
    data attributes and into its content, and whether [selectAnnotation] has
    put the class [selected] on it.

    The template interpolates the values as they are: nothing is escaped.
    The spans written are the [.annotated-text] elements that the document
    holds after the assignment to [innerHTML] as long as the text, the
    identifier and the emotion label of every annotation hold no markup
    character ([Js.markup_chars]). A value with markup of its own parses to
    other elements and texts; the record does not describe those, and what
    is stated about fragments is stated about the spans written. *)
Record Fragment := mkFragment {
  frag_class : string;
  frag_annotation_id : string;
  frag_index : nat;
  frag_text : string;
  frag_selected : bool
}.

(** What [showAnnotationDetails] writes into [#annotation-details-content]:
    the interpolated values of its template, before number formatting.
    [detail_length] is [text.length] counted on the byte string of the model,
    which is the length the code shows for an ASCII text. *)
Record Details := mkDetails {
  detail_text : string;
  detail_score : spec_float;
  detail_color : string;
  detail_emotion : string;
  detail_position : Z;
  detail_length : nat
}.

(** The component: its fields and the part of the document it owns. The
    container is rendered, so every element the methods look up exists.
    [content_innerHTML] is the string last assigned to the [innerHTML] of
    [#annotations-content]; [fragments] are the spans of that string, with
    the marks that [selectAnnotation] has put on them since. *)
Record t := mk {
  highlightMode : string;
  annotations : list Annotation.row;
  selectedAnnotation : option Annotation.row;
  content_innerHTML : string;
  fragments : list Fragment;
  details_display : string;
  details_content : option Details
}.

Definition set_annotations (l : list Annotation.row) (v : t) : t :=
  mk (highlightMode v) l (selectedAnnotation v) (content_innerHTML v)
     (fragments v) (details_display v) (details_content v).

Definition set_selectedAnnotation (a : option Annotation.row) (v : t) : t :=
  mk (highlightMode v) (annotations v) a (content_innerHTML v)
     (fragments v) (details_display v) (details_content v).

Definition set_content (html : string) (fs : list Fragment) (v : t) : t :=
  mk (highlightMode v) (annotations v) (selectedAnnotation v) html fs
     (details_display v) (details_content v).

Definition set_fragments (fs : list Fragment) (v : t) : t :=
  mk (highlightMode v) (annotations v) (selectedAnnotation v)
     (content_innerHTML v) fs (details_display v) (details_content v).

Definition set_details (d : Details) (v : t) : t :=
  mk (highlightMode v) (annotations v) (selectedAnnotation v)
     (content_innerHTML v) (fragments v) "block" (Some d).

Definition set_highlightMode (m : string) (v : t) : t :=
  mk m (annotations v) (selectedAnnotation v) (content_innerHTML v)
     (fragments v) (details_display v) (details_content v).

(** The literals [0.3] and [-0.3] of [getHighlightClass]: the binary64 values
    nearest to them, 5404319552844595 * 2^-54 and its opposite. *)
Definition threshold : spec_float := S754_finite false 5404319552844595 (-54).
Definition neg_threshold : spec_float := SFopp threshold.

(** [getHighlightClass(annotation)] *)
Definition getHighlightClass (v : t) (annotation : Annotation.row) : string :=
  if String.eqb (highlightMode v) "sentiment" then
    let score := Js.or_zero (Annotation.sentiment_score annotation) in
    if Js.gt score threshold then "sentiment-positive"
    else if Js.lt score neg_threshold then "sentiment-negative"
    else "sentiment-neutral"
  else if String.eqb (highlightMode v) "emotion" then
    let emotion := Js.or_string (Annotation.emotion annotation) "neutral" in
    "emotion-" +:+ Js.toLowerCase emotion
  else "".

(** [[...this.annotations].sort((a, b) => a.position - b.position)]:
    [Array.prototype.sort] is a stable sort; on a copy of the array it yields
    the elements by ascending position, equal positions in their input order.
    Stable insertion realises that contract. *)
Fixpoint sort_insert (a : Annotation.row) (l : list Annotation.row) : list Annotation.row :=
  match l with
  | [] => [a]
  | b :: l' =>
      if (Annotation.position a - Annotation.position b <=? 0)%Z
      then a :: b :: l'
      else b :: sort_insert a l'
  end.

Definition sortedAnnotations (l : list Annotation.row) : list Annotation.row :=
  foldr sort_insert [] l.

(** The markup of the empty state. *)
Definition empty_state : string :=
  Js.nl +:+ "        <div class=" +:+ Js.dq +:+ "empty-state" +:+ Js.dq +:+ ">" +:+ Js.nl +:+
  "          <i class=" +:+ Js.dq +:+ "material-icons" +:+ Js.dq +:+ ">description</i>" +:+ Js.nl +:+
  "          <p>Keine Annotations verfügbar</p>" +:+ Js.nl +:+
  "          <small>Laden Sie ein Dokument hoch, um zu beginnen</small>" +:+ Js.nl +:+
  "        </div>" +:+ Js.nl +:+ "      ".

(** One turn of the [forEach] of [renderAnnotations]: the text appended to
    [html] for [annotation] at [index]. *)
Definition span_markup (v : t) (index : nat) (annotation : Annotation.row) : string :=
  "<span" +:+ Js.nl +:+
  "        class=" +:+ Js.dq +:+ "annotated-text " +:+ getHighlightClass v annotation +:+ Js.dq +:+ Js.nl +:+
  "        data-annotation-id=" +:+ Js.dq +:+ Annotation.id annotation +:+ Js.dq +:+ Js.nl +:+
  "        data-index=" +:+ Js.dq +:+ pretty index +:+ Js.dq +:+ Js.nl +:+
  "        onclick=" +:+ Js.dq +:+ "annotationsViewer.selectAnnotation(" +:+ pretty index +:+ ")" +:+ Js.dq +:+ Js.nl +:+
  "      >" +:+ Annotation.text annotation +:+ "</span> ".

(** The span that [span_markup] writes: the values interpolated into its
    attributes and content, not marked selected. *)
Definition span_element (v : t) (index : nat) (annotation : Annotation.row) : Fragment :=
  mkFragment ("annotated-text " +:+ getHighlightClass v annotation)
             (Annotation.id annotation) index (Annotation.text annotation) false.

(** [renderAnnotations()] *)
Definition renderAnnotations (v : t) : t :=
  match annotations v with
  | [] => set_content empty_state [] v
  | _ =>
      let sorted := sortedAnnotations (annotations v) in
      let html := foldl (fun html ia => html +:+ span_markup v ia.1 ia.2)
                        "" (imap pair sorted) in
      set_content html (imap (span_element v) sorted) v
  end.

(** [loadAnnotations(annotations)] *)
Definition loadAnnotations (l : list Annotation.row) (v : t) : t :=
  renderAnnotations (set_annotations l v).

(** [addAnnotation(annotation)] *)
Definition addAnnotation (annotation : Annotation.row) (v : t) : t :=
  renderAnnotations (set_annotations (annotations v ++ [annotation]) v).

(** [updateAnnotation(annotationId, updates)] *)
Definition updateAnnotation (annotationId : string) (updates : Annotation.row) (v : t) : t :=
  match list_find (fun a => Annotation.id a = annotationId) (annotations v) with
  | Some (index, found) =>
      renderAnnotations
        (set_annotations (<[index := Annotation.spread found updates]> (annotations v)) v)
  | None => v
  end.

(** [setHighlightMode(mode)] *)
Definition setHighlightMode (mode : string) (v : t) : t :=
  renderAnnotations (set_highlightMode mode v).

(** [showAnnotationDetails(annotation)] *)
Definition showAnnotationDetails (annotation : Annotation.row) (v : t) : t :=
  let sentimentScore := Js.or_zero (Annotation.sentiment_score annotation) in
  let sentimentColor :=
    if Js.gt sentimentScore Js.zero then "#48bb78"
    else if Js.lt sentimentScore Js.zero then "#f56565"
    else "#a0aec0" in
  set_details
    (mkDetails (Annotation.text annotation) sentimentScore sentimentColor
               (Js.or_string (Annotation.emotion annotation) "N/A")
               (Annotation.position annotation)
               (String.length (Annotation.text annotation)))
    v.

(** [el.classList.toggle('selected', i === index)] over the
    [.annotated-text] elements, taken as the spans written. *)
Definition toggle_selected (index : nat) (fs : list Fragment) : list Fragment :=
  imap (fun i el =>
          mkFragment (frag_class el) (frag_annotation_id el) (frag_index el)
                     (frag_text el) (bool_decide (i = index)))
       fs.

(** [selectAnnotation(index)]. Reading a property of [undefined] (an index
    outside [this.annotations]) throws a [TypeError] in
    [showAnnotationDetails], after the selection has been updated. *)
Definition selectAnnotation {W} (onAnnotationClick : option (Annotation.row -> Js.M W unit))
    (index : nat) : Js.M (t * W) unit :=
  let! annotation := Js.gets (fun s => annotations s.1 !! index) in
  do! Js.modify (fun s => (set_selectedAnnotation annotation s.1, s.2)) in
  do! Js.modify (fun s => (set_fragments (toggle_selected index (fragments s.1)) s.1, s.2)) in
  match annotation with
  | None => Js.throw (Js.mkError "TypeError: Cannot read properties of undefined")
  | Some a =>
      do! Js.modify (fun s => (showAnnotationDetails a s.1, s.2)) in
      Js.zoom snd (fun w s => (s.1, w)) (Js.call_if_set onAnnotationClick a)
  end.

(** The handler of a fragment's [onclick] attribute: the fragment rendered
    with [data-index] [k] calls [selectAnnotation(k)]. *)
Definition click {W} (onAnnotationClick : option (Annotation.row -> Js.M W unit))
    (el : Fragment) : Js.M (t * W) unit :=
  selectAnnotation onAnnotationClick (frag_index el).

(** The content of [#annotations-content] in the markup of [render()]. *)
Definition initial_content : string :=
  Js.nl +:+ "          <div class=" +:+ Js.dq +:+ "empty-state" +:+ Js.dq +:+ ">" +:+ Js.nl +:+
  "            <i class=" +:+ Js.dq +:+ "material-icons" +:+ Js.dq +:+ ">description</i>" +:+ Js.nl +:+
  "            <p>Keine Annotations verfügbar</p>" +:+ Js.nl +:+
  "            <small>Laden Sie ein Dokument hoch, um zu beginnen</small>" +:+ Js.nl +:+
  "          </div>" +:+ Js.nl +:+ "        ".

(** The component after its constructor ([highlightMode] is the option after
    its default): no annotations, the detail panel hidden. *)
Definition new (highlightMode : string) : t :=
  mk highlightMode [] None initial_content [] "none" None.

End AnnotationsViewerComponent.

(** ** The backend, as the client library presents it to the code

    Storage bucket [documents], the tables [marker_jobs] and
    [text_annotations] with the column defaults of the SQL schema in
    MARKER_INTEGRATION_SETUP.md, and the realtime channels of the client. A
    script decides, call by call, whether the service answers, answers with an
    [error] member, or the request promise rejects; an empty script answers. *)

Module File.

(** A browser [File]: its name, size in bytes and MIME type. *)
Record t := mk { name : string; size : Z; type : string }.

End File.

Module Supabase.

Inductive Reply :=
| Answers
| AnswersError (e : Js.JsError)
| Rejects (e : Js.JsError).

(** [{ data, error }] *)
Record Response (A : Type) := mkResponse {
  data : option A;
  error : option Js.JsError
}.
Arguments mkResponse {A} data error.
Arguments data {A} r.
Arguments error {A} r.

(** The filter of one [.on('postgres_changes', ...)] binding. *)
Record Binding := mkBinding {
  binding_event : string;
  binding_table : string;
  binding_filter : option string
}.

Record Channel := mkChannel {
  channel_id : nat;
  topic : string;
  bindings : list Binding
}.

#[global] Instance Binding_eq_dec : EqDecision Binding.
Proof. solve_decision. Defined.

#[global] Instance Channel_eq_dec : EqDecision Channel.
Proof. solve_decision. Defined.

Record t := mk {
  documents : gmap string File.t;
  marker_jobs : list Job.row;
  text_annotations : list Annotation.row;
  channels : list Channel;
  removed_channels : list Channel;
  next_channel : nat;
  uuid : nat -> string;
  next_uuid : nat;
  now : Z;
  script : list Reply
}.

Definition set_documents (d : gmap string File.t) (s : t) : t :=
  mk d (marker_jobs s) (text_annotations s) (channels s) (removed_channels s)
     (next_channel s) (uuid s) (next_uuid s) (now s) (script s).

Definition set_marker_jobs (j : list Job.row) (s : t) : t :=
  mk (documents s) j (text_annotations s) (channels s) (removed_channels s)
     (next_channel s) (uuid s) (next_uuid s) (now s) (script s).

Definition set_text_annotations (a : list Annotation.row) (s : t) : t :=
  mk (documents s) (marker_jobs s) a (channels s) (removed_channels s)
     (next_channel s) (uuid s) (next_uuid s) (now s) (script s).

Definition set_channels (c r : list Channel) (n : nat) (s : t) : t :=
  mk (documents s) (marker_jobs s) (text_annotations s) c r
     n (uuid s) (next_uuid s) (now s) (script s).

Definition set_next_uuid (n : nat) (s : t) : t :=
  mk (documents s) (marker_jobs s) (text_annotations s) (channels s)
     (removed_channels s) (next_channel s) (uuid s) n (now s) (script s).

Definition set_script (sc : list Reply) (s : t) : t :=
  mk (documents s) (marker_jobs s) (text_annotations s) (channels s)
     (removed_channels s) (next_channel s) (uuid s) (next_uuid s) (now s) sc.

(** The reply that the script holds for the next request. *)
Definition next_reply (s : t) : Reply * t :=
  match script s with
  | [] => (Answers, s)
  | r :: rest => (r, set_script rest s)
  end.

(** One awaited request: the script's next reply decides between the answer
    computed by [serve], an [error] answer that changes nothing, and a
    rejected promise. *)
Definition request {A} (serve : t -> Response A * t) : Js.M t (Response A) :=
  fun s =>
    let (reply, s1) := next_reply s in
    match reply with
    | Answers => let (r, s2) := serve s1 in (Js.Returned r, s2)
    | AnswersError e => (Js.Returned (mkResponse None (Some e)), s1)
    | Rejects e => (Js.Thrown e, s1)
    end.

(** [gen_random_uuid()] *)
Definition gen_random_uuid (s : t) : string * t :=
  (uuid s (next_uuid s), set_next_uuid (S (next_uuid s)) s).

(** [storage.from('documents').upload(path, file, { upsert: false })] *)
Definition storage_upload (path : string) (file : File.t) : Js.M t (Response string) :=
  request (fun s =>
    match documents s !! path with
    | Some _ => (mkResponse None (Some (Js.mkError "The resource already exists")), s)
    | None => (mkResponse (Some path) None, set_documents (<[path := file]> (documents s)) s)
    end).

(** The column defaults of [marker_jobs]: [id], [status], [progress],
    [created_at] and [updated_at] have one; an omitted column without a
    default is NULL. *)
Definition default_to {A} (d : Js.nullable A) (x : Js.nullable A) : Js.nullable A :=
  match x with
  | Js.Undefined => d
  | _ => x
  end.

Definition marker_jobs_defaults (new_id : string) (ts : Z) (r : Job.row) : Job.row :=
  Job.mk (default_to (Js.Val new_id) (Job.id r))
         (default_to Js.Null (Job.user_id r))
         (default_to Js.Null (Job.file_path r))
         (default_to Js.Null (Job.file_name r))
         (default_to Js.Null (Job.file_size r))
         (default_to Js.Null (Job.file_type r))
         (default_to (Js.Val "pending") (Job.status r))
         (default_to (Js.Val 0%Z) (Job.progress r))
         (default_to Js.Null (Job.extracted_text r))
         (default_to Js.Null (Job.markdown_output r))
         (Job.options r)
         (default_to Js.Null (Job.error_message r))
         (default_to (Js.Val ts) (Job.created_at r))
         (default_to (Js.Val ts) (Job.updated_at r))
         (default_to Js.Null (Job.completed_at r)).

Definition is_val {A} (x : Js.nullable A) : bool :=
  match x with Js.Val _ => true | _ => false end.

(** [from('marker_jobs').insert(values).select().single()]: [file_path] and
    [file_name] are NOT NULL. *)
Definition insert_marker_job (values : Job.row) : Js.M t (Response Job.row) :=
  request (fun s =>
    let (new_id, s1) := gen_random_uuid s in
    let r := marker_jobs_defaults new_id (now s) values in
    if is_val (Job.file_path r) && is_val (Job.file_name r)
    then (mkResponse (Some r) None, set_marker_jobs (marker_jobs s1 ++ [r]) s1)
    else (mkResponse None (Some (Js.mkError "null value violates not-null constraint")), s)).

(** [from('marker_jobs').select(...).eq('id', jobId).single()]: an error unless
    exactly one row matches. *)
Definition select_job_single (jobId : string) : Js.M t (Response Job.row) :=
  request (fun s =>
    match filter (fun r => Job.id r = Js.Val jobId) (marker_jobs s) with
    | [r] => (mkResponse (Some r) None, s)
    | _ => (mkResponse None (Some (Js.mkError "JSON object requested, multiple (or no) rows returned")), s)
    end).

(** [from('marker_jobs').update({ status, updated_at }).eq('id', jobId)] *)
Definition update_job_status (jobId : string) (status : string) (updated_at : Z)
  : Js.M t (Response unit) :=
  request (fun s =>
    (mkResponse None None,
     set_marker_jobs
       (map (fun r => if bool_decide (Job.id r = Js.Val jobId)
                      then Job.set_updated_at (Js.Val updated_at)
                             (Job.set_status (Js.Val status) r)
                      else r)
            (marker_jobs s))
       s)).

Definition position_le (a b : Annotation.row) : Prop :=
  (Annotation.position a <= Annotation.position b)%Z.

#[global] Instance position_le_dec : RelDecision position_le.
Proof. intros a b. unfold position_le. apply _. Defined.

(** [from('text_annotations').select('*').eq('job_id', jobId)
      .order('position', { ascending: true })] *)
Definition select_annotations (jobId : string) : Js.M t (Response (list Annotation.row)) :=
  request (fun s =>
    (mkResponse
       (Some (merge_sort position_le
                (filter (fun a => Annotation.job_id a = Js.Val jobId) (text_annotations s))))
       None,
     s)).

(** [from('text_annotations').insert(values).select().single()] with the
    defaults of the table ([id], [created_at]). *)
Definition insert_annotation (job_id : Js.nullable string) (text : string) (position : Z)
    (sentiment_score : Js.nullable spec_float) (emotion : Js.nullable string)
    (metadata : list (string * string)) (created_at : Js.nullable Z)
  : Js.M t (Response Annotation.row) :=
  request (fun s =>
    let (new_id, s1) := gen_random_uuid s in
    let r := Annotation.mk new_id (default_to Js.Null job_id) text position
               (default_to Js.Null sentiment_score) (default_to Js.Null emotion)
               metadata (default_to (Js.Val (now s)) created_at) in
    (mkResponse (Some r) None, set_text_annotations (text_annotations s1 ++ [r]) s1)).

(** [supabase.channel(topic).on(...).on(...).subscribe(cb)]: the client opens
    a channel; the subscription status reaches [cb] later, as an event. *)
Definition channel_subscribe (topic : string) (bs : list Binding) : Js.M t Channel :=
  fun s =>
    let c := mkChannel (next_channel s) topic bs in
    (Js.Returned c,
     set_channels (channels s ++ [c]) (removed_channels s) (S (next_channel s)) s).

(** [await supabase.removeChannel(channel)]: the channel leaves the client;
    the status the promise resolves to is not read by the code. *)
Definition removeChannel (c : Channel) : Js.M t unit :=
  fun s =>
    let (reply, s1) := next_reply s in
    match reply with
    | Rejects e => (Js.Thrown e, s1)
    | _ =>
        (Js.Returned tt,
         set_channels (filter (fun c' => c' ≠ c) (channels s1))
                      (removed_channels s1 ++ [c]) (next_channel s1) s1)
    end.

End Supabase.

(** ** assets/js/services/marker-engine.service.js

    [console.log] and [console.error] leave no trace in the model. *)

Module MarkerEngineService.

(** An entry of [processingQueue]. *)
Record QueueEntry := mkQueueEntry {
  queue_status : string;
  queue_progress : Z;
  startTime : Z
}.

Record t := mk {
  supabase : Supabase.t;
  processingQueue : gmap (Js.nullable string) QueueEntry;
  annotationCache : gmap string (list Annotation.row)
}.

(** [new MarkerEngineService(supabaseClient)] *)
Definition new (client : Supabase.t) : t := mk client ∅ ∅.

Definition set_supabase (c : Supabase.t) (s : t) : t :=
  mk c (processingQueue s) (annotationCache s).

Definition set_processingQueue (q : gmap (Js.nullable string) QueueEntry) (s : t) : t :=
  mk (supabase s) q (annotationCache s).

Definition set_annotationCache (c : gmap string (list Annotation.row)) (s : t) : t :=
  mk (supabase s) (processingQueue s) c.

(** [await this.supabase. ...] *)
Definition await {A} (m : Js.M Supabase.t A) : Js.M t A :=
  Js.zoom supabase set_supabase m.

(** [Date.now()] *)
Definition Date_now : Js.M t Z := Js.gets (fun s => Supabase.now (supabase s)).

(** [if (error) throw error;] *)
Definition throw_if_error {A} (r : Supabase.Response A) : Js.M t unit :=
  match Supabase.error r with
  | Some e => Js.throw e
  | None => Js.ret tt
  end.

(** [catch (error) { console.error(...); throw error; }] *)
Definition rethrow {A} (e : Js.JsError) : Js.M t A := Js.throw e.

(** The [data] member of an answer without [error]. The backend model always
    fills it for the requests that read it. *)
Definition data_of {A} (r : Supabase.Response A) : Js.M t A :=
  match Supabase.data r with
  | Some d => Js.ret d
  | None => Js.throw (Js.mkError "TypeError: Cannot read properties of null")
  end.

(** [uploadAndProcess(file, options = {})] *)
Definition uploadAndProcess (file : File.t) (options : list (string * bool)) : Js.M t Job.row :=
  Js.try_catch
    (let fileExt := Js.pop (Js.split_dot (File.name file)) in
     let! t0 := Date_now in
     let fileName := pretty t0 +:+ "_" +:+ File.name file in
     let filePath := "documents/" +:+ fileName in
     let! upload := await (Supabase.storage_upload filePath file) in
     do! throw_if_error upload in
     let! created := Date_now in
     let! job := await (Supabase.insert_marker_job
                   (Job.mk Js.Undefined Js.Undefined (Js.Val filePath)
                      (Js.Val (File.name file)) (Js.Val (File.size file))
                      (Js.Val fileExt) (Js.Val "pending") Js.Undefined
                      Js.Undefined Js.Undefined options Js.Undefined
                      (Js.Val created) Js.Undefined Js.Undefined)) in
     do! throw_if_error job in
     let! jobData := data_of job in
     let! started := Date_now in
     do! Js.modify (fun s =>
           set_processingQueue
             (<[Job.id jobData := mkQueueEntry "pending" 0 started]> (processingQueue s)) s) in
     Js.ret jobData)
    rethrow.

(** [getJobStatus(jobId)] *)
Definition getJobStatus (jobId : string) : Js.M t Job.row :=
  Js.try_catch
    (let! r := await (Supabase.select_job_single jobId) in
     do! throw_if_error r in
     data_of r)
    rethrow.

(** [getExtractedText(jobId)] *)
Definition getExtractedText (jobId : string) : Js.M t string :=
  Js.try_catch
    (let! r := await (Supabase.select_job_single jobId) in
     do! throw_if_error r in
     let! data := data_of r in
     Js.ret (Js.or_string
               (Js.or_else (Job.extracted_text data) (Job.markdown_output data))
               ""))
    rethrow.

(** [getAnnotations(jobId)] *)
Definition getAnnotations (jobId : string) : Js.M t (list Annotation.row) :=
  Js.try_catch
    (let! cache := Js.gets annotationCache in
     match cache !! jobId with
     | Some cached => Js.ret cached
     | None =>
         let! r := await (Supabase.select_annotations jobId) in
         do! throw_if_error r in
         let! data := data_of r in
         do! Js.modify (fun s =>
               set_annotationCache (<[jobId := data]> (annotationCache s)) s) in
         Js.ret data
     end)
    rethrow.

(** The argument of [createAnnotation]. *)
Record NewAnnotation := mkNewAnnotation {
  jobId : string;
  new_text : string;
  new_position : Z;
  sentimentScore : Js.nullable spec_float;
  new_emotion : Js.nullable string;
  new_metadata : list (string * string)
}.

(** [createAnnotation(annotation)] *)
Definition createAnnotation (annotation : NewAnnotation) : Js.M t Annotation.row :=
  Js.try_catch
    (let! created := Date_now in
     let! r := await (Supabase.insert_annotation (Js.Val (jobId annotation))
                   (new_text annotation) (new_position annotation)
                   (sentimentScore annotation) (new_emotion annotation)
                   (new_metadata annotation) (Js.Val created)) in
     do! throw_if_error r in
     do! Js.modify (fun s =>
           set_annotationCache (delete (jobId annotation) (annotationCache s)) s) in
     data_of r)
    rethrow.

(** [cancelJob(jobId)] *)
Definition cancelJob (jobId : string) : Js.M t bool :=
  Js.try_catch
    (let! updated := Date_now in
     let! r := await (Supabase.update_job_status jobId "cancelled" updated) in
     do! throw_if_error r in
     do! Js.modify (fun s =>
           set_processingQueue (delete (Js.Val jobId) (processingQueue s)) s) in
     Js.ret true)
    rethrow.

(** [clearCache()] *)
Definition clearCache : Js.M t unit :=
  Js.modify (set_annotationCache ∅).

End MarkerEngineService.

(** ** The upload view: client-side validation *)

Module DocumentUploadComponent.

Inductive Notification :=
| UnsupportedType (fileExt : string)
| TooLarge (name : string) (maxFileSize : Z)
| NoValidFiles.

(** [this.options] after the defaults of the constructor, the selected files
    and the error notifications shown so far. *)
Record t := mk {
  maxFileSize : Z;
  allowedTypes : list string;
  multiple : bool;
  selectedFiles : list File.t;
  notifications : list Notification
}.

(** [new DocumentUploadComponent(id, {})]: 50 MiB and the default
    allow-list. *)
Definition default : t :=
  mk (50 * 1024 * 1024) ["pdf"; "docx"; "doc"; "txt"; "md"] false [] [].

(** The component as the orchestrator constructs it. *)
Definition of_app : t :=
  mk (50 * 1024 * 1024) ["pdf"; "docx"; "doc"; "txt"; "md"; "html"] false [] [].

Definition notify (n : Notification) (c : t) : t :=
  mk (maxFileSize c) (allowedTypes c) (multiple c) (selectedFiles c)
     (notifications c ++ [n]).

(** [validateFile(file)] *)
Definition validateFile (file : File.t) : Js.M t bool :=
  let fileExt := Js.toLowerCase (Js.pop (Js.split_dot (File.name file))) in
  let! c := Js.get in
  if negb (bool_decide (fileExt ∈ allowedTypes c)) then
    do! Js.modify (notify (UnsupportedType fileExt)) in
    Js.ret false
  else if (maxFileSize c <? File.size file)%Z then
    do! Js.modify (notify (TooLarge (File.name file) (maxFileSize c))) in
    Js.ret false
  else Js.ret true.

(** A file that [validateFile] accepts: the value it returns. *)
Definition valid (c : t) (file : File.t) : bool :=
  match validateFile file c with
  | (Js.Returned b, _) => b
  | (Js.Thrown _, _) => false
  end.

End DocumentUploadComponent.

(** ** assets/js/components/processing-status.component.js *)

Module ProcessingStatusComponent.

(** [this.options]: the callbacks act on the world [W] of their owner. *)
Record Options (W : Type) := mkOptions {
  showDetails : bool;
  autoClose : bool;
  autoCloseDelay : Z;
  onStatusChange : option (Job.row -> Js.M W unit);
  onComplete : option (Job.row -> Js.M W unit);
  onError : option (Job.row -> Js.M W unit)
}.
Arguments mkOptions {W}.
Arguments showDetails {W}.
Arguments autoClose {W}.
Arguments autoCloseDelay {W}.
Arguments onStatusChange {W}.
Arguments onComplete {W}.
Arguments onError {W}.

(** The component's fields and the elements of its rendered card. A running
    ticker is the handle [setInterval] returned; [hide_timeouts] are the
    delays of the [setTimeout(() => this.hide(), ...)] calls made so far. *)
Record t := mk {
  currentJob : option Job.row;
  statusInterval : option nat;
  intervals_started : nat;
  hide_timeouts : list Z;
  wrapper_display : string;
  wrapper_className : string;
  status_title : string;
  status_description : string;
  status_icon : string;
  progress_bar_width : string;
  progress_percentage : string;
  job_status : string;
  job_id : string;
  file_name : string;
  cancel_button_display : string
}.

(** [<i class="material-icons ...">name</i>] *)
Definition icon (classes name : string) : string :=
  "<i class=" +:+ Js.dq +:+ classes +:+ Js.dq +:+ ">" +:+ name +:+ "</i>".

(** The card as [render()] writes it. *)
Definition new : t :=
  mk None None 0 [] "none" "processing-status-wrapper"
     "Dokument wird verarbeitet..."
     "Bitte warten Sie, während Marker den Text extrahiert"
     (icon "material-icons rotating" "hourglass_empty")
     "0%" "0%" "pending" "-" "-" "none".

Definition set_details (id name status : string) (c : t) : t :=
  mk (currentJob c) (statusInterval c) (intervals_started c) (hide_timeouts c)
     (wrapper_display c) (wrapper_className c) (status_title c)
     (status_description c) (status_icon c) (progress_bar_width c)
     (progress_percentage c) status id name (cancel_button_display c).

Definition set_progress (p : string) (c : t) : t :=
  mk (currentJob c) (statusInterval c) (intervals_started c) (hide_timeouts c)
     (wrapper_display c) (wrapper_className c) (status_title c)
     (status_description c) (status_icon c) p p (job_status c) (job_id c)
     (file_name c) (cancel_button_display c).

Definition set_banner (title description icon className : string) (c : t) : t :=
  mk (currentJob c) (statusInterval c) (intervals_started c) (hide_timeouts c)
     (wrapper_display c) className title description icon
     (progress_bar_width c) (progress_percentage c) (job_status c) (job_id c)
     (file_name c) (cancel_button_display c).

Definition set_cancel_button (display : string) (c : t) : t :=
  mk (currentJob c) (statusInterval c) (intervals_started c) (hide_timeouts c)
     (wrapper_display c) (wrapper_className c) (status_title c)
     (status_description c) (status_icon c) (progress_bar_width c)
     (progress_percentage c) (job_status c) (job_id c) (file_name c) display.

Definition set_statusInterval (h : option nat) (n : nat) (c : t) : t :=
  mk (currentJob c) h n (hide_timeouts c)
     (wrapper_display c) (wrapper_className c) (status_title c)
     (status_description c) (status_icon c) (progress_bar_width c)
     (progress_percentage c) (job_status c) (job_id c) (file_name c)
     (cancel_button_display c).

Definition add_hide_timeout (delay : Z) (c : t) : t :=
  mk (currentJob c) (statusInterval c) (intervals_started c)
     (hide_timeouts c ++ [delay])
     (wrapper_display c) (wrapper_className c) (status_title c)
     (status_description c) (status_icon c) (progress_bar_width c)
     (progress_percentage c) (job_status c) (job_id c) (file_name c)
     (cancel_button_display c).

Definition set_currentJob (j : option Job.row) (c : t) : t :=
  mk j (statusInterval c) (intervals_started c) (hide_timeouts c)
     (wrapper_display c) (wrapper_className c) (status_title c)
     (status_description c) (status_icon c) (progress_bar_width c)
     (progress_percentage c) (job_status c) (job_id c) (file_name c)
     (cancel_button_display c).

Definition set_wrapper_display (d : string) (c : t) : t :=
  mk (currentJob c) (statusInterval c) (intervals_started c) (hide_timeouts c)
     d (wrapper_className c) (status_title c)
     (status_description c) (status_icon c) (progress_bar_width c)
     (progress_percentage c) (job_status c) (job_id c) (file_name c)
     (cancel_button_display c).

(** [stopTimer()] *)
Definition stopTimer (c : t) : t :=
  match statusInterval c with
  | Some _ => set_statusInterval None (intervals_started c) c
  | None => c
  end.

(** [startTimer()] *)
Definition startTimer (c : t) : t :=
  set_statusInterval (Some (intervals_started c)) (S (intervals_started c)) c.

(** [show()] *)
Definition show (c : t) : t := set_wrapper_display "block" c.

(** A method of the component, run next to the world of the callbacks. *)
Definition on_self {W} (f : t -> t) : Js.M (t * W) unit :=
  Js.modify (fun s => (f s.1, s.2)).

(** A callback of [this.options], run on the world of its owner. *)
Definition callback {W} (h : option (Job.row -> Js.M W unit)) (data : Job.row)
  : Js.M (t * W) unit :=
  Js.zoom snd (fun w s => (s.1, w)) (Js.call_if_set h data).

(** [data.status] as the [switch] sees it: the [case] labels are compared with
    [===]. *)
Definition status_is (data : Job.row) (label : string) : bool :=
  bool_decide (Job.status data = Js.Val label).

(** [updateStatus(data)] *)
Definition updateStatus {W} (options : Options W) (data : Job.row) : Js.M (t * W) unit :=
  do! on_self (set_details (Js.or_string (Job.id data) "-")
                           (Js.or_string (Job.file_name data) "-")
                           (Js.or_string (Job.status data) "unknown")) in
  let progress := Js.or_zero_int (Job.progress data) in
  do! on_self (set_progress (pretty progress +:+ "%")) in
  do! (if status_is data "pending" then
         on_self (set_banner "Warte in der Warteschlange..."
                             "Ihr Dokument wird gleich verarbeitet"
                             (icon "material-icons rotating" "hourglass_empty")
                             "processing-status-wrapper")
       else if status_is data "processing" then
         on_self (set_banner "Dokument wird verarbeitet..."
                             "Marker extrahiert Text und erstellt Annotations"
                             (icon "material-icons rotating" "auto_fix_high")
                             "processing-status-wrapper")
       else if status_is data "completed" then
         do! on_self (set_banner "Verarbeitung abgeschlossen!"
                                 "Text wurde erfolgreich extrahiert"
                                 (icon "material-icons" "check_circle")
                                 "processing-status-wrapper status-success") in
         do! on_self (set_cancel_button "none") in
         do! on_self stopTimer in
         do! callback (onComplete options) data in
         if autoClose options
         then on_self (add_hide_timeout (autoCloseDelay options))
         else Js.ret tt
       else if status_is data "failed" || status_is data "error" then
         do! on_self (set_banner "Verarbeitung fehlgeschlagen"
                                 (Js.or_string (Job.error_message data)
                                               "Ein Fehler ist aufgetreten")
                                 (icon "material-icons" "error")
                                 "processing-status-wrapper status-error") in
         do! on_self (set_cancel_button "none") in
         do! on_self stopTimer in
         callback (onError options) data
       else if status_is data "cancelled" then
         do! on_self (set_banner "Verarbeitung abgebrochen"
                                 "Der Vorgang wurde vom Benutzer abgebrochen"
                                 (icon "material-icons" "cancel")
                                 "processing-status-wrapper status-error") in
         do! on_self (set_cancel_button "none") in
         on_self stopTimer
       else Js.ret tt) in
  callback (onStatusChange options) data.

(** [startTracking(jobData)] *)
Definition startTracking {W} (options : Options W) (jobData : Job.row) : Js.M (t * W) unit :=
  do! on_self (set_currentJob (Some jobData)) in
  do! on_self show in
  do! updateStatus options jobData in
  do! on_self startTimer in
  if status_is jobData "pending" || status_is jobData "processing"
  then on_self (set_cancel_button "block")
  else Js.ret tt.

(** The status updates delivered to the view, one [updateStatus] call after
    the other; a call that throws ends the run. *)
Fixpoint updates {W} (options : Options W) (ds : list Job.row) : Js.M (t * W) unit :=
  match ds with
  | [] => Js.ret tt
  | d :: ds' => do! updateStatus options d in updates options ds'
  end.

End ProcessingStatusComponent.

(** ** The change-subscription layer (class RealtimeAnnotationsService) *)

Module RealtimeAnnotationsService.

(** The objects handed to the callbacks. *)
Record StatusChangeEvent := mkStatusChange {
  sc_jobId : string;
  oldStatus : Js.nullable string;
  newStatus : Js.nullable string;
  sc_data : Job.row
}.

Record ProgressUpdateEvent := mkProgressUpdate {
  pu_jobId : string;
  progress : Js.nullable Z;
  pu_data : Job.row
}.

Record JobUpdateEvent := mkJobUpdate {
  ju_jobId : string;
  ju_eventType : string;
  ju_data : Job.row;
  oldData : option Job.row
}.

Record AnnotationAddedEvent := mkAnnotationAdded {
  aa_jobId : string;
  aa_annotation : Annotation.row
}.

Record AnnotationModifiedEvent := mkAnnotationModified {
  am_jobId : string;
  am_annotation : Annotation.row;
  am_oldAnnotation : option Annotation.row
}.

Record AnnotationUpdateEvent := mkAnnotationUpdate {
  au_jobId : string;
  au_type : string;
  au_annotation : Annotation.row;
  au_oldAnnotation : option Annotation.row
}.

(** The [handlers] object of [subscribeToJob]: each member may be absent. *)
Record Handlers (W : Type) := mkHandlers {
  onStatusChange : option (StatusChangeEvent -> Js.M W unit);
  onProgressUpdate : option (ProgressUpdateEvent -> Js.M W unit);
  onJobUpdate : option (JobUpdateEvent -> Js.M W unit);
  onAnnotationAdded : option (AnnotationAddedEvent -> Js.M W unit);
  onAnnotationModified : option (AnnotationModifiedEvent -> Js.M W unit);
  onAnnotationUpdate : option (AnnotationUpdateEvent -> Js.M W unit);
  onConnectionChange : option (bool -> Js.M W unit);
  onGlobalAnnotationUpdate : option (Annotation.row -> Js.M W unit)
}.
Arguments mkHandlers {W}.
Arguments onStatusChange {W}.
Arguments onProgressUpdate {W}.
Arguments onJobUpdate {W}.
Arguments onAnnotationAdded {W}.
Arguments onAnnotationModified {W}.
Arguments onAnnotationUpdate {W}.
Arguments onConnectionChange {W}.
Arguments onGlobalAnnotationUpdate {W}.

(** [handlers = {}] *)
Definition no_handlers {W} : Handlers W :=
  mkHandlers None None None None None None None None.

(** The payload of a row change of [marker_jobs]: [new] is [{}] for a
    DELETE, [old] may be missing. *)
Record JobPayload := mkJobPayload {
  new : Job.row;
  old : option Job.row;
  eventType : string
}.

Record AnnotationPayload := mkAnnotationPayload {
  new_annotation : Annotation.row;
  old_annotation : option Annotation.row
}.

(** [oldData?.status] and [oldData?.progress] *)
Definition old_status (oldData : option Job.row) : Js.nullable string :=
  match oldData with
  | Some o => Job.status o
  | None => Js.Undefined
  end.

Definition old_progress (oldData : option Job.row) : Js.nullable Z :=
  match oldData with
  | Some o => Job.progress o
  | None => Js.Undefined
  end.

(** [handleJobUpdate(jobId, payload, handlers)] *)
Definition handleJobUpdate {W} (jobId : string) (payload : JobPayload)
    (handlers : Handlers W) : Js.M W unit :=
  let newData := new payload in
  let oldData := old payload in
  do! (if Js.strict_neq (Job.status newData) (old_status oldData)
       then Js.call_if_set (onStatusChange handlers)
              (mkStatusChange jobId (old_status oldData) (Job.status newData) newData)
       else Js.ret tt) in
  do! (if Js.strict_neq (Job.progress newData) (old_progress oldData)
       then Js.call_if_set (onProgressUpdate handlers)
              (mkProgressUpdate jobId (Job.progress newData) newData)
       else Js.ret tt) in
  Js.call_if_set (onJobUpdate handlers)
    (mkJobUpdate jobId (eventType payload) newData oldData).

(** [handleAnnotationInsert(jobId, payload, handlers)] *)
Definition handleAnnotationInsert {W} (jobId : string) (payload : AnnotationPayload)
    (handlers : Handlers W) : Js.M W unit :=
  do! Js.call_if_set (onAnnotationAdded handlers)
        (mkAnnotationAdded jobId (new_annotation payload)) in
  Js.call_if_set (onAnnotationUpdate handlers)
    (mkAnnotationUpdate jobId "insert" (new_annotation payload) None).

(** [handleAnnotationUpdate(jobId, payload, handlers)] *)
Definition handleAnnotationUpdate {W} (jobId : string) (payload : AnnotationPayload)
    (handlers : Handlers W) : Js.M W unit :=
  do! Js.call_if_set (onAnnotationModified handlers)
        (mkAnnotationModified jobId (new_annotation payload) (old_annotation payload)) in
  Js.call_if_set (onAnnotationUpdate handlers)
    (mkAnnotationUpdate jobId "update" (new_annotation payload) (old_annotation payload)).

(** The service: the client it was constructed with and its two maps. *)
Record t (W : Type) := mk {
  supabase : Supabase.t;
  subscriptions : gmap string Supabase.Channel;
  eventHandlers : gmap string (Handlers W);
  isConnected : bool
}.
Arguments mk {W}.
Arguments supabase {W}.
Arguments subscriptions {W}.
Arguments eventHandlers {W}.
Arguments isConnected {W}.

(** [new RealtimeAnnotationsService(supabaseClient)] *)
Definition create {W} (client : Supabase.t) : t W := mk client ∅ ∅ false.

Definition set_supabase {W} (c : Supabase.t) (s : t W) : t W :=
  mk c (subscriptions s) (eventHandlers s) (isConnected s).

Definition set_subscriptions {W} (m : gmap string Supabase.Channel) (s : t W) : t W :=
  mk (supabase s) m (eventHandlers s) (isConnected s).

Definition set_eventHandlers {W} (m : gmap string (Handlers W)) (s : t W) : t W :=
  mk (supabase s) (subscriptions s) m (isConnected s).

Definition set_isConnected {W} (b : bool) (s : t W) : t W :=
  mk (supabase s) (subscriptions s) (eventHandlers s) b.

Definition await {W A} (m : Js.M Supabase.t A) : Js.M (t W) A :=
  Js.zoom supabase set_supabase m.

(** [catch (error) { console.error(...); throw error; }] *)
Definition rethrow {W A} (e : Js.JsError) : Js.M (t W) A := Js.throw e.

(** [unsubscribeFromJob(jobId)] *)
Definition unsubscribeFromJob {W} (jobId : string) : Js.M (t W) unit :=
  Js.try_catch
    (let! subs := Js.gets subscriptions in
     match subs !! jobId with
     | Some channel =>
         do! await (Supabase.removeChannel channel) in
         do! Js.modify (fun s => set_subscriptions (delete jobId (subscriptions s)) s) in
         Js.modify (fun s => set_eventHandlers (delete jobId (eventHandlers s)) s)
     | None => Js.ret tt
     end)
    rethrow.

(** The three bindings of a job channel. *)
Definition job_bindings (jobId : string) : list Supabase.Binding :=
  [ Supabase.mkBinding "*" "marker_jobs" (Some ("id=eq." +:+ jobId));
    Supabase.mkBinding "INSERT" "text_annotations" (Some ("job_id=eq." +:+ jobId));
    Supabase.mkBinding "UPDATE" "text_annotations" (Some ("job_id=eq." +:+ jobId)) ].

(** [subscribeToJob(jobId, handlers = {})] *)
Definition subscribeToJob {W} (jobId : string) (handlers : Handlers W)
  : Js.M (t W) Supabase.Channel :=
  Js.try_catch
    (let! subs := Js.gets subscriptions in
     do! (if bool_decide (is_Some (subs !! jobId))
          then unsubscribeFromJob jobId
          else Js.ret tt) in
     let! channel := await (Supabase.channel_subscribe ("job-" +:+ jobId) (job_bindings jobId)) in
     do! Js.modify (fun s => set_subscriptions (<[jobId := channel]> (subscriptions s)) s) in
     do! Js.modify (fun s => set_eventHandlers (<[jobId := handlers]> (eventHandlers s)) s) in
     Js.ret channel)
    rethrow.

(** [subscribeToAllAnnotations(handlers = {})] *)
Definition subscribeToAllAnnotations {W} (handlers : Handlers W)
  : Js.M (t W) Supabase.Channel :=
  Js.try_catch
    (let channelName := "annotations-global" in
     let! subs := Js.gets subscriptions in
     do! (if bool_decide (is_Some (subs !! channelName))
          then unsubscribeFromJob channelName
          else Js.ret tt) in
     let! channel := await (Supabase.channel_subscribe channelName
                              [Supabase.mkBinding "*" "text_annotations" None]) in
     do! Js.modify (fun s => set_subscriptions (<[channelName := channel]> (subscriptions s)) s) in
     Js.ret channel)
    rethrow.

(** *** The same methods as tasks

    [unsubscribeFromJob], [subscribeToJob] and [subscribeToAllAnnotations]
    above are the methods run from call to end. A call is suspended at each
    [await], and the service keeps nothing that tells a call in flight: a
    second call can read the table between the [has] or [get] of the first
    and its [delete] or [set]. The tasks below have these suspension points;
    a removal takes effect on the client when it is answered. *)

Module Tasks.

(** [unsubscribeFromJob(jobId)]: suspended at [await removeChannel(channel)];
    both entries are deleted in the turn in which the removal is answered, a
    rejection is thrown on by the [catch]. *)
Definition unsubscribeFromJob {W} (jobId : string) : Js.Async Supabase.t (t W) unit :=
  fun s =>
    match subscriptions s !! jobId with
    | Some channel =>
        (Js.Suspended (Supabase.removeChannel channel)
           (fun answer s' =>
              match answer with
              | Js.Returned _ =>
                  (Js.Settled (Js.Returned tt),
                   set_eventHandlers (delete jobId (eventHandlers s'))
                     (set_subscriptions (delete jobId (subscriptions s')) s'))
              | Js.Thrown e => (Js.Settled (Js.Thrown e), s')
              end),
         s)
    | None => (Js.Settled (Js.Returned tt), s)
    end.

(** What follows the [if] of [subscribeToJob]: the channel is opened and
    both entries are set, in one turn. *)
Definition open_channel {W} (key topic : string) (bs : list Supabase.Binding)
    (entries : Supabase.Channel -> t W -> t W) : Js.Async Supabase.t (t W) Supabase.Channel :=
  fun s =>
    match Supabase.channel_subscribe topic bs (supabase s) with
    | (Js.Returned channel, db) =>
        (Js.Settled (Js.Returned channel), entries channel (set_supabase db s))
    | (Js.Thrown e, db) => (Js.Settled (Js.Thrown e), set_supabase db s)
    end.

(** [if (this.subscriptions.has(key)) { await this.unsubscribeFromJob(key); }]
    and what follows it. *)
Definition resubscribe {W} (key : string)
    (rest : Js.Async Supabase.t (t W) Supabase.Channel)
  : Js.Async Supabase.t (t W) Supabase.Channel :=
  fun s =>
    if bool_decide (is_Some (subscriptions s !! key)) then
      let (callee, s1) := unsubscribeFromJob key s in
      (Js.await_task callee
         (fun r => match r with
                   | Js.Returned _ => rest
                   | Js.Thrown e => fun s' => (Js.Settled (Js.Thrown e), s')
                   end),
       s1)
    else rest s.

(** [subscribeToJob(jobId, handlers = {})] *)
Definition subscribeToJob {W} (jobId : string) (handlers : Handlers W)
  : Js.Async Supabase.t (t W) Supabase.Channel :=
  resubscribe jobId
    (open_channel jobId ("job-" +:+ jobId) (job_bindings jobId)
       (fun channel s =>
          set_eventHandlers (<[jobId := handlers]> (eventHandlers s))
            (set_subscriptions (<[jobId := channel]> (subscriptions s)) s))).

(** [subscribeToAllAnnotations(handlers = {})] *)
Definition subscribeToAllAnnotations {W} (handlers : Handlers W)
  : Js.Async Supabase.t (t W) Supabase.Channel :=
  resubscribe "annotations-global"
    (open_channel "annotations-global" "annotations-global"
       [Supabase.mkBinding "*" "text_annotations" None]
       (fun channel s =>
          set_subscriptions (<["annotations-global" := channel]> (subscriptions s)) s)).

End Tasks.

(** The callback given to [.subscribe(...)] in [subscribeToJob], run when the
    client reports the subscription status. *)
Definition on_subscription_status {W} (handlers : Handlers W) (status : string)
  : Js.M (t W * W) unit :=
  do! Js.modify (fun s => (set_isConnected (String.eqb status "SUBSCRIBED") s.1, s.2)) in
  let! connected := Js.gets (fun s => isConnected s.1) in
  Js.zoom snd (fun w s => (s.1, w)) (Js.call_if_set (onConnectionChange handlers) connected).

(** [isSubscribedToJob(jobId)] *)
Definition isSubscribedToJob {W} (jobId : string) (s : t W) : bool :=
  bool_decide (is_Some (subscriptions s !! jobId)).

(** [getActiveSubscriptionsCount()] *)
Definition getActiveSubscriptionsCount {W} (s : t W) : nat :=
  size (subscriptions s).

(** [getConnectionStatus()] *)
Definition getConnectionStatus {W} (s : t W) : bool := isConnected s.

(** The calls a client of the service makes on the subscription table. A call
    that throws leaves the service as the exception found it. *)
Inductive Call (W : Type) :=
| CallSubscribeToJob (jobId : string) (handlers : Handlers W)
| CallSubscribeToAllAnnotations (handlers : Handlers W)
| CallUnsubscribeFromJob (jobId : string).
Arguments CallSubscribeToJob {W}.
Arguments CallSubscribeToAllAnnotations {W}.
Arguments CallUnsubscribeFromJob {W}.

Definition call {W} (c : Call W) (s : t W) : t W :=
  match c with
  | CallSubscribeToJob jobId handlers => (subscribeToJob jobId handlers s).2
  | CallSubscribeToAllAnnotations handlers => (subscribeToAllAnnotations handlers s).2
  | CallUnsubscribeFromJob jobId => (unsubscribeFromJob jobId s).2
  end.

Definition calls {W} (cs : list (Call W)) (s : t W) : t W :=
  foldl (fun s c => call c s) s cs.

(** The calls in flight: the service and the task of every call started so
    far, in the order of the calls. *)
Record Pool (W : Type) := mkPool {
  service : t W;
  tasks : list (Js.Task Supabase.t (t W) unit)
}.
Arguments mkPool {W}.
Arguments service {W}.
Arguments tasks {W}.

(** The service with no call in flight. *)
Definition idle {W} (s : t W) : Pool W := mkPool s [].

(** What the scheduler does next: a client calls a method, which runs to its
    first [await], or the task of call [i] gets its next turn. *)
Inductive Event (W : Type) :=
| Start (c : Call W)
| Resume (i : nat).
Arguments Start {W}.
Arguments Resume {W}.

Definition start {W} (c : Call W) : Js.Async Supabase.t (t W) unit :=
  fun s =>
    match c with
    | CallSubscribeToJob jobId handlers =>
        let (task, s') := Tasks.subscribeToJob jobId handlers s in (Js.forget task, s')
    | CallSubscribeToAllAnnotations handlers =>
        let (task, s') := Tasks.subscribeToAllAnnotations handlers s in (Js.forget task, s')
    | CallUnsubscribeFromJob jobId => Tasks.unsubscribeFromJob jobId s
    end.

Definition step {W} (ev : Event W) (p : Pool W) : Pool W :=
  match ev with
  | Start c =>
      let (task, s) := start c (service p) in
      mkPool s (tasks p ++ [task])
  | Resume i =>
      match tasks p !! i with
      | Some task =>
          let (task', s) := Js.resume_task supabase set_supabase task (service p) in
          mkPool s (<[i := task']> (tasks p))
      | None => p
      end
  end.

Definition run {W} (evs : list (Event W)) (p : Pool W) : Pool W :=
  foldl (fun p ev => step ev p) p evs.

(** The schedule of calls that do not overlap: each call is started and given
    its turns before the next one starts. No method of the service has more
    than two [await]s on a path. [first] is the number of calls started
    before. *)
Fixpoint in_turn {W} (first : nat) (cs : list (Call W)) : list (Event W) :=
  match cs with
  | [] => []
  | c :: rest => Start c :: Resume first :: Resume first :: in_turn (S first) rest
  end.

(** The live channels of the client that serve job [jobId]. *)
Definition live_for_job {W} (jobId : string) (s : t W) : list Supabase.Channel :=
  filter (fun c => Supabase.topic c = "job-" +:+ jobId) (Supabase.channels (supabase s)).

End RealtimeAnnotationsService.

(** ** The orchestrator (class MarkerIntegrationApp): what it registers with
    the status view and with the change subscription

    An [async] method that a callback starts without awaiting it is recorded
    as a started task; [showNotification] is recorded as a notification. *)

Module MarkerIntegrationApp.

Inductive Task :=
| HandleProcessingComplete (data : Job.row)
| LoadAnnotations (jobId : Js.nullable string).

Record t := mk {
  statusComponent : ProcessingStatusComponent.t;
  annotationsViewer : AnnotationsViewerComponent.t;
  notifications : list (string * string);
  started : list Task
}.

Definition set_statusComponent (c : ProcessingStatusComponent.t) (a : t) : t :=
  mk c (annotationsViewer a) (notifications a) (started a).

Definition set_annotationsViewer (v : AnnotationsViewerComponent.t) (a : t) : t :=
  mk (statusComponent a) v (notifications a) (started a).

(** [showNotification(message, type)] *)
Definition showNotification (message type : string) : Js.M t unit :=
  Js.modify (fun a =>
    mk (statusComponent a) (annotationsViewer a)
       (notifications a ++ [(message, type)]) (started a)).

Definition start (task : Task) : Js.M t unit :=
  Js.modify (fun a =>
    mk (statusComponent a) (annotationsViewer a) (notifications a)
       (started a ++ [task])).

(** [handleStatusChange(data)] *)
Definition handleStatusChange (data : Job.row) : Js.M t unit :=
  if ProcessingStatusComponent.status_is data "processing" then
    showNotification "Marker Engine verarbeitet Ihr Dokument..." "info"
  else if ProcessingStatusComponent.status_is data "completed" then
    showNotification "Verarbeitung erfolgreich abgeschlossen!" "success"
  else if ProcessingStatusComponent.status_is data "failed"
          || ProcessingStatusComponent.status_is data "error" then
    showNotification "Verarbeitung fehlgeschlagen" "error"
  else Js.ret tt.

(** [handleProcessingComplete(data)], an [async] method. *)
Definition handleProcessingComplete (data : Job.row) : Js.M t unit :=
  start (HandleProcessingComplete data).

(** [handleProcessingError(data)] *)
Definition handleProcessingError (data : Job.row) : Js.M t unit :=
  showNotification
    ("Verarbeitungsfehler: " +:+ Js.or_string (Job.error_message data) "Unbekannter Fehler")
    "error".

(** The options of the status view in [initializeComponents]. *)
Definition status_options : ProcessingStatusComponent.Options t :=
  ProcessingStatusComponent.mkOptions true false 3000
    (Some handleStatusChange) (Some handleProcessingComplete)
    (Some handleProcessingError).

(** [this.statusComponent.updateStatus(data)] *)
Definition statusComponent_updateStatus (data : Job.row) : Js.M t unit :=
  fun a =>
    let (r, s) := ProcessingStatusComponent.updateStatus status_options data
                    (statusComponent a, a) in
    (r, set_statusComponent s.1 s.2).

(** [handleJobUpdate(event)], an [async] method whose only step is the awaited
    [loadAnnotations]. *)
Definition handleJobUpdate (event : RealtimeAnnotationsService.JobUpdateEvent) : Js.M t unit :=
  let data := RealtimeAnnotationsService.ju_data event in
  if ProcessingStatusComponent.status_is data "completed"
  then start (LoadAnnotations (Job.id data))
  else Js.ret tt.

(** [handleNewAnnotation(annotation)] *)
Definition handleNewAnnotation (annotation : Annotation.row) : Js.M t unit :=
  do! Js.modify (fun a =>
        set_annotationsViewer
          (AnnotationsViewerComponent.addAnnotation annotation (annotationsViewer a)) a) in
  showNotification "Neue Annotation hinzugefügt" "info".

(** [handleAnnotationUpdate(event)] *)
Definition handleAnnotationUpdate (event : RealtimeAnnotationsService.AnnotationUpdateEvent)
  : Js.M t unit :=
  if String.eqb (RealtimeAnnotationsService.au_type event) "update"
  then
    let annotation := RealtimeAnnotationsService.au_annotation event in
    Js.modify (fun a =>
      set_annotationsViewer
        (AnnotationsViewerComponent.updateAnnotation (Annotation.id annotation) annotation
           (annotationsViewer a)) a)
  else Js.ret tt.

(** The handlers that [subscribeToJobUpdates] passes to [subscribeToJob]. *)
Definition job_handlers : RealtimeAnnotationsService.Handlers t :=
  RealtimeAnnotationsService.mkHandlers
    (Some (fun event =>
       statusComponent_updateStatus (RealtimeAnnotationsService.sc_data event)))
    (Some (fun event =>
       statusComponent_updateStatus (RealtimeAnnotationsService.pu_data event)))
    (Some handleJobUpdate)
    (Some (fun event => handleNewAnnotation (RealtimeAnnotationsService.aa_annotation event)))
    None
    (Some handleAnnotationUpdate)
    (Some (fun connected : bool =>
       showNotification
         (if connected then "Echtzeit-Verbindung hergestellt"
          else "Echtzeit-Verbindung getrennt")
         (if connected then "success" else "warning")))
    None.

(** A row change of [marker_jobs] delivered to the subscription of
    [subscribeToJobUpdates(jobId)]. *)
Definition job_row_changed (jobId : string) (payload : RealtimeAnnotationsService.JobPayload)
  : Js.M t unit :=
  RealtimeAnnotationsService.handleJobUpdate jobId payload job_handlers.

(** The application after [initializeComponents]. *)
Definition new : t :=
  mk ProcessingStatusComponent.new (AnnotationsViewerComponent.new "sentiment") [] [].

(** The [handleProcessingComplete] tasks started so far. *)
Definition completions (a : t) : list Job.row :=
  omap (fun task => match task with
                    | HandleProcessingComplete d => Some d
                    | LoadAnnotations _ => None
                    end)
       (started a).

End MarkerIntegrationApp.

(** * Vocabulary of the properties *)

Module Props.

(** The annotation [a] with another sentiment score. *)
Definition scored (score : Js.nullable spec_float) (a : Annotation.row) : Annotation.row :=
  Annotation.mk (Annotation.id a) (Annotation.job_id a) (Annotation.text a)
    (Annotation.position a) score (Annotation.emotion a) (Annotation.metadata a)
    (Annotation.created_at a).

(** The annotations of [l] at position [p], in their order in [l]. *)
Definition at_position (p : Z) (l : list Annotation.row) : list Annotation.row :=
  filter (fun a => Annotation.position a = p) l.

(** Two lists agree on ties: the annotations that share a position come in the
    same order in both. Lists that agree on ties hold the same annotations. *)
Definition same_ties (l1 l2 : list Annotation.row) : Prop :=
  forall p, at_position p l1 = at_position p l2.

(** Ascending by position. *)
Definition ascending (l : list Annotation.row) : Prop :=
  Sorted Supabase.position_le l.

(** The detail panel filled from annotation [a]. *)
Definition details_of (a : Annotation.row) : AnnotationsViewerComponent.Details :=
  let score := Js.or_zero (Annotation.sentiment_score a) in
  AnnotationsViewerComponent.mkDetails
    (Annotation.text a) score
    (if Js.gt score Js.zero then "#48bb78"
     else if Js.lt score Js.zero then "#f56565" else "#a0aec0")
    (Js.or_string (Annotation.emotion a) "N/A")
    (Annotation.position a)
    (String.length (Annotation.text a)).

(** Whether an update carries the status [completed]. *)
Definition completed (d : Job.row) : bool :=
  bool_decide (Job.status d = Js.Val "completed").

(** The transitions into [completed] of a sequence of updates, after an update
    of status [prev]: the updates that carry [completed] while the update
    before them did not. *)
Fixpoint transitions_into_completed (prev : bool) (ds : list Job.row) : nat :=
  match ds with
  | [] => 0
  | d :: ds' =>
      (if completed d && negb prev then 1 else 0)
      + transitions_into_completed (completed d) ds'
  end.

(** Status-view options whose [onComplete] records the row it was called
    with; the other callbacks are absent. *)
Definition recording_options (showDetails autoClose : bool) (autoCloseDelay : Z)
  : ProcessingStatusComponent.Options (list Job.row) :=
  ProcessingStatusComponent.mkOptions showDetails autoClose autoCloseDelay
    None (Some (fun d => Js.modify (fun log => (log ++ [d])%list))) None.

(** The [onComplete] invocations of a run of updates on the status view
    [view]. *)
Definition onComplete_calls (showDetails autoClose : bool) (autoCloseDelay : Z)
    (view : ProcessingStatusComponent.t) (ds : list Job.row) : list Job.row :=
  (ProcessingStatusComponent.updates
     (recording_options showDetails autoClose autoCloseDelay) ds (view, [])).2.2.

(** The invocations a set of recording handlers observes. *)
Inductive Invocation :=
| StatusChange (e : RealtimeAnnotationsService.StatusChangeEvent)
| ProgressUpdate (e : RealtimeAnnotationsService.ProgressUpdateEvent)
| JobUpdate (e : RealtimeAnnotationsService.JobUpdateEvent).

Definition record (i : Invocation) : Js.M (list Invocation) unit :=
  Js.modify (fun log => (log ++ [i])%list).

(** Handlers for the three job callbacks that record each invocation. *)
Definition recording_handlers : RealtimeAnnotationsService.Handlers (list Invocation) :=
  RealtimeAnnotationsService.mkHandlers
    (Some (fun e => record (StatusChange e)))
    (Some (fun e => record (ProgressUpdate e)))
    (Some (fun e => record (JobUpdate e)))
    None None None None None.

(** Sample annotations: the two of the end-to-end scenario of the change
    feed (positions 5 and 2, in arrival order) and a second one at position
    2. *)
Definition world_at_5 : Annotation.row :=
  Annotation.mk "a-1" (Js.Val "job-1") "world" 5
    (Js.Val (S754_finite false 4503599627370496 (-53))) (Js.Val "joy") [] Js.Null.

Definition hello_at_2 : Annotation.row :=
  Annotation.mk "a-2" (Js.Val "job-1") "hello" 2 Js.Null Js.Null [] Js.Null.

Definition again_at_2 : Annotation.row :=
  Annotation.mk "a-3" (Js.Val "job-1") "again" 2 Js.Null Js.Null [] Js.Null.

(** Sample job rows: one job at different stages of its processing. *)
Definition job_at (status : string) (progress : Z) : Job.row :=
  Job.mk (Js.Val "job-1") Js.Null (Js.Val "documents/1_report.pdf")
    (Js.Val "report.pdf") (Js.Val 5242880%Z) (Js.Val "pdf") (Js.Val status)
    (Js.Val progress) Js.Null Js.Null [] Js.Null (Js.Val 1%Z) (Js.Val 1%Z) Js.Null.

(** The text of a string column, empty when the column holds none. *)
Definition string_of (x : Js.nullable string) : string :=
  match x with
  | Js.Val text => text
  | _ => ""
  end.

(** The rows that [getAnnotations] reads for a job: its annotation rows, by
    ascending position. *)
Definition fetched (jobId : string) (s : MarkerEngineService.t) : list Annotation.row :=
  merge_sort Supabase.position_le
    (filter (fun a => Annotation.job_id a = Js.Val jobId)
            (Supabase.text_annotations (MarkerEngineService.supabase s))).

(** A job whose extracted text is empty and whose markdown output is not. *)
Definition extracted_job : Job.row :=
  Job.mk (Js.Val "job-2") Js.Null (Js.Val "documents/2_notes.md")
    (Js.Val "notes.md") (Js.Val 1024%Z) (Js.Val "md") (Js.Val "completed")
    (Js.Val 100%Z) (Js.Val "") (Js.Val "# Report") [] Js.Null
    (Js.Val 2%Z) (Js.Val 2%Z) (Js.Val 3%Z).

(** A backend that holds the given rows and answers every request. *)
Definition sample_backend (jobs : list Job.row) (rows : list Annotation.row) : Supabase.t :=
  Supabase.mk ∅ jobs rows [] [] 0 (fun n => "uuid-" +:+ pretty n) 0 1700000000000 [].

(** The upload of the end-to-end scenario: [report.pdf], 5 MB. *)
Definition report_pdf : File.t := File.mk "report.pdf" 5242880 "application/pdf".

(** The client after a [removeChannel] of [c] that resolved. *)
Definition without (c : Supabase.Channel) (db : Supabase.t) : Supabase.t :=
  Supabase.set_channels (filter (fun c' => c' ≠ c) (Supabase.channels db))
    (Supabase.removed_channels db ++ [c]) (Supabase.next_channel db) db.

(** The service after an [unsubscribeFromJob] that removed channel [c], the
    script having moved the client to [db]. *)
Definition unsubscribed {W} (jobId : string) (c : Supabase.Channel) (db : Supabase.t)
    (s : RealtimeAnnotationsService.t W) : RealtimeAnnotationsService.t W :=
  RealtimeAnnotationsService.set_eventHandlers
    (delete jobId (RealtimeAnnotationsService.eventHandlers s))
    (RealtimeAnnotationsService.set_subscriptions
       (delete jobId (RealtimeAnnotationsService.subscriptions s))
       (RealtimeAnnotationsService.set_supabase (without c db) s)).

(** The client after [channel(...).subscribe(...)] opened channel [c]. *)
Definition opened (c : Supabase.Channel) (db : Supabase.t) : Supabase.t :=
  Supabase.set_channels (Supabase.channels db ++ [c]) (Supabase.removed_channels db)
    (S (Supabase.next_channel db)) db.

(** The channel that the client opens next. *)
Definition fresh_channel (topic : string) (bs : list Supabase.Binding)
    (db : Supabase.t) : Supabase.Channel :=
  Supabase.mkChannel (Supabase.next_channel db) topic bs.

(** The subscription table tracks the client: the live channels are without
    repetition, carry identifiers the client has already used, are exactly the
    values of the table, sit under the key their topic names, and no channel
    sits under two keys. *)
Definition tracked (db : Supabase.t) (table : gmap string Supabase.Channel) : Prop :=
  NoDup (Supabase.channels db)
  /\ (forall c, c ∈ Supabase.channels db ->
        (Supabase.channel_id c < Supabase.next_channel db)%nat)
  /\ (forall c, c ∈ Supabase.channels db <-> exists key, table !! key = Some c)
  /\ (forall key c, table !! key = Some c ->
        Supabase.topic c = "job-" +:+ key
        \/ (key = "annotations-global" /\ Supabase.topic c = "annotations-global"))
  /\ (forall k1 k2 c, table !! k1 = Some c -> table !! k2 = Some c -> k1 = k2).

End Props.

(** * Further code of the sources

    The methods of the same classes that the models above leave out, and the
    callers of the modelled methods. *)

(** ** The status view: ticker text, hiding, resetting, the cancel button *)

Module ProcessingStatusControls.

(** [formatElapsedTime(seconds)] on a whole number of seconds:
    [Math.floor(seconds / 60)] rounds down and [seconds % 60] takes the sign
    of [seconds]. *)
Definition formatElapsedTime (seconds : Z) : string :=
  let mins := (seconds / 60)%Z in
  let secs := Z.rem seconds 60 in
  if (0 <? mins)%Z
  then pretty mins +:+ "m " +:+ pretty secs +:+ "s"
  else pretty secs +:+ "s".

(** [hide()] *)
Definition hide (c : ProcessingStatusComponent.t) : ProcessingStatusComponent.t :=
  ProcessingStatusComponent.stopTimer
    (ProcessingStatusComponent.set_wrapper_display "none" c).

(** [reset()] *)
Definition reset (c : ProcessingStatusComponent.t) : ProcessingStatusComponent.t :=
  hide (ProcessingStatusComponent.stopTimer
          (ProcessingStatusComponent.set_currentJob None c)).

(** [getCurrentJob()] *)
Definition getCurrentJob (c : ProcessingStatusComponent.t) : option Job.row :=
  ProcessingStatusComponent.currentJob c.

(** [cancelJob()], the handler of the cancel button; [confirmed] is the
    answer of the user to [confirm(...)], asked only when a job is tracked.
    Whatever [updateStatus] throws is caught and logged. *)
Definition cancelJob {W} (options : ProcessingStatusComponent.Options W)
    (confirmed : bool) : Js.M (ProcessingStatusComponent.t * W) unit :=
  let! current := Js.gets (fun s => ProcessingStatusComponent.currentJob s.1) in
  match current with
  | Some job =>
      if confirmed
      then Js.try_catch
             (ProcessingStatusComponent.updateStatus options
                (Job.set_status (Js.Val "cancelled") job))
             (fun _ => Js.ret tt)
      else Js.ret tt
  | None => Js.ret tt
  end.

(** The details section of the card and the button that toggles it. *)
Record DetailsSection := mkDetailsSection {
  details_display : string;
  toggle_text : string
}.

(** The section as [render()] writes it. *)
Definition rendered_details : DetailsSection :=
  mkDetailsSection "none" "Details anzeigen".

(** [toggleDetails()] *)
Definition toggleDetails (d : DetailsSection) : DetailsSection :=
  if String.eqb (details_display d) "none"
  then mkDetailsSection "block" "Details verbergen"
  else mkDetailsSection "none" "Details anzeigen".

End ProcessingStatusControls.

(** ** The annotation view: clearing *)

Module AnnotationsViewerControls.

(** [clear()] *)
Definition clear (v : AnnotationsViewerComponent.t) : AnnotationsViewerComponent.t :=
  let v1 := AnnotationsViewerComponent.renderAnnotations
              (AnnotationsViewerComponent.set_selectedAnnotation None
                 (AnnotationsViewerComponent.set_annotations [] v)) in
  AnnotationsViewerComponent.mk
    (AnnotationsViewerComponent.highlightMode v1)
    (AnnotationsViewerComponent.annotations v1)
    (AnnotationsViewerComponent.selectedAnnotation v1)
    (AnnotationsViewerComponent.content_innerHTML v1)
    (AnnotationsViewerComponent.fragments v1)
    "none"
    (AnnotationsViewerComponent.details_content v1).

(** [getAnnotations()] and [getSelectedAnnotation()] *)
Definition getAnnotations (v : AnnotationsViewerComponent.t) : list Annotation.row :=
  AnnotationsViewerComponent.annotations v.

Definition getSelectedAnnotation (v : AnnotationsViewerComponent.t) : option Annotation.row :=
  AnnotationsViewerComponent.selectedAnnotation v.

End AnnotationsViewerControls.

(** ** The upload view: the queue of selected files and the simulated upload *)

Module UploadView.

(** A rendered item [div#file-<index>] of [#file-list], with the widths, in
    percent, of the progress bars [#progress-<index>] inserted into it. *)
Record Item := mkItem {
  item_file : File.t;
  progress_bars : list Z
}.

(** The callbacks of [this.options]; they act on the world [W] of their
    owner. *)
Record Callbacks (W : Type) := mkCallbacks {
  onFileSelect : option (list File.t -> Js.M W unit);
  onUploadStart : option (list File.t -> Js.M W unit);
  onUploadProgress : option (File.t * Z -> Js.M W unit);
  onUploadComplete : option (File.t * nat -> Js.M W unit);
  onUploadError : option (File.t * Js.JsError -> Js.M W unit)
}.
Arguments mkCallbacks {W}.
Arguments onFileSelect {W}.
Arguments onUploadStart {W}.
Arguments onUploadProgress {W}.
Arguments onUploadComplete {W}.
Arguments onUploadError {W}.

(** The component with the part of the document it owns: the rendered file
    list, the display of the queue and of the upload actions, and the
    warnings shown. *)
Record t := mk {
  component : DocumentUploadComponent.t;
  file_list : list Item;
  upload_queue_display : string;
  upload_actions_display : string;
  warnings : list string
}.

(** The view after the constructor has rendered it. *)
Definition create (c : DocumentUploadComponent.t) : t := mk c [] "none" "none" [].

Definition set_component (c : DocumentUploadComponent.t) (v : t) : t :=
  mk c (file_list v) (upload_queue_display v) (upload_actions_display v) (warnings v).

Definition set_file_list (l : list Item) (v : t) : t :=
  mk (component v) l (upload_queue_display v) (upload_actions_display v) (warnings v).

Definition set_upload_queue_display (d : string) (v : t) : t :=
  mk (component v) (file_list v) d (upload_actions_display v) (warnings v).

Definition set_upload_actions_display (d : string) (v : t) : t :=
  mk (component v) (file_list v) (upload_queue_display v) d (warnings v).

Definition warn (message : string) (v : t) : t :=
  mk (component v) (file_list v) (upload_queue_display v) (upload_actions_display v)
     (warnings v ++ [message]).

(** [this.selectedFiles] *)
Definition selectedFiles (v : t) : list File.t :=
  DocumentUploadComponent.selectedFiles (component v).

Definition set_selectedFiles (files : list File.t) (v : t) : t :=
  set_component
    (DocumentUploadComponent.mk
       (DocumentUploadComponent.maxFileSize (component v))
       (DocumentUploadComponent.allowedTypes (component v))
       (DocumentUploadComponent.multiple (component v))
       files
       (DocumentUploadComponent.notifications (component v)))
    v.

(** [renderFileList()]: with no file selected the queue is hidden and the
    list is left as it is. *)
Definition renderFileList (v : t) : t :=
  match selectedFiles v with
  | [] => set_upload_queue_display "none" v
  | files =>
      set_file_list (map (fun file => mkItem file []) files)
        (set_upload_queue_display "block" v)
  end.

(** [showUploadActions()] and [hideUploadActions()] *)
Definition showUploadActions (v : t) : t :=
  match selectedFiles v with
  | [] => v
  | _ => set_upload_actions_display "block" v
  end.

Definition hideUploadActions (v : t) : t := set_upload_actions_display "none" v.

(** A method of the view, run next to the world of the callbacks. *)
Definition on_self {W} (f : t -> t) : Js.M (t * W) unit :=
  Js.modify (fun s => (f s.1, s.2)).

(** A callback of [this.options], run on the world of its owner. *)
Definition callback {W E} (h : option (E -> Js.M W unit)) (ev : E) : Js.M (t * W) unit :=
  Js.zoom snd (fun w s => (s.1, w)) (Js.call_if_set h ev).

(** [files.filter(file => this.validateFile(file))]: every file is validated,
    in order, with the notifications that brings. *)
Fixpoint validFiles (files : list File.t) : Js.M DocumentUploadComponent.t (list File.t) :=
  match files with
  | [] => Js.ret []
  | file :: rest =>
      let! ok := DocumentUploadComponent.validateFile file in
      let! others := validFiles rest in
      Js.ret (if ok then file :: others else others)
  end.

(** [addFiles(files)] *)
Definition addFiles {W} (callbacks : Callbacks W) (files : list File.t)
  : Js.M (t * W) unit :=
  let! valid := Js.zoom (fun s => component s.1) (fun c s => (set_component c s.1, s.2))
                  (validFiles files) in
  match valid with
  | [] =>
      on_self (fun v =>
        set_component
          (DocumentUploadComponent.notify DocumentUploadComponent.NoValidFiles (component v))
          v)
  | first :: _ =>
      do! on_self (fun v =>
            if DocumentUploadComponent.multiple (component v)
            then set_selectedFiles (selectedFiles v ++ valid) v
            else set_selectedFiles [first] v) in
      do! on_self renderFileList in
      do! on_self showUploadActions in
      let! selected := Js.gets (fun s => selectedFiles s.1) in
      callback (onFileSelect callbacks) selected
  end.

(** [removeFile(index)]: [splice(index, 1)] at an index from the start of the
    list, as the rendered buttons pass it. *)
Definition removeFile (index : nat) (v : t) : t :=
  let v1 := renderFileList (set_selectedFiles (delete index (selectedFiles v)) v) in
  match selectedFiles v1 with
  | [] => hideUploadActions v1
  | _ => v1
  end.

(** [clearFiles()] *)
Definition clearFiles (v : t) : t :=
  hideUploadActions (renderFileList (set_selectedFiles [] v)).

(** [getSelectedFiles()] *)
Definition getSelectedFiles (v : t) : list File.t := selectedFiles v.

(** [reset()]: [clearFiles()], then [render()] writes the markup anew, with
    an empty list and both sections hidden. *)
Definition reset (v : t) : t :=
  let v1 := clearFiles v in
  mk (component v1) [] "none" "none" (warnings v1).

(** [fileItem.querySelector('.file-details').insertAdjacentHTML(...)]: a new
    progress bar of width 0 at the end of item [index]. *)
Definition add_progress_bar (index : nat) (item : Item) (v : t) : t :=
  set_file_list
    (<[index := mkItem (item_file item) (progress_bars item ++ [0%Z])]> (file_list v)) v.

(** [document.getElementById(`progress-${index}`).style.width = ...]: the
    first bar that carries the identifier, which is the first bar of item
    [index]. *)
Definition set_progress_width {W} (index : nat) (progress : Z) : Js.M (t * W) unit :=
  let! items := Js.gets (fun s => file_list s.1) in
  match items !! index with
  | Some (mkItem file (_ :: bars)) =>
      on_self (set_file_list (<[index := mkItem file (progress :: bars)]> items))
  | _ => Js.throw (Js.mkError "TypeError: Cannot read properties of null")
  end.

(** The steps of the simulated progress: 0, 10, ..., 100. *)
Definition progress_steps : list Z := [0; 10; 20; 30; 40; 50; 60; 70; 80; 90; 100]%Z.

(** The body of the [for] loop over the progress steps. *)
Fixpoint simulate_progress {W} (report : File.t * Z -> Js.M W unit) (file : File.t)
    (index : nat) (steps : list Z) : Js.M (t * W) unit :=
  match steps with
  | [] => Js.ret tt
  | progress :: rest =>
      do! set_progress_width index progress in
      do! callback (Some report) (file, progress) in
      simulate_progress report file index rest
  end.

(** [uploadFile(file, index)] *)
Definition uploadFile {W} (callbacks : Callbacks W) (file : File.t) (index : nat)
  : Js.M (t * W) unit :=
  Js.try_catch
    (let! items := Js.gets (fun s => file_list s.1) in
     match items !! index with
     | None => Js.throw (Js.mkError "TypeError: Cannot read properties of null")
     | Some item =>
         do! on_self (add_progress_bar index item) in
         do! (match onUploadProgress callbacks with
              | Some report => simulate_progress report file index progress_steps
              | None => Js.ret tt
              end) in
         callback (onUploadComplete callbacks) (file, index)
     end)
    (fun error => callback (onUploadError callbacks) (file, error)).

(** The [for] loop of [startUpload] from index [i] on, over the files left. *)
Fixpoint upload_from {W} (callbacks : Callbacks W) (i : nat) (files : list File.t)
  : Js.M (t * W) unit :=
  match files with
  | [] => Js.ret tt
  | file :: rest =>
      do! uploadFile callbacks file i in
      upload_from callbacks (S i) rest
  end.

(** [startUpload()] *)
Definition startUpload {W} (callbacks : Callbacks W) : Js.M (t * W) unit :=
  let! files := Js.gets (fun s => selectedFiles s.1) in
  match files with
  | [] => on_self (warn "Keine Dateien ausgewählt")
  | _ =>
      do! callback (onUploadStart callbacks) files in
      upload_from callbacks 0 files
  end.

End UploadView.

(** ** The change-subscription layer: leaving all subscriptions *)

Module RealtimeCleanup.

(** [unsubscribeAll()]. [keys] is [Array.from(this.subscriptions.keys())], the
    keys of the table in the insertion order of the [Map], which the table of
    the model does not record. Every [unsubscribeFromJob] is started, each on
    its own key; [Promise.all] waits for them and rejects with the first
    rejection, which the [catch] logs and throws again. *)
Definition unsubscribeAll {W} (keys : list string)
  : Js.M (RealtimeAnnotationsService.t W) unit :=
  Js.try_catch
    (fun s =>
       foldl (fun acc jobId =>
                let (r, s1) := acc : Js.outcome unit * RealtimeAnnotationsService.t W in
                let (r', s2) := RealtimeAnnotationsService.unsubscribeFromJob jobId s1 in
                (match r with
                 | Js.Thrown e => Js.Thrown e
                 | Js.Returned _ => r'
                 end, s2))
             (Js.Returned tt, s) keys)
    RealtimeAnnotationsService.rethrow.

End RealtimeCleanup.

(** ** Vocabulary of the further properties *)

(** ** The orchestrator: one application with its services

    [MarkerIntegrationApp] after [init()]. Both services were constructed
    with the same client object, so the application holds one client: the
    one inside the access layer, which the realtime service reads and writes
    too. An [async] method is run from its call to its end, the awaited
    requests answered in order by the script of the backend, with no other
    task in between. *)

Module Session.

(** A row of [sentiment_analysis], a table of the backend that the client
    record of the services does not carry. *)
Record SentimentRow := mkSentimentRow {
  sa_id : string;
  sa_job_id : string;
  sa_text : string;
  sa_status : string;
  sa_created_at : Z
}.

Record t := mk {
  app : MarkerIntegrationApp.t;
  uploadComponent : UploadView.t;
  markerService : MarkerEngineService.t;
  subscriptions : gmap string Supabase.Channel;
  eventHandlers : gmap string (RealtimeAnnotationsService.Handlers MarkerIntegrationApp.t);
  isConnected : bool;
  sentiment_analysis : list SentimentRow;
  currentJobId : Js.nullable string
}.

(** The application after [init()] on the client [client]. *)
Definition new (client : Supabase.t) : t :=
  mk MarkerIntegrationApp.new (UploadView.create DocumentUploadComponent.of_app)
     (MarkerEngineService.new client) ∅ ∅ false [] Js.Null.

Definition set_app (x : MarkerIntegrationApp.t) (a : t) : t :=
  mk x (uploadComponent a) (markerService a) (subscriptions a) (eventHandlers a)
     (isConnected a) (sentiment_analysis a) (currentJobId a).

Definition set_uploadComponent (x : UploadView.t) (a : t) : t :=
  mk (app a) x (markerService a) (subscriptions a) (eventHandlers a)
     (isConnected a) (sentiment_analysis a) (currentJobId a).

Definition set_markerService (x : MarkerEngineService.t) (a : t) : t :=
  mk (app a) (uploadComponent a) x (subscriptions a) (eventHandlers a)
     (isConnected a) (sentiment_analysis a) (currentJobId a).

Definition set_sentiment_analysis (x : list SentimentRow) (a : t) : t :=
  mk (app a) (uploadComponent a) (markerService a) (subscriptions a) (eventHandlers a)
     (isConnected a) x (currentJobId a).

Definition set_currentJobId (x : Js.nullable string) (a : t) : t :=
  mk (app a) (uploadComponent a) (markerService a) (subscriptions a) (eventHandlers a)
     (isConnected a) (sentiment_analysis a) x.

(** [this.supabaseClient], the one client of both services. *)
Definition client (a : t) : Supabase.t := MarkerEngineService.supabase (markerService a).

Definition set_client (db : Supabase.t) (a : t) : t :=
  set_markerService (MarkerEngineService.set_supabase db (markerService a)) a.

(** [this.realtimeService]: its own fields around the shared client. *)
Definition realtimeService (a : t) : RealtimeAnnotationsService.t MarkerIntegrationApp.t :=
  RealtimeAnnotationsService.mk (client a) (subscriptions a) (eventHandlers a)
    (isConnected a).

Definition set_realtimeService (r : RealtimeAnnotationsService.t MarkerIntegrationApp.t)
    (a : t) : t :=
  mk (app a) (uploadComponent a)
     (MarkerEngineService.set_supabase (RealtimeAnnotationsService.supabase r)
        (markerService a))
     (RealtimeAnnotationsService.subscriptions r)
     (RealtimeAnnotationsService.eventHandlers r)
     (RealtimeAnnotationsService.isConnected r)
     (sentiment_analysis a) (currentJobId a).

(** A method of the application proper, of the access layer and of the
    realtime service, run inside the session. *)
Definition on_app {A} (m : Js.M MarkerIntegrationApp.t A) : Js.M t A :=
  Js.zoom app set_app m.

Definition marker {A} (m : Js.M MarkerEngineService.t A) : Js.M t A :=
  Js.zoom markerService set_markerService m.

Definition realtime {A}
    (m : Js.M (RealtimeAnnotationsService.t MarkerIntegrationApp.t) A) : Js.M t A :=
  Js.zoom realtimeService set_realtimeService m.

(** [this.showNotification(message, type)] *)
Definition showNotification (message type : string) : Js.M t unit :=
  on_app (MarkerIntegrationApp.showNotification message type).

(** [`${id}`]: the text that a template literal and a filter of the client
    library make of an identifier. The backend gives every row an [id]; for a
    row without one this text stands for the identifier. *)
Definition template (x : Js.nullable string) : string :=
  match x with
  | Js.Val text => text
  | Js.Null => "null"
  | Js.Undefined => "undefined"
  end.

(** The options that [processDocument] passes to [uploadAndProcess]. *)
Definition processing_options : list (string * bool) :=
  [("extract_images", true); ("extract_tables", true);
   ("generate_markdown", true); ("analyze_sentiment", true)].

(** [this.statusComponent.startTracking(jobData)] *)
Definition statusComponent_startTracking (jobData : Job.row)
  : Js.M MarkerIntegrationApp.t unit :=
  fun a =>
    let (r, s) := ProcessingStatusComponent.startTracking
                    MarkerIntegrationApp.status_options jobData
                    (MarkerIntegrationApp.statusComponent a, a) in
    (r, MarkerIntegrationApp.set_statusComponent s.1 s.2).

(** [subscribeToJobUpdates(jobId)] *)
Definition subscribeToJobUpdates (jobId : string) : Js.M t unit :=
  Js.try_catch
    (let! _ := realtime (RealtimeAnnotationsService.subscribeToJob jobId
                           MarkerIntegrationApp.job_handlers) in
     Js.ret tt)
    (fun error =>
       showNotification ("Fehler bei Echtzeit-Updates: " +:+ Js.message error) "warning").

(** [processDocument(file)] *)
Definition processDocument (file : File.t) : Js.M t unit :=
  Js.try_catch
    (do! showNotification "Starte Dokumentenverarbeitung..." "info" in
     let! jobData := marker (MarkerEngineService.uploadAndProcess file processing_options) in
     do! Js.modify (set_currentJobId (Job.id jobData)) in
     do! on_app (statusComponent_startTracking jobData) in
     do! subscribeToJobUpdates (template (Job.id jobData)) in
     showNotification "Dokument wird verarbeitet..." "info")
    (fun error =>
       do! showNotification ("Fehler bei der Verarbeitung: " +:+ Js.message error) "error" in
       Js.throw error).

(** The [for ... of] loop of [handleUploadStart]. *)
Fixpoint process_each (files : list File.t) : Js.M t unit :=
  match files with
  | [] => Js.ret tt
  | file :: rest =>
      do! processDocument file in
      process_each rest
  end.

(** [handleUploadStart(files)] *)
Definition handleUploadStart (files : list File.t) : Js.M t unit :=
  Js.try_catch
    (process_each files)
    (fun error =>
       showNotification ("Fehler beim Upload-Start: " +:+ Js.message error) "error").

(** [loadAnnotations(jobId)] *)
Definition loadAnnotations (jobId : string) : Js.M t unit :=
  Js.try_catch
    (let! annotations := marker (MarkerEngineService.getAnnotations jobId) in
     do! on_app (Js.modify (fun x =>
           MarkerIntegrationApp.set_annotationsViewer
             (AnnotationsViewerComponent.loadAnnotations annotations
                (MarkerIntegrationApp.annotationsViewer x)) x)) in
     showNotification (pretty (length annotations) +:+ " Annotations geladen") "success")
    (fun error =>
       showNotification ("Fehler beim Laden der Annotations: " +:+ Js.message error) "error").

(** [from('sentiment_analysis').insert({ job_id, text, status, created_at })
      .select().single()]: [job_id] references [marker_jobs(id)]; [id] has a
    default. *)
Definition insert_sentiment_analysis (job_id text : string) (created_at : Z)
  : Js.M t (Supabase.Response SentimentRow) :=
  fun a =>
    let (reply, db1) := Supabase.next_reply (client a) in
    match reply with
    | Supabase.Answers =>
        if bool_decide (Exists (fun r => Job.id r = Js.Val job_id) (Supabase.marker_jobs db1))
        then
          let (new_id, db2) := Supabase.gen_random_uuid db1 in
          let r := mkSentimentRow new_id job_id text "pending" created_at in
          (Js.Returned (Supabase.mkResponse (Some r) None),
           set_sentiment_analysis (sentiment_analysis a ++ [r]) (set_client db2 a))
        else
          (Js.Returned
             (Supabase.mkResponse None
                (Some (Js.mkError "insert or update violates foreign key constraint"))),
           set_client db1 a)
    | Supabase.AnswersError e =>
        (Js.Returned (Supabase.mkResponse None (Some e)), set_client db1 a)
    | Supabase.Rejects e => (Js.Thrown e, set_client db1 a)
    end.

(** [this.markerService.analyzeSentiment(jobId, text)] *)
Definition markerService_analyzeSentiment (jobId text : string) : Js.M t SentimentRow :=
  Js.try_catch
    (let! created := Js.gets (fun a => Supabase.now (client a)) in
     let! r := insert_sentiment_analysis jobId text created in
     match Supabase.error r with
     | Some e => Js.throw e
     | None =>
         match Supabase.data r with
         | Some d => Js.ret d
         | None => Js.throw (Js.mkError "TypeError: Cannot read properties of null")
         end
     end)
    (fun error => Js.throw error).

(** [analyzeSentiment(jobId, text)] *)
Definition analyzeSentiment (jobId text : string) : Js.M t SentimentRow :=
  Js.try_catch
    (let! analysisResult := markerService_analyzeSentiment jobId text in
     do! showNotification "Sentiment-Analyse gestartet" "info" in
     Js.ret analysisResult)
    (fun error =>
       do! showNotification ("Fehler bei Sentiment-Analyse: " +:+ Js.message error)
             "warning" in
       Js.throw error).

(** [handleProcessingComplete(data)] *)
Definition handleProcessingComplete (data : Job.row) : Js.M t unit :=
  let jobId := template (Job.id data) in
  Js.try_catch
    (let! extractedText := marker (MarkerEngineService.getExtractedText jobId) in
     do! (match extractedText with
          | EmptyString => Js.ret tt
          | _ => let! _ := analyzeSentiment jobId extractedText in Js.ret tt
          end) in
     do! loadAnnotations jobId in
     showNotification "Text erfolgreich extrahiert und analysiert!" "success")
    (fun error =>
       showNotification ("Fehler bei der Nachbearbeitung: " +:+ Js.message error) "error").

(** [cancelCurrentJob()] *)
Definition cancelCurrentJob : Js.M t unit :=
  let! current := Js.gets currentJobId in
  if negb (Js.truthy_string current) then
    showNotification "Kein aktiver Job zum Abbrechen" "warning"
  else
    Js.try_catch
      (let! _ := marker (MarkerEngineService.cancelJob (template current)) in
       do! showNotification "Job erfolgreich abgebrochen" "info" in
       do! realtime (RealtimeAnnotationsService.unsubscribeFromJob (template current)) in
       Js.modify (set_currentJobId Js.Null))
      (fun error =>
         showNotification ("Fehler beim Abbrechen: " +:+ Js.message error) "error").

(** [reset()] *)
Definition reset (a : t) : t :=
  set_currentJobId Js.Null
    (set_app
       (MarkerIntegrationApp.set_annotationsViewer
          (AnnotationsViewerControls.clear (MarkerIntegrationApp.annotationsViewer (app a)))
          (MarkerIntegrationApp.set_statusComponent
             (ProcessingStatusControls.reset (MarkerIntegrationApp.statusComponent (app a)))
             (app a)))
       (set_uploadComponent (UploadView.reset (uploadComponent a)) a)).

(** [cleanup()]; [keys] are the keys of the subscription table in the order
    of the [Map]. *)
Definition cleanup (keys : list string) : Js.M t unit :=
  Js.try_catch
    (do! realtime (RealtimeCleanup.unsubscribeAll keys) in
     marker MarkerEngineService.clearCache)
    (fun _ => Js.ret tt).

(** [getCurrentJobId()] *)
Definition getCurrentJobId (a : t) : Js.nullable string := currentJobId a.

End Session.

Module MoreProps.

(** The annotation [a] with another emotion label. *)
Definition labelled (emotion : Js.nullable string) (a : Annotation.row) : Annotation.row :=
  Annotation.mk (Annotation.id a) (Annotation.job_id a) (Annotation.text a)
    (Annotation.position a) (Annotation.sentiment_score a) emotion
    (Annotation.metadata a) (Annotation.created_at a).

(** The values that the template of [renderAnnotations] interpolates for [a]
    hold no markup character. *)
Definition plain (a : Annotation.row) : Prop :=
  Js.markup_chars (Annotation.text a) = ""
  /\ Js.markup_chars (Annotation.id a) = ""
  /\ Js.markup_chars (Js.or_string (Annotation.emotion a) "neutral") = "".

(** The markup characters of one span of the template: the opening tag with
    its four quoted attributes, and the closing tag. *)
Definition span_skeleton : string :=
  "<" +:+ Js.dq +:+ Js.dq +:+ Js.dq +:+ Js.dq +:+ Js.dq +:+ Js.dq +:+ Js.dq +:+ Js.dq +:+ "><>".

(** The markup characters that one span carries when the values of [a] are
    written into the template as they are: those of the template, and
    between them those of the highlight class, of the identifier and of the
    text. *)
Definition written_markup (v : AnnotationsViewerComponent.t) (a : Annotation.row) : string :=
  "<" +:+ Js.dq +:+ Js.markup_chars (AnnotationsViewerComponent.getHighlightClass v a) +:+ Js.dq
  +:+ Js.dq +:+ Js.markup_chars (Annotation.id a) +:+ Js.dq
  +:+ Js.dq +:+ Js.dq +:+ Js.dq +:+ Js.dq
  +:+ ">" +:+ Js.markup_chars (Annotation.text a) +:+ "<>".

(** [n] copies of [s] in a row. *)
Fixpoint copies (n : nat) (s : string) : string :=
  match n with
  | O => ""
  | S n' => s +:+ copies n' s
  end.

(** [updates] carries every column. *)
Definition complete (updates : Annotation.row) : Prop :=
  Annotation.job_id updates <> Js.Undefined
  /\ Annotation.sentiment_score updates <> Js.Undefined
  /\ Annotation.emotion updates <> Js.Undefined
  /\ Annotation.created_at updates <> Js.Undefined.

(** An annotation whose text holds markup of its own. *)
Definition bold_at_2 : Annotation.row :=
  Annotation.mk "a-4" (Js.Val "job-1") "<b>bold</b>" 2 Js.Undefined Js.Undefined [] Js.Undefined.

(** No fragment carries the [selected] class. *)
Definition none_selected (v : AnnotationsViewerComponent.t) : Prop :=
  Forall (fun el => AnnotationsViewerComponent.frag_selected el = false)
         (AnnotationsViewerComponent.fragments v).

(** An update that ends the job: [completed], [failed], [error] or
    [cancelled]. *)
Definition terminal (d : Job.row) : bool :=
  ProcessingStatusComponent.status_is d "completed"
  || ProcessingStatusComponent.status_is d "failed"
  || ProcessingStatusComponent.status_is d "error"
  || ProcessingStatusComponent.status_is d "cancelled".

(** An update of a job that failed: [failed] or [error]. *)
Definition failed (d : Job.row) : bool :=
  ProcessingStatusComponent.status_is d "failed"
  || ProcessingStatusComponent.status_is d "error".

(** A job that is waiting or running: [pending] or [processing]. *)
Definition active (d : Job.row) : bool :=
  ProcessingStatusComponent.status_is d "pending"
  || ProcessingStatusComponent.status_is d "processing".

(** The callbacks of the status view, as a trace. *)
Inductive ViewCall :=
| Completed (d : Job.row)
| Errored (d : Job.row)
| Changed (d : Job.row).

(** Status-view options whose three callbacks record their invocation. *)
Definition tracing_options (showDetails autoClose : bool) (autoCloseDelay : Z)
  : ProcessingStatusComponent.Options (list ViewCall) :=
  ProcessingStatusComponent.mkOptions showDetails autoClose autoCloseDelay
    (Some (fun d => Js.modify (fun log => (log ++ [Changed d])%list)))
    (Some (fun d => Js.modify (fun log => (log ++ [Completed d])%list)))
    (Some (fun d => Js.modify (fun log => (log ++ [Errored d])%list))).

(** The script of the backend holds no rejected request. *)
Definition never_rejects (db : Supabase.t) : Prop :=
  Forall (fun reply => match reply with
                       | Supabase.Rejects _ => False
                       | _ => True
                       end)
         (Supabase.script db).

(** The path under which [uploadAndProcess] stores a file at time [now]. *)
Definition upload_path (now : Z) (file : File.t) : string :=
  "documents/" +:+ (pretty now +:+ "_" +:+ File.name file).

(** A string without a dot. *)
Fixpoint dotless (s : string) : bool :=
  match s with
  | EmptyString => true
  | String c s' => negb (Ascii.eqb c "."%char) && dotless s'
  end.

(** Every selected file is one that [validateFile] accepts. *)
Definition all_valid (v : UploadView.t) : Prop :=
  Forall (fun file => DocumentUploadComponent.valid (UploadView.component v) file = true)
         (UploadView.selectedFiles v).

(** The callbacks of the upload view, as a trace. *)
Inductive UploadCall :=
| Selected (files : list File.t)
| Started (files : list File.t)
| Progressed (file : File.t) (progress : Z)
| Uploaded (file : File.t) (index : nat)
| Failed (file : File.t) (error : Js.JsError).

Definition trace (c : UploadCall) : Js.M (list UploadCall) unit :=
  Js.modify (fun log => (log ++ [c])%list).

(** Upload callbacks that record their invocation. *)
Definition tracing_callbacks : UploadView.Callbacks (list UploadCall) :=
  UploadView.mkCallbacks
    (Some (fun files => trace (Selected files)))
    (Some (fun files => trace (Started files)))
    (Some (fun fp => trace (Progressed fp.1 fp.2)))
    (Some (fun fi => trace (Uploaded fi.1 fi.2)))
    (Some (fun fe => trace (Failed fe.1 fe.2))).

(** What the recording callbacks see of an upload of [files], the first of
    them at index [i]. *)
Fixpoint upload_trace (i : nat) (files : list File.t) : list UploadCall :=
  match files with
  | [] => []
  | file :: rest =>
      (map (Progressed file) UploadView.progress_steps
         ++ Uploaded file i :: upload_trace (S i) rest)%list
  end.

(** The item of a file after its upload: the first bar is full; a bar left by
    an earlier upload keeps the identifier, so the new one stays empty. *)
Definition uploaded (item : UploadView.Item) : UploadView.Item :=
  UploadView.mkItem (UploadView.item_file item)
    match UploadView.progress_bars item with
    | [] => [100%Z]
    | _ :: bars => (100%Z :: bars ++ [0%Z])%list
    end.

(** The session with further notifications shown. *)
Definition notified (shown : list (string * string)) (a : Session.t) : Session.t :=
  Session.set_app
    (MarkerIntegrationApp.mk
       (MarkerIntegrationApp.statusComponent (Session.app a))
       (MarkerIntegrationApp.annotationsViewer (Session.app a))
       (MarkerIntegrationApp.notifications (Session.app a) ++ shown)
       (MarkerIntegrationApp.started (Session.app a)))
    a.

(** The rows of [marker_jobs] after job [jobId] was cancelled at [time]. *)
Definition cancelled_at (jobId : string) (time : Z) (rows : list Job.row) : list Job.row :=
  map (fun r => if bool_decide (Job.id r = Js.Val jobId)
                then Job.set_updated_at (Js.Val time) (Job.set_status (Js.Val "cancelled") r)
                else r)
      rows.

(** The text that [getExtractedText] reads off a row. *)
Definition extracted (row : Job.row) : string :=
  Js.or_string (Js.or_else (Job.extracted_text row) (Job.markdown_output row)) "".

(** The session with another script for the replies of the backend. *)
Definition with_script (script : list Supabase.Reply) (a : Session.t) : Session.t :=
  Session.set_client (Supabase.set_script script (Session.client a)) a.

(** Sample sessions: a new one on an empty backend; one that has processed
    [report.pdf]; one on a backend that holds a finished job with its text
    and two annotations; one subscribed to a job. *)
Definition new_session : Session.t := Session.new (Props.sample_backend [] []).

Definition tracking_session : Session.t :=
  (Session.processDocument Props.report_pdf new_session).2.

Definition finished_session : Session.t :=
  Session.new
    (Props.sample_backend [Props.extracted_job]
       [Annotation.mk "a-7" (Js.Val "job-2") "later" 9 Js.Null Js.Null [] Js.Null;
        Annotation.mk "a-8" (Js.Val "job-2") "sooner" 1 Js.Null Js.Null [] Js.Null]).

Definition subscribed_session : Session.t :=
  Session.set_realtimeService
    (RealtimeAnnotationsService.calls
       [RealtimeAnnotationsService.CallSubscribeToJob "job-1"
          MarkerIntegrationApp.job_handlers]
       (RealtimeAnnotationsService.create (Props.sample_backend [] [])))
    new_session.

(** The rendered items are those of the selection, unless it is empty. *)
Definition in_sync (v : UploadView.t) : Prop :=
  UploadView.selectedFiles v = []
  \/ map UploadView.item_file (UploadView.file_list v) = UploadView.selectedFiles v.

End MoreProps.

(** * The annotation view: sentiment buckets *)

Section SentimentBuckets.
Import AnnotationsViewerComponent Props.

Lemma or_zero_gt_threshold (s : spec_float) :
  Js.gt (Js.or_zero (Js.Val s)) threshold = Js.gt s threshold.
Proof. by destruct s. Qed.

Lemma or_zero_lt_neg_threshold (s : spec_float) :
  Js.lt (Js.or_zero (Js.Val s)) neg_threshold = Js.lt s neg_threshold.
Proof. by destruct s. Qed.

Lemma getHighlightClass_sentiment (v : t) (a : Annotation.row) :
  getHighlightClass (set_highlightMode "sentiment" v) a =
    let score := Js.or_zero (Annotation.sentiment_score a) in
    if Js.gt score threshold then "sentiment-positive"
    else if Js.lt score neg_threshold then "sentiment-negative"
    else "sentiment-neutral".
Proof. reflexivity. Qed.

(** The literals of the code are the binary64 values that the literals [0.3]
    and [-0.3] denote. *)
Lemma threshold_literal :
  threshold = Prim2SF 0.3 /\ neg_threshold = Prim2SF (-0.3).
Proof. split; reflexivity. Qed.

(** C4. In sentiment mode the class of an annotation is a function of its
    score alone: a score above 0.3 gives the positive bucket, a score below
    -0.3 the negative one, every other score the neutral one, where 0.3 and
    -0.3 are the binary64 values of these literals and the comparisons are
    those of IEEE 754. So 0.5 is positive and -0.5 negative, while 0.3, -0.3
    and 0 are neutral, as is an annotation without score. *)
Theorem sentiment_bucket_of_score (v : t) (a : Annotation.row) (score : spec_float) :
  let sentiment := set_highlightMode "sentiment" v in
  let bucket := fun s => getHighlightClass sentiment (scored s a) in
  (SFltb (Prim2SF 0.3) score = true -> bucket (Js.Val score) = "sentiment-positive") /\
  (SFltb score (Prim2SF (-0.3)) = true -> bucket (Js.Val score) = "sentiment-negative") /\
  (SFltb (Prim2SF 0.3) score = false -> SFltb score (Prim2SF (-0.3)) = false ->
     bucket (Js.Val score) = "sentiment-neutral") /\
  bucket (Js.Val (Prim2SF 0.5)) = "sentiment-positive" /\
  bucket (Js.Val (Prim2SF (-0.5))) = "sentiment-negative" /\
  bucket (Js.Val (Prim2SF 0.3)) = "sentiment-neutral" /\
  bucket (Js.Val (Prim2SF (-0.3))) = "sentiment-neutral" /\
  bucket (Js.Val (Prim2SF 0)) = "sentiment-neutral" /\
  bucket Js.Null = "sentiment-neutral" /\
  bucket Js.Undefined = "sentiment-neutral" /\
  (forall b : Annotation.row,
     Annotation.sentiment_score b = Annotation.sentiment_score a ->
     getHighlightClass sentiment b = getHighlightClass sentiment a).
Proof.
  intros sentiment bucket. subst sentiment bucket. cbn beta.
  destruct threshold_literal as [H3 Hn3]. rewrite <- H3, <- Hn3.
  rewrite !getHighlightClass_sentiment. cbn [scored Annotation.sentiment_score].
  rewrite or_zero_gt_threshold, or_zero_lt_neg_threshold. unfold Js.gt, Js.lt.
  split_and!; try reflexivity.
  - intros ->. reflexivity.
  - intros Hlt. destruct (SFltb threshold score) eqn:Hgt; [|by rewrite Hlt].
    exfalso. destruct score as [| [] | | [] m e]; try discriminate.
  - intros -> ->. reflexivity.
  - intros b Hb. rewrite getHighlightClass_sentiment. cbn zeta. by rewrite Hb.
Qed.
End SentimentBuckets.

(** * The annotation view: rendering order *)

Section Sorting.
Import AnnotationsViewerComponent Props.

Lemma sort_insert_Permutation (a : Annotation.row) (l : list Annotation.row) :
  sort_insert a l ≡ₚ a :: l.
Proof.
  induction l as [|b l IH]; simpl; [done|].
  case_match; [done|]. rewrite IH. apply Permutation_swap.
Qed.

Lemma sortedAnnotations_Permutation (l : list Annotation.row) :
  sortedAnnotations l ≡ₚ l.
Proof.
  induction l as [|a l IH]; simpl; [done|].
  by rewrite sort_insert_Permutation, IH.
Qed.

Lemma sort_insert_StronglySorted (a : Annotation.row) (l : list Annotation.row) :
  StronglySorted Supabase.position_le l ->
  StronglySorted Supabase.position_le (sort_insert a l).
Proof.
  induction 1 as [|b l Hl IH Hb]; simpl.
  - repeat constructor.
  - case_match eqn:Hab.
    + apply Z.leb_le in Hab.
      constructor; [by constructor|].
      constructor; [unfold Supabase.position_le; lia|].
      eapply Forall_impl; [exact Hb|].
      unfold Supabase.position_le. intros c Hc. lia.
    + apply Z.leb_gt in Hab.
      constructor; [exact IH|].
      rewrite sort_insert_Permutation. constructor; [|done].
      unfold Supabase.position_le. lia.
Qed.

Lemma sortedAnnotations_StronglySorted (l : list Annotation.row) :
  StronglySorted Supabase.position_le (sortedAnnotations l).
Proof.
  induction l as [|a l IH]; simpl; [constructor|].
  by apply sort_insert_StronglySorted.
Qed.

Lemma sortedAnnotations_ascending (l : list Annotation.row) :
  ascending (sortedAnnotations l).
Proof. apply StronglySorted_Sorted, sortedAnnotations_StronglySorted. Qed.

Lemma at_position_cons (p : Z) (a : Annotation.row) (l : list Annotation.row) :
  at_position p (a :: l) =
    if decide (Annotation.position a = p) then a :: at_position p l else at_position p l.
Proof. unfold at_position. by rewrite filter_cons. Qed.

Lemma at_position_sort_insert (p : Z) (a : Annotation.row) (l : list Annotation.row) :
  at_position p (sort_insert a l) = at_position p (a :: l).
Proof.
  induction l as [|b l IH]; simpl; [done|].
  case_match eqn:Hab; [done|].
  apply Z.leb_gt in Hab.
  rewrite (at_position_cons p b), IH, !at_position_cons.
  repeat case_decide; try done; lia.
Qed.

Lemma sortedAnnotations_same_ties (l : list Annotation.row) :
  same_ties (sortedAnnotations l) l.
Proof.
  intros p. induction l as [|a l IH]; simpl; [done|].
  rewrite at_position_sort_insert, !at_position_cons. by rewrite IH.
Qed.

Lemma at_position_elem_of (p : Z) (a : Annotation.row) (l : list Annotation.row) :
  a ∈ at_position p l <-> a ∈ l /\ Annotation.position a = p.
Proof. unfold at_position. rewrite list_elem_of_filter. tauto. Qed.

Lemma same_ties_elem_of (l1 l2 : list Annotation.row) (a : Annotation.row) :
  same_ties l1 l2 -> a ∈ l1 -> a ∈ l2.
Proof.
  intros H Ha.
  assert (a ∈ at_position (Annotation.position a) l1) as Hin
    by by apply at_position_elem_of.
  rewrite H in Hin. by apply at_position_elem_of in Hin as [? _].
Qed.

Lemma same_ties_sym (l1 l2 : list Annotation.row) :
  same_ties l1 l2 -> same_ties l2 l1.
Proof. intros H p. by rewrite H. Qed.

(** A list ascending by position is determined by its ties. *)
Lemma ascending_same_ties_eq (l1 l2 : list Annotation.row) :
  StronglySorted Supabase.position_le l1 ->
  StronglySorted Supabase.position_le l2 ->
  same_ties l1 l2 -> l1 = l2.
Proof.
  intros H1. revert l2.
  induction H1 as [|a l1 Hl1 IH Ha]; intros l2 H2 Hties.
  - destruct l2 as [|b l2]; [done|].
    specialize (Hties (Annotation.position b)).
    rewrite at_position_cons in Hties. by case_decide.
  - destruct H2 as [|b l2 Hl2 Hb].
    { specialize (Hties (Annotation.position a)).
      rewrite at_position_cons in Hties. by case_decide. }
    assert (Annotation.position a = Annotation.position b) as Hpos.
    { assert (a ∈ b :: l2) as Hina
        by (eapply same_ties_elem_of; [exact Hties|left]).
      assert (b ∈ a :: l1) as Hinb
        by (eapply same_ties_elem_of; [apply same_ties_sym, Hties|left]).
      apply elem_of_cons in Hina as [->|Hina]; [done|].
      apply elem_of_cons in Hinb as [->|Hinb]; [done|].
      rewrite Forall_forall in Ha, Hb.
      specialize (Ha b Hinb). specialize (Hb a Hina).
      unfold Supabase.position_le in *. lia. }
    assert (a = b) as <-.
    { specialize (Hties (Annotation.position a)).
      rewrite !at_position_cons in Hties.
      rewrite decide_True in Hties by done.
      rewrite decide_True in Hties by done.
      by injection Hties. }
    f_equal. apply IH; [done|].
    intros p. specialize (Hties p). rewrite !at_position_cons in Hties.
    case_decide; [by injection Hties|done].
Qed.

Lemma sortedAnnotations_same_ties_eq (l1 l2 : list Annotation.row) :
  same_ties l1 l2 -> sortedAnnotations l1 = sortedAnnotations l2.
Proof.
  intros H. apply ascending_same_ties_eq; try apply sortedAnnotations_StronglySorted.
  intros p. by rewrite !sortedAnnotations_same_ties.
Qed.

Lemma same_ties_nil (l : list Annotation.row) : same_ties [] l -> l = [].
Proof.
  destruct l as [|a l]; [done|]. intros H.
  specialize (H (Annotation.position a)). rewrite at_position_cons in H.
  by case_decide.
Qed.

(** Lists with pairwise distinct positions have no ties to order. *)
Lemma distinct_positions_same_ties (l1 l2 : list Annotation.row) :
  l1 ≡ₚ l2 -> NoDup (map Annotation.position l1) -> same_ties l1 l2.
Proof.
  intros Hp Hnd p.
  assert (forall l, NoDup (map Annotation.position l) ->
            at_position p l = [] \/ exists a, at_position p l = [a]) as Hshape.
  { induction l as [|a l IH]; [by left|].
    rewrite fmap_cons, NoDup_cons. intros [Hnotin Hnd'].
    rewrite at_position_cons. case_decide as Ha; [|by apply IH].
    right. exists a. f_equal.
    destruct (at_position p l) as [|b ?] eqn:Hf; [done|].
    exfalso. apply Hnotin.
    assert (b ∈ at_position p l) as Hb by (rewrite Hf; left).
    apply at_position_elem_of in Hb as [Hb Hpb].
    apply list_elem_of_fmap. exists b. split; [congruence|done]. }
  assert (NoDup (map Annotation.position l2)) as Hnd2.
  { by rewrite <- Hp. }
  assert (at_position p l1 ≡ₚ at_position p l2) as Hperm
    by (unfold at_position; by rewrite Hp).
  destruct (Hshape l1 Hnd) as [H1|[a H1]], (Hshape l2 Hnd2) as [H2|[b H2]];
    rewrite H1, H2 in *; try done.
  - by apply Permutation_nil_l in Hperm.
  - by apply Permutation_nil_r in Hperm.
  - apply Permutation_singleton_l in Hperm. done.
Qed.
End Sorting.

Section Rendering.
Import AnnotationsViewerComponent Props.

Lemma renderAnnotations_content (v : t) :
  renderAnnotations v =
    match annotations v with
    | [] => set_content empty_state [] v
    | _ =>
        set_content
          (foldl (fun html ia => html +:+ span_markup v ia.1 ia.2) ""
                 (imap pair (sortedAnnotations (annotations v))))
          (imap (span_element v) (sortedAnnotations (annotations v))) v
    end.
Proof. unfold renderAnnotations. by destruct (annotations v). Qed.

Lemma getHighlightClass_mode (v1 v2 : t) (a : Annotation.row) :
  highlightMode v1 = highlightMode v2 ->
  getHighlightClass v1 a = getHighlightClass v2 a.
Proof. unfold getHighlightClass. by intros ->. Qed.

Lemma span_markup_mode (v1 v2 : t) (i : nat) (a : Annotation.row) :
  highlightMode v1 = highlightMode v2 -> span_markup v1 i a = span_markup v2 i a.
Proof. intros H. unfold span_markup. by rewrite (getHighlightClass_mode v1 v2). Qed.

Lemma span_element_mode (v1 v2 : t) (i : nat) (a : Annotation.row) :
  highlightMode v1 = highlightMode v2 -> span_element v1 i a = span_element v2 i a.
Proof. intros H. unfold span_element. by rewrite (getHighlightClass_mode v1 v2). Qed.

(** Rendering reads the annotations and the highlight mode, and writes the
    content only. *)
Lemma renderAnnotations_idempotent (v : t) :
  renderAnnotations (renderAnnotations v) = renderAnnotations v.
Proof.
  rewrite (renderAnnotations_content v).
  destruct (annotations v) as [|a l] eqn:Hl.
  - unfold renderAnnotations. simpl. by rewrite Hl.
  - rewrite renderAnnotations_content. simpl. rewrite Hl.
    unfold set_content. simpl. f_equal.
Qed.

Lemma loadAnnotations_same_ties (v : t) (l1 l2 : list Annotation.row) :
  same_ties l1 l2 ->
  content_innerHTML (loadAnnotations l1 v) = content_innerHTML (loadAnnotations l2 v)
  /\ fragments (loadAnnotations l1 v) = fragments (loadAnnotations l2 v).
Proof.
  intros H. pose proof (sortedAnnotations_same_ties_eq _ _ H) as Hs.
  unfold loadAnnotations. rewrite !renderAnnotations_content.
  cbn [annotations set_annotations].
  destruct l1 as [|a1 l1].
  { apply same_ties_nil in H as ->. done. }
  destruct l2 as [|a2 l2].
  { apply same_ties_sym, same_ties_nil in H. done. }
  cbn [content_innerHTML fragments set_content]. rewrite Hs.
  split; [|done].
  f_equal.
Qed.




End Rendering.

(** * The annotation view: selection *)

Section Selection.
Import AnnotationsViewerComponent Props.

Lemma showAnnotationDetails_details (a : Annotation.row) (v : t) :
  details_content (showAnnotationDetails a v) = Some (details_of a)
  /\ details_display (showAnnotationDetails a v) = "block"
  /\ fragments (showAnnotationDetails a v) = fragments v
  /\ annotations (showAnnotationDetails a v) = annotations v.
Proof. done. Qed.

(** What [selectAnnotation(index)] does when [this.annotations[index]] exists
    and no click callback is registered. *)
Lemma selectAnnotation_in_range (v : t) (index : nat) (a : Annotation.row) :
  annotations v !! index = Some a ->
  selectAnnotation (W := unit) None index (v, tt) =
    (Js.Returned tt,
     (showAnnotationDetails a
        (set_fragments (toggle_selected index (fragments v))
           (set_selectedAnnotation (Some a) v)), tt)).
Proof.
  intros H. unfold selectAnnotation, Js.bind, Js.gets, Js.modify. simpl.
  rewrite H. reflexivity.
Qed.

Lemma toggle_selected_lookup (index i : nat) (fs : list Fragment) (el : Fragment) :
  toggle_selected index fs !! i = Some el ->
  frag_selected el = bool_decide (i = index).
Proof.
  unfold toggle_selected. rewrite list_lookup_imap.
  destruct (fs !! i); simpl; [|done]. by intros [= <-].
Qed.

Lemma fragments_renderAnnotations (v : t) :
  fragments (renderAnnotations v) = imap (span_element v) (sortedAnnotations (annotations v)).
Proof. rewrite renderAnnotations_content. destruct (annotations v); reflexivity. Qed.

Lemma annotations_renderAnnotations (v : t) :
  annotations (renderAnnotations v) = annotations v.
Proof. rewrite renderAnnotations_content. destruct (annotations v) eqn:H; simpl; by rewrite ?H. Qed.

(** Clicking the [k]-th rendered fragment: the fragment shows the [k]-th
    annotation in ascending order, the click marks that fragment and no other,
    and the detail panel is filled from the [k]-th annotation of the list as
    it is held in memory. *)
Lemma click_rendered_fragment (v : t) (k : nat) (el : Fragment) :
  fragments (renderAnnotations v) !! k = Some el ->
  exists own listed v',
    sortedAnnotations (annotations v) !! k = Some own
    /\ el = span_element v k own
    /\ annotations v !! k = Some listed
    /\ click (W := unit) None el (renderAnnotations v, tt) = (Js.Returned tt, (v', tt))
    /\ (forall i el', fragments v' !! i = Some el' -> frag_selected el' = bool_decide (i = k))
    /\ details_content v' = Some (details_of listed)
    /\ selectedAnnotation v' = Some listed.
Proof.
  rewrite fragments_renderAnnotations, list_lookup_imap.
  destruct (sortedAnnotations (annotations v) !! k) as [own|] eqn:Hown; [|done].
  simpl. intros [= <-].
  assert (k < length (annotations v))%nat as Hk.
  { rewrite <- (Permutation_length (sortedAnnotations_Permutation (annotations v))).
    by eapply lookup_lt_Some. }
  destruct (lookup_lt_is_Some_2 _ _ Hk) as [listed Hlisted].
  exists own, listed. eexists. split; [done|]. split; [done|]. split; [done|].
  unfold click. cbn [frag_index span_element].
  rewrite (selectAnnotation_in_range _ k listed)
    by by rewrite annotations_renderAnnotations.
  split; [reflexivity|].
  split; [|done].
  intros i el'. cbn [fragments showAnnotationDetails set_details set_fragments].
  apply toggle_selected_lookup.
Qed.

(** When the list in memory is already ascending by position, the fragment's
    own annotation is the one shown. *)
Lemma click_shows_own_annotation_if_sorted (v : t) (k : nat) (el : Fragment) :
  sortedAnnotations (annotations v) = annotations v ->
  fragments (renderAnnotations v) !! k = Some el ->
  exists own v',
    el = span_element v k own
    /\ click (W := unit) None el (renderAnnotations v, tt) = (Js.Returned tt, (v', tt))
    /\ details_content v' = Some (details_of own).
Proof.
  intros Hs Hel.
  destruct (click_rendered_fragment v k el Hel)
    as (own & listed & v' & Hown & -> & Hlisted & Hclick & _ & Hd & _).
  rewrite Hs in Hown. assert (own = listed) as -> by congruence.
  by exists listed, v'.
Qed.

(** C9 at the failing input: annotations at positions 5 and 2 arrive in that
    order. The first rendered fragment is the one at position 2 ("hello");
    clicking it marks it, and fills the detail panel from the annotation at
    position 5 ("world"). *)
Theorem click_on_unsorted_list_shows_another_annotation :
  let v := addAnnotation hello_at_2 (addAnnotation world_at_5 (new "sentiment")) in
  exists el v',
    fragments v !! 0%nat = Some el
    /\ frag_text el = "hello" /\ frag_annotation_id el = "a-2"
    /\ click (W := unit) None el (v, tt) = (Js.Returned tt, (v', tt))
    /\ map frag_selected (fragments v') = [true; false]
    /\ selectedAnnotation v' = Some world_at_5
    /\ details_content v' = Some (details_of world_at_5)
    /\ details_of world_at_5 <> details_of hello_at_2.
Proof.
  intros v. eexists. eexists.
  split; [reflexivity|]. split; [reflexivity|]. split; [reflexivity|].
  split; [reflexivity|]. split; [reflexivity|]. split; [reflexivity|].
  split; [reflexivity|]. discriminate.
Qed.
End Selection.

(** * The status view: the completion callback *)

Section StatusView.
Import ProcessingStatusComponent Props.

Lemma status_is_completed (d : Job.row) :
  status_is d "completed" = completed d.
Proof. reflexivity. Qed.

Lemma status_is_exclusive (d : Job.row) (l1 l2 : string) :
  l1 <> l2 -> status_is d l1 = true -> status_is d l2 = false.
Proof.
  unfold status_is. intros Hne H1%bool_decide_eq_true.
  apply bool_decide_eq_false. congruence.
Qed.

(** One update with the recording options: the call returns, and [onComplete]
    has been invoked with the update exactly when it carries [completed]. *)
Lemma updateStatus_recording (sd ac : bool) (delay : Z) (d : Job.row) (c : t)
    (log : list Job.row) :
  exists c',
    updateStatus (recording_options sd ac delay) d (c, log) =
      (Js.Returned tt, (c', (log ++ if completed d then [d] else [])%list)).
Proof.
  unfold updateStatus, Js.bind, on_self, callback, Js.modify, Js.zoom, Js.ret.
  cbn [fst snd recording_options onComplete onStatusChange onError autoClose
       Js.call_if_set].
  rewrite status_is_completed.
  destruct (status_is d "pending") eqn:Hp.
  { rewrite <- status_is_completed,
      (status_is_exclusive d "pending" "completed") by done.
    rewrite app_nil_r. eexists. reflexivity. }
  destruct (status_is d "processing") eqn:Hq.
  { rewrite <- status_is_completed,
      (status_is_exclusive d "processing" "completed") by done.
    rewrite app_nil_r. eexists. reflexivity. }
  destruct (completed d) eqn:Hc.
  { destruct ac; eexists; reflexivity. }
  rewrite app_nil_r.
  destruct (status_is d "failed" || status_is d "error") eqn:Hf.
  { eexists. reflexivity. }
  destruct (status_is d "cancelled"); eexists; reflexivity.
Qed.

Lemma updates_recording (sd ac : bool) (delay : Z) (ds : list Job.row) (c : t)
    (log : list Job.row) :
  exists c',
    updates (recording_options sd ac delay) ds (c, log) =
      (Js.Returned tt, (c', (log ++ filter (fun d => completed d = true) ds)%list)).
Proof.
  revert c log. induction ds as [|d ds IH]; intros c log.
  - exists c. simpl. by rewrite app_nil_r.
  - destruct (updateStatus_recording sd ac delay d c log) as [c1 H1].
    destruct (IH c1 (log ++ if completed d then [d] else [])%list) as [c2 H2].
    exists c2. cbn [updates]. unfold Js.bind at 1. rewrite H1, H2.
    rewrite filter_cons. destruct (completed d) eqn:Hd.
    + rewrite decide_True by done. by rewrite <- app_assoc.
    + rewrite decide_False by (by rewrite not_true_iff_false). by rewrite app_nil_r.
Qed.

(** C1 (as amended). On every sequence of updates, whatever the view showed
    before and whatever its display options, the completion callback is
    invoked once per update that carries the status [completed], with that
    update as its argument, whatever the status of the update before it. *)
Theorem onComplete_once_per_completed_update (showDetails autoClose : bool)
    (autoCloseDelay : Z) (view : t) (ds : list Job.row) :
  onComplete_calls showDetails autoClose autoCloseDelay view ds
    = filter (fun d => completed d = true) ds.
Proof.
  unfold onComplete_calls.
  destruct (updates_recording showDetails autoClose autoCloseDelay ds view [])
    as [c' ->].
  reflexivity.
Qed.
End StatusView.

Section StatusViewExamples.
Import ProcessingStatusComponent Props.

(** C1, as stated, fails: a job that completes once (pending, processing,
    completed) and is then reported completed again, by a progress-only
    update, has one transition into [completed] and two invocations of the
    completion callback. *)
Lemma onComplete_fires_again_on_repeated_completed :
  let ds := [job_at "pending" 0; job_at "processing" 50;
             job_at "completed" 90; job_at "completed" 100] in
  transitions_into_completed false ds = 1%nat
  /\ onComplete_calls true false 3000 new ds
     = [job_at "completed" 90; job_at "completed" 100].
Proof. split; reflexivity. Qed.

(** The orchestrator routes both the status-change and the progress-change
    callback of the subscription to [updateStatus]: one row change that
    completes the job and moves its progress, as the documented worker writes
    it, starts [handleProcessingComplete] twice. *)
Lemma one_row_change_completes_twice :
  let payload := RealtimeAnnotationsService.mkJobPayload
                   (job_at "completed" 100) (Some (job_at "processing" 50)) "UPDATE" in
  (MarkerIntegrationApp.job_row_changed "job-1" payload MarkerIntegrationApp.new).1
    = Js.Returned tt
  /\ MarkerIntegrationApp.completions
       (MarkerIntegrationApp.job_row_changed "job-1" payload MarkerIntegrationApp.new).2
     = [job_at "completed" 100; job_at "completed" 100].
Proof. split; vm_compute; reflexivity. Qed.
End StatusViewExamples.

(** * The change-subscription layer: demultiplexing *)

Section Demultiplexer.
Import RealtimeAnnotationsService Props.

Lemma strict_neq_true {A} `{EqDecision A} (a b : Js.nullable A) :
  Js.strict_neq a b = true <-> a <> b.
Proof.
  destruct a, b; simpl; try (split; [discriminate|done]);
    try (split; [done|congruence]).
  rewrite negb_true_iff, bool_decide_eq_false. split; congruence.
Qed.

Lemma strict_neq_decide {A} `{EqDecision A} (a b : Js.nullable A) :
  Js.strict_neq a b = bool_decide (a <> b).
Proof.
  destruct (Js.strict_neq a b) eqn:H; symmetry.
  - apply bool_decide_eq_true, strict_neq_true, H.
  - apply bool_decide_eq_false. rewrite <- strict_neq_true, H. done.
Qed.

(** With handlers registered, [handleJobUpdate] is the three guarded calls in
    sequence, for handlers of any kind. *)
Lemma handleJobUpdate_registered {W} (jobId : string) (payload : JobPayload)
    (f : StatusChangeEvent -> Js.M W unit) (g : ProgressUpdateEvent -> Js.M W unit)
    (k : JobUpdateEvent -> Js.M W unit) added modified updated connection global :
  handleJobUpdate jobId payload
    (mkHandlers (Some f) (Some g) (Some k) added modified updated connection global) =
  (do! (if bool_decide (Job.status (new payload) <> old_status (old payload))
        then f (mkStatusChange jobId (old_status (old payload))
                  (Job.status (new payload)) (new payload))
        else Js.ret tt) in
   do! (if bool_decide (Job.progress (new payload) <> old_progress (old payload))
        then g (mkProgressUpdate jobId (Job.progress (new payload)) (new payload))
        else Js.ret tt) in
   k (mkJobUpdate jobId (eventType payload) (new payload) (old payload))).
Proof. unfold handleJobUpdate. by rewrite !strict_neq_decide. Qed.

(** A handler that throws ends the dispatch: the handlers after it are not
    called, and the exception reaches the caller. *)
Lemma handleJobUpdate_propagates_throw {W} (jobId : string) (payload : JobPayload)
    (handlers : Handlers W) (f : StatusChangeEvent -> Js.M W unit)
    (e : Js.JsError) (w w' : W) :
  onStatusChange handlers = Some f ->
  Job.status (new payload) <> old_status (old payload) ->
  f (mkStatusChange jobId (old_status (old payload)) (Job.status (new payload))
       (new payload)) w = (Js.Thrown e, w') ->
  handleJobUpdate jobId payload handlers w = (Js.Thrown e, w').
Proof.
  intros Hf Hne Hthrow. unfold handleJobUpdate, Js.bind.
  rewrite (proj2 (strict_neq_true _ _) Hne), Hf. cbn. by rewrite Hthrow.
Qed.

(** C2. The invocations that recording handlers observe for one row change
    of the Job table, by the previous row that the event carries. With a
    previous row: the status-change callback if and only if the new status
    differs from the status of the previous row, then the progress-change
    callback if and only if the new progress differs from the progress of the
    previous row, then the generic job-update callback, always and last.
    Without a previous row the previous status and progress are [undefined]:
    each of the two callbacks fires if and only if the new row has the
    value. *)
Theorem handleJobUpdate_invocations (jobId : string) (payload : JobPayload)
    (log : list Invocation) :
  handleJobUpdate jobId payload recording_handlers log =
    (Js.Returned tt,
     (log
      ++ match old payload with
         | Some oldData =>
             (if decide (Job.status (new payload) <> Job.status oldData)
              then [StatusChange (mkStatusChange jobId (Job.status oldData)
                                    (Job.status (new payload)) (new payload))]
              else [])
             ++ (if decide (Job.progress (new payload) <> Job.progress oldData)
                 then [ProgressUpdate (mkProgressUpdate jobId (Job.progress (new payload))
                                         (new payload))]
                 else [])
         | None =>
             (if decide (Job.status (new payload) <> Js.Undefined)
              then [StatusChange (mkStatusChange jobId Js.Undefined
                                    (Job.status (new payload)) (new payload))]
              else [])
             ++ (if decide (Job.progress (new payload) <> Js.Undefined)
                 then [ProgressUpdate (mkProgressUpdate jobId (Job.progress (new payload))
                                         (new payload))]
                 else [])
         end
      ++ [JobUpdate (mkJobUpdate jobId (eventType payload) (new payload)
                       (old payload))])%list).
Proof.
  unfold recording_handlers. rewrite handleJobUpdate_registered.
  unfold Js.bind, record, Js.modify, Js.ret.
  rewrite !bool_decide_decide.
  destruct (old payload) as [oldData|]; cbn [old_status old_progress];
    repeat case_decide; cbn [app]; rewrite <- ?app_assoc, ?app_nil_r; reflexivity.
Qed.
End Demultiplexer.

(** * The access layer *)

Section Backend.
Import Supabase.

(** Taking the next reply off the script touches nothing but the script. *)
Lemma next_reply_frame (s s1 : t) (reply : Reply) :
  next_reply s = (reply, s1) ->
  documents s1 = documents s /\ marker_jobs s1 = marker_jobs s
  /\ text_annotations s1 = text_annotations s /\ channels s1 = channels s
  /\ removed_channels s1 = removed_channels s /\ next_channel s1 = next_channel s
  /\ uuid s1 = uuid s /\ next_uuid s1 = next_uuid s /\ now s1 = now s.
Proof.
  unfold next_reply. destruct (script s); intros [= <- <-]; done.
Qed.

Lemma request_answers {A} (serve : t -> Response A * t) (s s1 : t) :
  next_reply s = (Answers, s1) ->
  request serve s = (Js.Returned (serve s1).1, (serve s1).2).
Proof. unfold request. intros ->. by destruct (serve s1). Qed.

Lemma request_error {A} (serve : t -> Response A * t) (s s1 : t) (e : Js.JsError) :
  next_reply s = (AnswersError e, s1) ->
  request serve s = (Js.Returned (mkResponse None (Some e)), s1).
Proof. unfold request. by intros ->. Qed.

Lemma request_rejects {A} (serve : t -> Response A * t) (s s1 : t) (e : Js.JsError) :
  next_reply s = (Rejects e, s1) ->
  request serve s = (Js.Thrown e, s1).
Proof. unfold request. by intros ->. Qed.

End Backend.

#[global] Instance position_le_total : Total Supabase.position_le.
Proof. intros a b. unfold Supabase.position_le. lia. Qed.

#[global] Instance position_le_trans : Transitive Supabase.position_le.
Proof. intros a b c. unfold Supabase.position_le. lia. Qed.

Section MarkerEngine.
Import MarkerEngineService Props.

(** C10. [cancelJob] and the local queue: when the backend accepts the
    update, the job's row is cancelled, the queue entry of the job is removed
    and [true] is returned; when the update fails (an [error] answer or a
    rejected request) the call throws that error and the queue is as it
    was. *)
Theorem cancelJob_atomic (jobId : string) (s : t) :
  match Supabase.next_reply (supabase s) with
  | (Supabase.Answers, db) =>
      exists db',
        cancelJob jobId s =
          (Js.Returned true,
           set_processingQueue (delete (Js.Val jobId) (processingQueue s))
             (set_supabase db' s))
        /\ Supabase.marker_jobs db' =
             map (fun r => if bool_decide (Job.id r = Js.Val jobId)
                           then Job.set_updated_at (Js.Val (Supabase.now (supabase s)))
                                  (Job.set_status (Js.Val "cancelled") r)
                           else r)
                 (Supabase.marker_jobs (supabase s))
  | (Supabase.AnswersError e, db) | (Supabase.Rejects e, db) =>
      cancelJob jobId s = (Js.Thrown e, set_supabase db s)
      /\ processingQueue (cancelJob jobId s).2 = processingQueue s
      /\ Supabase.marker_jobs (supabase (cancelJob jobId s).2)
           = Supabase.marker_jobs (supabase s)
  end.
Proof.
  destruct (Supabase.next_reply (supabase s)) as [reply db] eqn:Hreply.
  pose proof (next_reply_frame _ _ _ Hreply) as (_ & Hjobs & _ & _ & _ & _ & _ & _ & Hnow).
  unfold cancelJob, Js.try_catch, Js.bind, Date_now, Js.gets, await, Js.zoom,
    Supabase.update_job_status.
  destruct reply as [|e|e].
  - rewrite (request_answers _ _ _ Hreply). cbn.
    eexists. split; [reflexivity|]. cbn. by rewrite Hjobs.
  - rewrite (request_error _ _ _ _ Hreply). cbn. by rewrite Hjobs.
  - rewrite (request_rejects _ _ _ _ Hreply). cbn. by rewrite Hjobs.
Qed.

(** C5. When the backend answers with the job's row, [getExtractedText]
    returns the extracted text if that is a non-empty string, else the
    markdown output if that is a non-empty string, else the empty string. *)
Theorem getExtractedText_fallback (jobId : string) (s : t) (db : Supabase.t)
    (row : Job.row) :
  Supabase.next_reply (supabase s) = (Supabase.Answers, db) ->
  filter (fun r => Job.id r = Js.Val jobId) (Supabase.marker_jobs (supabase s)) = [row] ->
  getExtractedText jobId s =
    (Js.Returned
       (if Js.truthy_string (Job.extracted_text row)
        then string_of (Job.extracted_text row)
        else if Js.truthy_string (Job.markdown_output row)
             then string_of (Job.markdown_output row)
             else ""),
     set_supabase db s).
Proof.
  intros Hreply Hrow.
  pose proof (next_reply_frame _ _ _ Hreply) as (_ & Hjobs & _).
  unfold getExtractedText, Js.try_catch, Js.bind, await, Js.zoom,
    Supabase.select_job_single.
  rewrite (request_answers _ _ _ Hreply). rewrite Hjobs, Hrow. cbn.
  f_equal. f_equal. unfold Js.or_else.
  destruct (Job.extracted_text row) as [| |[|c x]]; cbn;
    destruct (Job.markdown_output row) as [| |[|c' y]]; reflexivity.
Qed.

Lemma getExtractedText_fallback_witness :
  getExtractedText "job-1" (new (sample_backend [job_at "completed" 100] [])) =
    (Js.Returned "", new (sample_backend [job_at "completed" 100] []))
  /\ getExtractedText "job-2"
       (new (sample_backend [job_at "completed" 100; extracted_job] [])) =
     (Js.Returned "# Report",
      new (sample_backend [job_at "completed" 100; extracted_job] [])).
Proof.
  split.
  - apply (getExtractedText_fallback "job-1"
             (new (sample_backend [job_at "completed" 100] [])) _
             (job_at "completed" 100)); reflexivity.
  - apply (getExtractedText_fallback "job-2"
             (new (sample_backend [job_at "completed" 100; extracted_job] [])) _
             extracted_job); reflexivity.
Defined.

(** A failed read of the job's row makes [getExtractedText] throw. *)
Lemma getExtractedText_throws (jobId : string) (s : t) (db : Supabase.t)
    (e : Js.JsError) :
  Supabase.next_reply (supabase s) = (Supabase.AnswersError e, db)
  \/ Supabase.next_reply (supabase s) = (Supabase.Rejects e, db) ->
  getExtractedText jobId s = (Js.Thrown e, set_supabase db s).
Proof.
  unfold getExtractedText, Js.try_catch, Js.bind, await, Js.zoom,
    Supabase.select_job_single.
  intros [H|H].
  - by rewrite (request_error _ _ _ _ H).
  - by rewrite (request_rejects _ _ _ _ H).
Qed.

Lemma getAnnotations_cached (jobId : string) (s : t) (cached : list Annotation.row) :
  annotationCache s !! jobId = Some cached ->
  getAnnotations jobId s = (Js.Returned cached, s).
Proof.
  intros H. unfold getAnnotations, Js.try_catch, Js.bind, Js.gets, Js.ret.
  by rewrite H.
Qed.

Lemma getAnnotations_fetched (jobId : string) (s : t) (db : Supabase.t) :
  annotationCache s !! jobId = None ->
  Supabase.next_reply (supabase s) = (Supabase.Answers, db) ->
  getAnnotations jobId s =
    (Js.Returned (fetched jobId s),
     set_annotationCache (<[jobId := fetched jobId s]> (annotationCache s))
       (set_supabase db s)).
Proof.
  intros Hc Hreply.
  pose proof (next_reply_frame _ _ _ Hreply) as (_ & _ & Hann & _).
  unfold getAnnotations, Js.try_catch, Js.bind, Js.gets, Js.ret, await, Js.zoom,
    Supabase.select_annotations, fetched.
  rewrite Hc. rewrite (request_answers _ _ _ Hreply). cbn. by rewrite Hann.
Qed.

Lemma getAnnotations_returned (jobId : string) (s s' : t) (l : list Annotation.row) :
  getAnnotations jobId s = (Js.Returned l, s') ->
  annotationCache s' !! jobId = Some l.
Proof.
  destruct (annotationCache s !! jobId) as [cached|] eqn:Hc.
  - rewrite (getAnnotations_cached _ _ _ Hc). by intros [= <- <-].
  - destruct (Supabase.next_reply (supabase s)) as [reply db] eqn:Hreply.
    destruct reply as [|e|e].
    + rewrite (getAnnotations_fetched _ _ _ Hc Hreply). intros [= <- <-].
      cbn. apply lookup_insert_eq.
    + unfold getAnnotations, Js.try_catch, Js.bind, Js.gets, Js.ret, await, Js.zoom,
        Supabase.select_annotations.
      rewrite Hc, (request_error _ _ _ _ Hreply). done.
    + unfold getAnnotations, Js.try_catch, Js.bind, Js.gets, Js.ret, await, Js.zoom,
        Supabase.select_annotations.
      rewrite Hc, (request_rejects _ _ _ _ Hreply). done.
Qed.

(** C6. [getAnnotations] returns the cached list, untouched and without a
    request, when the cache has an entry for the job; otherwise, when the
    backend answers, it returns the job's annotation rows in ascending order
    of position and stores that list as the job's cache entry. So a call that
    follows a successful call, with the cache as that call left it, returns
    the same list. *)
Theorem getAnnotations_cache (jobId : string) (s : t) :
  (forall cached, annotationCache s !! jobId = Some cached ->
     getAnnotations jobId s = (Js.Returned cached, s))
  /\ (forall db, annotationCache s !! jobId = None ->
        Supabase.next_reply (supabase s) = (Supabase.Answers, db) ->
        getAnnotations jobId s =
          (Js.Returned (fetched jobId s),
           set_annotationCache (<[jobId := fetched jobId s]> (annotationCache s))
             (set_supabase db s))
        /\ Sorted Supabase.position_le (fetched jobId s)
        /\ fetched jobId s ≡ₚ
             filter (fun a => Annotation.job_id a = Js.Val jobId)
                    (Supabase.text_annotations (supabase s)))
  /\ (forall l s1 s2, getAnnotations jobId s = (Js.Returned l, s1) ->
        annotationCache s2 = annotationCache s1 ->
        getAnnotations jobId s2 = (Js.Returned l, s2)).
Proof.
  split; [apply getAnnotations_cached|]. split.
  - intros db Hc Hreply. split; [by apply getAnnotations_fetched|].
    unfold fetched. split.
    + apply Sorted_merge_sort. apply _.
    + apply merge_sort_Permutation.
  - intros l s1 s2 H1 H2. apply getAnnotations_cached.
    rewrite H2. by eapply getAnnotations_returned.
Qed.

(** C3. A file that the upload view accepts and that [uploadAndProcess]
    uploads successfully adds exactly one row to the Job table; the row is
    the returned job, its status is [pending] and its progress is 0, and the
    job is queued locally as pending with progress 0. *)
Theorem uploadAndProcess_inserts_one_pending_job (c : DocumentUploadComponent.t)
    (file : File.t) (options : list (string * bool)) (s s' : t) (job : Job.row) :
  DocumentUploadComponent.valid c file = true ->
  uploadAndProcess file options s = (Js.Returned job, s') ->
  Supabase.marker_jobs (supabase s') = (Supabase.marker_jobs (supabase s) ++ [job])%list
  /\ Job.status job = Js.Val "pending"
  /\ Job.progress job = Js.Val 0%Z
  /\ Job.file_name job = Js.Val (File.name file)
  /\ exists started,
       processingQueue s' !! Job.id job = Some (mkQueueEntry "pending" 0 started).
Proof.
  intros _.
  unfold uploadAndProcess, Js.try_catch, Js.bind, Date_now, Js.gets, await, Js.zoom,
    Supabase.storage_upload, Supabase.insert_marker_job, rethrow, Js.throw.
  destruct (Supabase.next_reply (supabase s)) as [reply1 db1] eqn:Hreply1.
  pose proof (next_reply_frame _ _ _ Hreply1) as (Hdocs & Hjobs1 & _ & _ & _ & _ & Huuid & Hnext & Hnow).
  destruct reply1 as [|e|e].
  2: { rewrite (request_error _ _ _ _ Hreply1). cbn. discriminate. }
  2: { rewrite (request_rejects _ _ _ _ Hreply1). cbn. discriminate. }
  rewrite (request_answers _ _ _ Hreply1).
  destruct (Supabase.documents db1 !! _) eqn:Hdoc; cbn; [discriminate|].
  match goal with |- context [Supabase.request ?f ?x] =>
    set (serve := f); set (db2 := x) end.
  destruct (Supabase.next_reply db2) as [reply2 db3] eqn:Hreply2.
  pose proof (next_reply_frame _ _ _ Hreply2) as (_ & Hjobs2 & _ & _ & _ & _ & _ & _ & _).
  destruct reply2 as [|e|e].
  2: { rewrite (request_error _ _ _ _ Hreply2). cbn. discriminate. }
  2: { rewrite (request_rejects _ _ _ _ Hreply2). cbn. discriminate. }
  rewrite (request_answers _ _ _ Hreply2).
  subst serve. cbn. intros [= <- <-]. cbn.
  rewrite Hjobs2. subst db2. cbn. rewrite Hjobs1.
  repeat split; try reflexivity.
  eexists. apply lookup_insert_eq.
Qed.

Lemma uploadAndProcess_inserts_one_pending_job_witness :
  exists job s',
    DocumentUploadComponent.valid DocumentUploadComponent.of_app report_pdf = true
    /\ uploadAndProcess report_pdf [("extract_images", true)] (new (sample_backend [] []))
       = (Js.Returned job, s')
    /\ Supabase.marker_jobs (supabase s') = [job]
    /\ Job.status job = Js.Val "pending"
    /\ Job.progress job = Js.Val 0%Z.
Proof.
  eexists. eexists.
  split; [reflexivity|]. split; [vm_compute; reflexivity|].
  destruct (uploadAndProcess_inserts_one_pending_job
              DocumentUploadComponent.of_app report_pdf [("extract_images", true)]
              (new (sample_backend [] [])) _ _ eq_refl eq_refl)
    as (Hjobs & Hstatus & Hprogress & _).
  split; [exact Hjobs|]. split; [exact Hstatus|exact Hprogress].
Defined.
End MarkerEngine.

(** * The change-subscription layer: the subscription table *)

Section Subscriptions.
Import RealtimeAnnotationsService Props.
Context {W : Type}.
Implicit Types (s : t W) (jobId key : string) (c : Supabase.Channel).

Lemma unsubscribeFromJob_unfold jobId s :
  unsubscribeFromJob jobId s =
    match subscriptions s !! jobId with
    | None => (Js.Returned tt, s)
    | Some c =>
        match Supabase.next_reply (supabase s) with
        | (Supabase.Rejects e, db) => (Js.Thrown e, set_supabase db s)
        | (_, db) => (Js.Returned tt, unsubscribed jobId c db s)
        end
    end.
Proof.
  unfold unsubscribeFromJob, Js.try_catch, Js.bind, Js.gets, await, Js.zoom,
    Supabase.removeChannel.
  destruct (subscriptions s !! jobId) as [c|]; [|done].
  destruct (Supabase.next_reply (supabase s)) as [[|e|e] db]; done.
Qed.

Lemma subscribeToJob_unfold jobId (handlers : Handlers W) s :
  subscribeToJob jobId handlers s =
    match (if bool_decide (is_Some (subscriptions s !! jobId))
           then unsubscribeFromJob jobId s else (Js.Returned tt, s)) with
    | (Js.Thrown e, s1) => (Js.Thrown e, s1)
    | (Js.Returned _, s1) =>
        let c := fresh_channel ("job-" +:+ jobId) (job_bindings jobId) (supabase s1) in
        (Js.Returned c,
         set_eventHandlers (<[jobId := handlers]> (eventHandlers s1))
           (set_subscriptions (<[jobId := c]> (subscriptions s1))
              (set_supabase (opened c (supabase s1)) s1)))
    end.
Proof.
  unfold subscribeToJob, Js.try_catch, Js.bind, Js.gets, Js.ret.
  destruct (bool_decide (is_Some (subscriptions s !! jobId)));
    [destruct (unsubscribeFromJob jobId s) as [[[]|e] s1]|]; reflexivity.
Qed.

Lemma subscribeToAllAnnotations_unfold (handlers : Handlers W) s :
  subscribeToAllAnnotations handlers s =
    match (if bool_decide (is_Some (subscriptions s !! "annotations-global"))
           then unsubscribeFromJob "annotations-global" s else (Js.Returned tt, s)) with
    | (Js.Thrown e, s1) => (Js.Thrown e, s1)
    | (Js.Returned _, s1) =>
        let c := fresh_channel "annotations-global"
                   [Supabase.mkBinding "*" "text_annotations" None] (supabase s1) in
        (Js.Returned c,
         set_subscriptions (<["annotations-global" := c]> (subscriptions s1))
           (set_supabase (opened c (supabase s1)) s1))
    end.
Proof.
  unfold subscribeToAllAnnotations, Js.try_catch, Js.bind, Js.gets, Js.ret.
  destruct (bool_decide (is_Some (subscriptions s !! "annotations-global")));
    [destruct (unsubscribeFromJob "annotations-global" s) as [[[]|e] s1]|]; reflexivity.
Qed.

(** The methods run from call to end are their tasks run alone. *)
Lemma unsubscribeFromJob_alone jobId s :
  Js.run_alone supabase set_supabase (Tasks.unsubscribeFromJob jobId) s
  = unsubscribeFromJob jobId s.
Proof.
  rewrite unsubscribeFromJob_unfold.
  unfold Js.run_alone, Tasks.unsubscribeFromJob.
  destruct (subscriptions s !! jobId) as [c|]; [|done].
  cbn [Js.run_task]. unfold Supabase.removeChannel.
  destruct (Supabase.next_reply (supabase s)) as [[|e|e] db]; reflexivity.
Qed.

Lemma subscribeToJob_alone jobId (handlers : Handlers W) s :
  Js.run_alone supabase set_supabase (Tasks.subscribeToJob jobId handlers) s
  = subscribeToJob jobId handlers s.
Proof.
  rewrite subscribeToJob_unfold.
  unfold Js.run_alone, Tasks.subscribeToJob, Tasks.resubscribe.
  destruct (bool_decide (is_Some (subscriptions s !! jobId))); [|reflexivity].
  rewrite unsubscribeFromJob_unfold. unfold Tasks.unsubscribeFromJob.
  destruct (subscriptions s !! jobId) as [c|]; [|reflexivity].
  cbn [Js.await_task Js.run_task]. unfold Supabase.removeChannel.
  destruct (Supabase.next_reply (supabase s)) as [[|e|e] db]; reflexivity.
Qed.

Lemma subscribeToAllAnnotations_alone (handlers : Handlers W) s :
  Js.run_alone supabase set_supabase (Tasks.subscribeToAllAnnotations handlers) s
  = subscribeToAllAnnotations handlers s.
Proof.
  rewrite subscribeToAllAnnotations_unfold.
  unfold Js.run_alone, Tasks.subscribeToAllAnnotations, Tasks.resubscribe.
  destruct (bool_decide (is_Some (subscriptions s !! "annotations-global")));
    [|reflexivity].
  rewrite unsubscribeFromJob_unfold. unfold Tasks.unsubscribeFromJob.
  destruct (subscriptions s !! "annotations-global") as [c|]; [|reflexivity].
  cbn [Js.await_task Js.run_task]. unfold Supabase.removeChannel.
  destruct (Supabase.next_reply (supabase s)) as [[|e|e] db]; reflexivity.
Qed.

(** The turn of the call started last. *)
Lemma step_resume_last s (ts : list (Js.Task Supabase.t (t W) unit))
    (task : Js.Task Supabase.t (t W) unit) :
  step (Resume (length ts)) (mkPool s (ts ++ [task])%list)
  = mkPool (Js.resume_task supabase set_supabase task s).2
           (ts ++ [(Js.resume_task supabase set_supabase task s).1])%list.
Proof.
  unfold step. cbn [tasks service].
  rewrite lookup_app_r, Nat.sub_diag by lia. cbn [lookup list_lookup].
  destruct (Js.resume_task supabase set_supabase task s) as [task' s'].
  rewrite insert_app_r_alt, Nat.sub_diag by lia. done.
Qed.

(** A call that is started and given two turns has settled, and has done what
    the method run from call to end does. *)
Lemma start_two_turns (c : Call W) s :
  exists r,
    Js.resume_task supabase set_supabase
      (Js.resume_task supabase set_supabase (start c s).1 (start c s).2).1
      (Js.resume_task supabase set_supabase (start c s).1 (start c s).2).2
    = (Js.Settled r, call c s).
Proof.
  destruct c as [jobId handlers|handlers|jobId]; cbn [start call].
  - rewrite <- subscribeToJob_alone.
    unfold Js.run_alone, Tasks.subscribeToJob, Tasks.resubscribe.
    destruct (bool_decide (is_Some (subscriptions s !! jobId))).
    + unfold Tasks.unsubscribeFromJob.
      destruct (subscriptions s !! jobId) as [ch|].
      * cbn [Js.await_task Js.forget Js.run_task Js.resume_task fst snd].
        unfold Supabase.removeChannel.
        destruct (Supabase.next_reply (supabase s)) as [[|e|e] db];
          cbn [Js.await_task Js.forget Js.run_task Js.resume_task Js.ret fst snd];
          by eexists.
      * cbn [Js.await_task Js.forget Js.run_task Js.resume_task Js.ret fst snd].
        by eexists.
    + cbn [Tasks.open_channel Supabase.channel_subscribe Js.forget Js.run_task
           Js.resume_task fst snd]. by eexists.
  - rewrite <- subscribeToAllAnnotations_alone.
    unfold Js.run_alone, Tasks.subscribeToAllAnnotations, Tasks.resubscribe.
    destruct (bool_decide (is_Some (subscriptions s !! "annotations-global"))).
    + unfold Tasks.unsubscribeFromJob.
      destruct (subscriptions s !! "annotations-global") as [ch|].
      * cbn [Js.await_task Js.forget Js.run_task Js.resume_task fst snd].
        unfold Supabase.removeChannel.
        destruct (Supabase.next_reply (supabase s)) as [[|e|e] db];
          cbn [Js.await_task Js.forget Js.run_task Js.resume_task Js.ret fst snd];
          by eexists.
      * cbn [Js.await_task Js.forget Js.run_task Js.resume_task Js.ret fst snd].
        by eexists.
    + cbn [Tasks.open_channel Supabase.channel_subscribe Js.forget Js.run_task
           Js.resume_task fst snd]. by eexists.
  - rewrite <- unsubscribeFromJob_alone.
    unfold Js.run_alone, Tasks.unsubscribeFromJob.
    destruct (subscriptions s !! jobId) as [ch|].
    + cbn [Js.run_task Js.resume_task fst snd]. unfold Supabase.removeChannel.
      destruct (Supabase.next_reply (supabase s)) as [[|e|e] db];
        cbn [Js.run_task Js.resume_task fst snd]; by eexists.
    + cbn [Js.run_task Js.resume_task fst snd]. by eexists.
Qed.

Lemma call_in_turn (c : Call W) s (ts : list (Js.Task Supabase.t (t W) unit)) :
  exists r,
    run [Start c; Resume (length ts); Resume (length ts)] (mkPool s ts)
    = mkPool (call c s) (ts ++ [Js.Settled r])%list.
Proof.
  destruct (start_two_turns c s) as [r Hr]. exists r.
  unfold run. cbn [foldl]. unfold step at 3. cbn [service tasks].
  destruct (start c s) as [t0 s0]. cbn [fst snd] in Hr.
  rewrite !step_resume_last. rewrite Hr. done.
Qed.

(** Calls that do not overlap do what the fold of the calls does, and every
    one of them has settled. *)
Lemma run_in_turn (cs : list (Call W)) :
  forall s (ts : list (Js.Task Supabase.t (t W) unit)),
    Forall (fun task => Js.settled task = true) ts ->
    service (run (in_turn (length ts) cs) (mkPool s ts)) = calls cs s
    /\ Forall (fun task => Js.settled task = true)
               (tasks (run (in_turn (length ts) cs) (mkPool s ts)))
    /\ length (tasks (run (in_turn (length ts) cs) (mkPool s ts)))
       = (length ts + length cs)%nat.
Proof.
  induction cs as [|c cs IH]; intros s ts Hts.
  - cbn. split_and!; [done|done|lia].
  - destruct (call_in_turn c s ts) as [r Hrun].
    change (in_turn (length ts) (c :: cs))
      with ([Start c; Resume (length ts); Resume (length ts)]
              ++ in_turn (S (length ts)) cs)%list.
    unfold run in *. rewrite foldl_app, Hrun.
    replace (S (length ts)) with (length (ts ++ [Js.Settled (D := Supabase.t) (S := t W) r])%list)
      by (rewrite length_app; cbn; lia).
    destruct (IH (call c s) (ts ++ [Js.Settled r])%list) as (H1 & H2 & H3).
    { apply Forall_app. split; [done|]. by apply Forall_singleton. }
    split_and!; [exact H1|exact H2|].
    rewrite H3, length_app. cbn. lia.
Qed.

Lemma tracked_next_reply db db' reply table :
  Supabase.next_reply db = (reply, db') -> tracked db table -> tracked db' table.
Proof.
  intros (_ & _ & _ & Hch & _ & Hnext & _)%next_reply_frame.
  unfold tracked. by rewrite Hch, Hnext.
Qed.

Lemma tracked_without db table key c :
  tracked db table -> table !! key = Some c ->
  tracked (without c db) (delete key table).
Proof.
  intros (Hnd & Hid & Hlive & Htopic & Hinj) Hc.
  unfold tracked, without. cbn.
  split; [by apply NoDup_filter|].
  split. { intros c' [_ Hc']%list_elem_of_filter. by apply Hid. }
  split.
  { intros c'. rewrite list_elem_of_filter, Hlive. split.
    - intros [Hne [k Hk]]. exists k. rewrite lookup_delete_ne; [done|].
      intros <-. congruence.
    - intros [k Hk]. apply lookup_delete_Some in Hk as [Hne Hk].
      split; [|by exists k]. intros ->. apply Hne. by eapply Hinj. }
  split.
  { intros k c' Hk. apply lookup_delete_Some in Hk as [_ Hk]. by eapply Htopic. }
  intros k1 k2 c' [_ H1]%lookup_delete_Some [_ H2]%lookup_delete_Some.
  by eapply Hinj.
Qed.

Lemma tracked_opened db table key topic bs :
  tracked db table -> table !! key = None ->
  topic = "job-" +:+ key \/ (key = "annotations-global" /\ topic = "annotations-global") ->
  tracked (opened (fresh_channel topic bs db) db)
          (<[key := fresh_channel topic bs db]> table).
Proof.
  intros (Hnd & Hid & Hlive & Htopic & Hinj) Hkey Hname.
  remember (fresh_channel topic bs db) as c eqn:Hcdef.
  assert (Supabase.channel_id c = Supabase.next_channel db) as Hcid by by subst c.
  assert (c ∉ Supabase.channels db) as Hfresh.
  { intros Hin%Hid. lia. }
  unfold tracked, opened. cbn.
  split. { apply NoDup_app. split; [done|]. split; [|apply NoDup_singleton].
           intros c' Hc' Heq%list_elem_of_singleton. by subst c'. }
  split. { intros c' [Hc'|Heq%list_elem_of_singleton]%elem_of_app.
           - apply Hid in Hc'. lia.
           - subst c'. lia. }
  split.
  { intros c'. rewrite elem_of_app, list_elem_of_singleton, Hlive. split.
    - intros [[k Hk]| ->].
      + exists k. rewrite lookup_insert_ne; [done|]. intros <-. congruence.
      + exists key. apply lookup_insert_eq.
    - intros [k Hk]. apply lookup_insert_Some in Hk as [[_ <-]|[_ Hk]];
        [by right|left; by exists k]. }
  split.
  { intros k c' Hk. apply lookup_insert_Some in Hk as [[<- <-]|[_ Hk]];
      [by subst c|by eapply Htopic]. }
  intros k1 k2 c' H1 H2.
  apply lookup_insert_Some in H1 as [[E1 E1']|[Hne1 H1]];
    apply lookup_insert_Some in H2 as [[E2 E2']|[Hne2 H2]].
  - congruence.
  - exfalso. apply Hfresh, Hlive. exists k2. congruence.
  - exfalso. apply Hfresh, Hlive. exists k1. congruence.
  - by eapply Hinj.
Qed.

(** After [unsubscribeFromJob] has run, returned or thrown, the table still
    tracks the client; when it returned, the key is free. *)
Lemma unsubscribeFromJob_tracked jobId s :
  tracked (supabase s) (subscriptions s) ->
  tracked (supabase (unsubscribeFromJob jobId s).2)
          (subscriptions (unsubscribeFromJob jobId s).2)
  /\ ((unsubscribeFromJob jobId s).1 = Js.Returned tt ->
      subscriptions (unsubscribeFromJob jobId s).2 !! jobId = None).
Proof.
  intros Ht. rewrite unsubscribeFromJob_unfold.
  destruct (subscriptions s !! jobId) as [c|] eqn:Hc; [|done].
  destruct (Supabase.next_reply (supabase s)) as [reply db] eqn:Hreply.
  assert (tracked db (subscriptions s)) as Ht' by by eapply tracked_next_reply.
  destruct reply as [|e|e]; cbn.
  - split; [by apply tracked_without|intros _; apply lookup_delete_eq].
  - split; [by apply tracked_without|intros _; apply lookup_delete_eq].
  - split; [done|discriminate].
Qed.

Lemma call_tracked (c : Call W) s :
  tracked (supabase s) (subscriptions s) ->
  tracked (supabase (call c s)) (subscriptions (call c s)).
Proof.
  intros Ht. destruct c as [jobId handlers|handlers|jobId]; cbn [call].
  - rewrite subscribeToJob_unfold.
    destruct (bool_decide (is_Some (subscriptions s !! jobId))) eqn:Hsome.
    + destruct (unsubscribeFromJob_tracked jobId s Ht) as [Ht1 Hfree].
      destruct (unsubscribeFromJob jobId s) as [[[]|e] s1]; cbn in *; [|done].
      apply tracked_opened; [done|by apply Hfree|by left].
    + cbn. apply tracked_opened; [done| |by left].
      apply bool_decide_eq_false in Hsome. by apply eq_None_not_Some.
  - rewrite subscribeToAllAnnotations_unfold.
    destruct (bool_decide (is_Some (subscriptions s !! "annotations-global"))) eqn:Hsome.
    + destruct (unsubscribeFromJob_tracked "annotations-global" s Ht) as [Ht1 Hfree].
      destruct (unsubscribeFromJob "annotations-global" s) as [[[]|e] s1]; cbn in *; [|done].
      apply tracked_opened; [done|by apply Hfree|by right].
    + cbn. apply tracked_opened; [done| |by right].
      apply bool_decide_eq_false in Hsome. by apply eq_None_not_Some.
  - by apply unsubscribeFromJob_tracked.
Qed.

Lemma calls_tracked (cs : list (Call W)) s :
  tracked (supabase s) (subscriptions s) ->
  tracked (supabase (calls cs s)) (subscriptions (calls cs s)).
Proof.
  revert s. induction cs as [|c cs IH]; intros s Ht; [done|].
  cbn. apply IH. by apply call_tracked.
Qed.

Lemma create_tracked (client : Supabase.t) :
  Supabase.channels client = [] ->
  tracked (supabase (create (W := W) client)) (subscriptions (create (W := W) client)).
Proof.
  intros Hc. unfold tracked. cbn. rewrite Hc.
  split; [constructor|]. split; [by intros c ?%elem_of_nil|].
  split. { intros c. split; [by intros ?%elem_of_nil|]. by intros [k Hk]. }
  split; by intros.
Qed.

Lemma job_topic_inj (k1 k2 : string) : "job-" +:+ k1 = "job-" +:+ k2 -> k1 = k2.
Proof. apply (inj _). Qed.

Lemma job_topic_not_global (k : string) : "job-" +:+ k <> "annotations-global".
Proof. intros H. vm_compute in H. discriminate. Qed.

(** A tracked table leaves at most one live channel per job, the one the
    table holds for it. *)
Lemma tracked_live_for_job jobId s :
  tracked (supabase s) (subscriptions s) ->
  live_for_job jobId s =
    match subscriptions s !! jobId with
    | Some c => if decide (Supabase.topic c = "job-" +:+ jobId) then [c] else []
    | None => []
    end.
Proof.
  intros (Hnd & _ & Hlive & Htopic & Hinj). unfold live_for_job.
  assert (forall c, c ∈ filter (fun c => Supabase.topic c = "job-" +:+ jobId)
                          (Supabase.channels (supabase s)) ->
                    subscriptions s !! jobId = Some c) as Hsub.
  { intros c [Hc Hin]%list_elem_of_filter. apply Hlive in Hin as [k Hk].
    destruct (Htopic k c Hk) as [Hk'|[_ Hk']].
    - rewrite Hc in Hk'. by apply job_topic_inj in Hk' as ->.
    - rewrite Hc in Hk'. by apply job_topic_not_global in Hk'. }
  pose proof (NoDup_filter (fun c => Supabase.topic c = "job-" +:+ jobId) _ Hnd) as Hnd'.
  destruct (filter _ (Supabase.channels (supabase s))) as [|c1 l] eqn:Hf.
  - destruct (subscriptions s !! jobId) as [c|] eqn:Hc; [|done].
    case_decide as Ht; [|done]. exfalso.
    assert (c ∈ filter (fun c => Supabase.topic c = "job-" +:+ jobId)
                       (Supabase.channels (supabase s))) as Hin.
    { apply list_elem_of_filter. split; [done|]. apply Hlive. by exists jobId. }
    rewrite Hf in Hin. by apply elem_of_nil in Hin.
  - assert (subscriptions s !! jobId = Some c1) as H1 by (apply Hsub; left).
    rewrite H1.
    assert (c1 ∈ filter (fun c => Supabase.topic c = "job-" +:+ jobId)
                        (Supabase.channels (supabase s))) as Hin1
      by (rewrite Hf; left).
    apply list_elem_of_filter in Hin1 as [Ht1 _]. rewrite decide_True by done.
    destruct l as [|c2 l]; [done|]. exfalso.
    assert (subscriptions s !! jobId = Some c2) as H2 by (apply Hsub; right; left).
    assert (c1 = c2) as -> by congruence.
    apply NoDup_cons in Hnd' as [Hnotin _]. apply Hnotin. left.
Qed.

(** On every state that the fold of whole calls reaches from a client without
    channels: at most one live channel serves a job; an [unsubscribeFromJob]
    that returns leaves the job without table entry and without live channel;
    and a [subscribeToJob] for a job that has an entry removes the prior
    channel, once and only it, and then installs a new channel as the job's
    entry and only live channel. *)
Lemma one_live_subscription_of_calls (cs : list (Call W)) (client : Supabase.t)
    (jobId : string) (handlers : Handlers W) :
  Supabase.channels client = [] ->
  let s := calls cs (create client) in
  (length (live_for_job jobId s) <= 1)%nat
  /\ (forall s', unsubscribeFromJob jobId s = (Js.Returned tt, s') ->
        isSubscribedToJob jobId s' = false /\ live_for_job jobId s' = [])
  /\ (forall prior c s',
        subscriptions s !! jobId = Some prior ->
        subscribeToJob jobId handlers s = (Js.Returned c, s') ->
        Supabase.removed_channels (supabase s')
          = (Supabase.removed_channels (supabase s) ++ [prior])%list
        /\ subscriptions s' !! jobId = Some c
        /\ c <> prior
        /\ live_for_job jobId s' = [c]).
Proof.
  intros Hclient s.
  assert (tracked (supabase s) (subscriptions s)) as Ht
    by (apply calls_tracked, create_tracked, Hclient).
  split.
  { rewrite (tracked_live_for_job _ _ Ht).
    destruct (subscriptions s !! jobId); [case_decide|]; cbn; lia. }
  split.
  { intros s' Hun.
    destruct (unsubscribeFromJob_tracked jobId s Ht) as [Ht' Hfree].
    rewrite Hun in Ht', Hfree. cbn in Ht', Hfree. specialize (Hfree eq_refl).
    split.
    - unfold isSubscribedToJob. rewrite Hfree. apply bool_decide_eq_false.
      by intros [? ?].
    - rewrite (tracked_live_for_job _ _ Ht'). by rewrite Hfree. }
  intros prior c s' Hprior Hsub.
  pose proof (call_tracked (CallSubscribeToJob jobId handlers) s Ht) as Ht'.
  cbn [call] in Ht'. rewrite Hsub in Ht'. cbn [snd] in Ht'.
  rewrite subscribeToJob_unfold in Hsub.
  rewrite bool_decide_eq_true_2 in Hsub by by rewrite Hprior.
  rewrite unsubscribeFromJob_unfold, Hprior in Hsub.
  destruct (Supabase.next_reply (supabase s)) as [reply db] eqn:Hreply.
  pose proof (next_reply_frame _ _ _ Hreply)
    as (_ & _ & _ & Hch & Hrem & Hnext & _).
  assert (prior ∈ Supabase.channels (supabase s)) as Hlive.
  { destruct Ht as (_ & _ & Hl & _). apply Hl. by exists jobId. }
  assert (Supabase.channel_id prior < Supabase.next_channel (supabase s))%nat as Hid.
  { destruct Ht as (_ & Hi & _). by apply Hi. }
  assert (exists s1,
            s1 = unsubscribed jobId prior db s
            /\ s' = set_eventHandlers (<[jobId := handlers]> (eventHandlers s1))
                      (set_subscriptions
                         (<[jobId := fresh_channel ("job-" +:+ jobId) (job_bindings jobId)
                                       (supabase s1)]> (subscriptions s1))
                         (set_supabase
                            (opened (fresh_channel ("job-" +:+ jobId) (job_bindings jobId)
                                       (supabase s1)) (supabase s1)) s1))
            /\ c = fresh_channel ("job-" +:+ jobId) (job_bindings jobId) (supabase s1))
    as (s1 & Hs1 & -> & ->).
  { destruct reply as [|e|e]; cbn in Hsub; [| |discriminate];
      injection Hsub as <- <-; by eexists. }
  subst s1.
  split. { cbn. by rewrite Hrem. }
  split. { cbn. apply lookup_insert_eq. }
  split. { intros Heq. rewrite <- Heq in Hid. cbn in Hid. rewrite Hnext in Hid. lia. }
  rewrite (tracked_live_for_job _ _ Ht'). cbn [subscriptions set_eventHandlers set_subscriptions].
  rewrite lookup_insert_eq. by rewrite decide_True.
Qed.


End Subscriptions.

Lemma run_pair {W A} (m : Js.M W A) (w : W) (r : Js.outcome A) :
  (m w).1 = r -> m w = (r, (m w).2).
Proof. intros <-. by destruct (m w). Qed.

Section SubscriptionsWitness.
Import RealtimeAnnotationsService Props.


End SubscriptionsWitness.

(** * Further properties of the annotation view *)

Section ViewerMore.
Import AnnotationsViewerComponent AnnotationsViewerControls Props MoreProps.

Lemma markup_chars_app (s1 s2 : string) :
  Js.markup_chars (s1 +:+ s2) = Js.markup_chars s1 +:+ Js.markup_chars s2.
Proof.
  induction s1 as [|c s1 IH]; [done|].
  change (String c s1 +:+ s2) with (String c (s1 +:+ s2)).
  cbn [Js.markup_chars]. destruct (Js.is_markup c); [|done].
  change (String c (Js.markup_chars s1) +:+ Js.markup_chars s2)
    with (String c (Js.markup_chars s1 +:+ Js.markup_chars s2)).
  by f_equal.
Qed.

Lemma string_app_assoc (s1 s2 s3 : string) : (s1 +:+ s2) +:+ s3 = s1 +:+ (s2 +:+ s3).
Proof.
  induction s1 as [|c s1 IH]; [done|].
  change (String c ((s1 +:+ s2) +:+ s3) = String c (s1 +:+ s2 +:+ s3)). by f_equal.
Qed.

Lemma string_app_empty (s : string) : s +:+ "" = s.
Proof.
  induction s as [|c s IH]; [done|].
  change (String c (s +:+ "") = String c s). by f_equal.
Qed.

Lemma markup_chars_pretty_N_go (x : N) (s : string) :
  Js.markup_chars (pretty_N_go x s) = Js.markup_chars s.
Proof.
  revert s. induction (N.lt_wf_0 x) as [x _ IH]; intros s.
  assert (x = 0 \/ 0 < x)%N as [->|Hx] by lia.
  - by rewrite pretty_N_go_0.
  - rewrite pretty_N_go_step by done. rewrite IH by (by apply N.div_lt).
    cbn [Js.markup_chars]. unfold pretty_N_char. by repeat case_match.
Qed.

Lemma markup_chars_pretty (k : nat) : Js.markup_chars (pretty k) = "".
Proof.
  unfold pretty, pretty_nat, pretty, pretty_N. case_decide; [done|].
  by rewrite markup_chars_pretty_N_go.
Qed.

Lemma is_markup_lower_ascii (c : ascii) : Js.is_markup (Js.lower_ascii c) = Js.is_markup c.
Proof. destruct c as [[] [] [] [] [] [] [] []]; reflexivity. Qed.

Lemma markup_chars_toLowerCase (s : string) :
  Js.markup_chars s = "" -> Js.markup_chars (Js.toLowerCase s) = "".
Proof.
  induction s as [|c s IH]; [done|].
  cbn [Js.toLowerCase Js.markup_chars]. rewrite is_markup_lower_ascii.
  by destruct (Js.is_markup c).
Qed.

Lemma markup_chars_getHighlightClass (v : t) (a : Annotation.row) :
  plain a -> Js.markup_chars (getHighlightClass v a) = "".
Proof.
  intros (_ & _ & Hemotion). unfold getHighlightClass.
  destruct (String.eqb (highlightMode v) "sentiment").
  { cbn zeta. by repeat case_match. }
  destruct (String.eqb (highlightMode v) "emotion"); [|done].
  cbn zeta. rewrite markup_chars_app. by rewrite markup_chars_toLowerCase.
Qed.

Lemma markup_chars_span_markup (v : t) (k : nat) (a : Annotation.row) :
  Js.markup_chars (span_markup v k a) = written_markup v a.
Proof.
  unfold span_markup, written_markup.
  rewrite !markup_chars_app, !markup_chars_pretty.
  reflexivity.
Qed.

Lemma written_markup_plain (v : t) (a : Annotation.row) :
  plain a -> written_markup v a = span_skeleton.
Proof.
  intros Hplain. unfold written_markup.
  rewrite (markup_chars_getHighlightClass v a Hplain).
  destruct Hplain as (-> & -> & _). reflexivity.
Qed.

Lemma markup_chars_spans (v : t) (l : list (nat * Annotation.row)) (html : string) :
  Js.markup_chars (foldl (fun html ia => html +:+ span_markup v ia.1 ia.2) html l)
  = Js.markup_chars html +:+ foldr (fun ia rest => written_markup v ia.2 +:+ rest) "" l.
Proof.
  revert html. induction l as [|ia l IH]; intros html.
  - cbn [foldl foldr]. by rewrite string_app_empty.
  - cbn [foldl foldr]. rewrite IH, markup_chars_app, markup_chars_span_markup.
    by rewrite string_app_assoc.
Qed.

Lemma foldr_imap_snd {A} (g : A -> string) (h : nat -> A -> nat * A) (l : list A) :
  (forall i a, (h i a).2 = a) ->
  foldr (fun ia rest => g ia.2 +:+ rest) "" (imap h l)
  = foldr (fun a rest => g a +:+ rest) "" l.
Proof.
  revert h. induction l as [|a l IH]; intros h Hh; [done|].
  cbn [imap foldr]. rewrite Hh. f_equal. apply IH. intros i b. apply Hh.
Qed.

Lemma foldr_plain (v : t) (l : list Annotation.row) :
  Forall plain l ->
  foldr (fun a rest => written_markup v a +:+ rest) "" l = copies (length l) span_skeleton.
Proof.
  induction 1 as [|a l Ha _ IH]; [done|].
  cbn [foldr length copies]. by rewrite IH, written_markup_plain.
Qed.

(** X1. [renderAnnotations] interpolates the annotations' values into the
    markup as they are, without escaping: the markup characters (angle
    brackets, ampersands, double quotes) of the string assigned to
    [innerHTML] for a list that is not empty are, annotation by annotation in
    ascending order of position, those of the template and between them those
    of the annotation's highlight class, identifier and text. As long as no
    text, identifier or emotion label holds a markup character, the string
    therefore holds the tags of the template and no other markup: one opening
    tag with four quoted attributes and one closing tag per annotation. *)
Theorem markup_of_rendered_annotations (v : t) :
  annotations v <> [] ->
  Js.markup_chars (content_innerHTML (renderAnnotations v))
  = foldr (fun a rest => written_markup v a +:+ rest) "" (sortedAnnotations (annotations v))
  /\ (Forall plain (annotations v) ->
      Js.markup_chars (content_innerHTML (renderAnnotations v))
      = copies (length (annotations v)) span_skeleton).
Proof.
  intros Hne.
  assert (Js.markup_chars (content_innerHTML (renderAnnotations v))
          = foldr (fun a rest => written_markup v a +:+ rest) ""
                  (sortedAnnotations (annotations v))) as Hmarkup.
  { rewrite renderAnnotations_content.
    destruct (annotations v) as [|a0 l0] eqn:Hv; [done|].
    cbn [content_innerHTML set_content].
    rewrite markup_chars_spans. cbn [Js.markup_chars String.append].
    by apply (foldr_imap_snd (written_markup v)). }
  split; [exact Hmarkup|].
  intros Hplain. rewrite Hmarkup, foldr_plain.
  - f_equal. apply Permutation_length, sortedAnnotations_Permutation.
  - by rewrite (sortedAnnotations_Permutation (annotations v)).
Qed.

Lemma markup_of_rendered_annotations_witness :
  Js.markup_chars
    (content_innerHTML
       (renderAnnotations (set_annotations [world_at_5; hello_at_2] (new "sentiment"))))
  = span_skeleton +:+ span_skeleton
  /\ Js.markup_chars
       (content_innerHTML
          (renderAnnotations (set_annotations [world_at_5; bold_at_2] (new "sentiment"))))
     = ("<" +:+ Js.dq +:+ Js.dq +:+ Js.dq +:+ Js.dq +:+ Js.dq +:+ Js.dq +:+ Js.dq +:+ Js.dq
        +:+ ">" +:+ "<><>" +:+ "<>") +:+ span_skeleton.
Proof.
  split.
  - refine (proj2 (markup_of_rendered_annotations
                     (set_annotations [world_at_5; hello_at_2] (new "sentiment")) _) _).
    + discriminate.
    + repeat constructor.
  - refine (proj1 (markup_of_rendered_annotations
                     (set_annotations [world_at_5; bold_at_2] (new "sentiment")) _)).
    discriminate.
Defined.

(** A text with markup of its own is written as it is: its tags stand in
    the markup between those of the template, so that the document holds an
    element more than there are fragments. *)
Lemma markup_in_text_is_not_escaped :
  Js.markup_chars (content_innerHTML (loadAnnotations [bold_at_2] (new "sentiment")))
  = "<" +:+ Js.dq +:+ Js.dq +:+ Js.dq +:+ Js.dq +:+ Js.dq +:+ Js.dq +:+ Js.dq +:+ Js.dq
    +:+ ">" +:+ "<><>" +:+ "<>"
  /\ Js.markup_chars (content_innerHTML (loadAnnotations [bold_at_2] (new "sentiment")))
     <> copies 1 span_skeleton
  /\ map frag_text (fragments (loadAnnotations [bold_at_2] (new "sentiment")))
     = ["<b>bold</b>"].
Proof. split; [reflexivity|]. split; [vm_compute; discriminate|reflexivity]. Qed.

Lemma none_selected_renderAnnotations (v : t) : none_selected (renderAnnotations v).
Proof.
  unfold none_selected. rewrite fragments_renderAnnotations.
  apply Forall_forall. intros el [k [a [-> _]]]%elem_of_lookup_imap. done.
Qed.

Lemma renderAnnotations_keeps_selection (v : t) :
  selectedAnnotation (renderAnnotations v) = selectedAnnotation v
  /\ details_content (renderAnnotations v) = details_content v
  /\ details_display (renderAnnotations v) = details_display v
  /\ highlightMode (renderAnnotations v) = highlightMode v.
Proof. rewrite renderAnnotations_content. by destruct (annotations v). Qed.


(** X3. [selectAnnotation] with an index outside the list throws: by then the
    selection is cleared and only a fragment at that index, if there is one,
    is marked; the detail panel is untouched and the click callback is not
    called. *)
Theorem selectAnnotation_out_of_range {W} (onAnnotationClick : option (Annotation.row -> Js.M W unit))
    (index : nat) (v : t) (w : W) :
  (length (annotations v) <= index)%nat ->
  exists e v',
    selectAnnotation onAnnotationClick index (v, w) = (Js.Thrown e, (v', w))
    /\ selectedAnnotation v' = None
    /\ fragments v' = toggle_selected index (fragments v)
    /\ details_content v' = details_content v
    /\ details_display v' = details_display v
    /\ annotations v' = annotations v.
Proof.
  intros Hlen. apply lookup_ge_None_2 in Hlen.
  unfold selectAnnotation, Js.bind, Js.gets, Js.modify, Js.throw. cbn.
  rewrite Hlen. eexists. eexists. split; [reflexivity|]. done.
Qed.

Lemma selectAnnotation_out_of_range_witness :
  exists e v',
    selectAnnotation (W := list Annotation.row)
      (Some (fun a => Js.modify (fun log => (log ++ [a])%list))) 2
      (loadAnnotations [world_at_5; hello_at_2] (new "sentiment"), [])
    = (Js.Thrown e, (v', []))
    /\ selectedAnnotation v' = None
    /\ map frag_selected (fragments v') = [false; false].
Proof.
  destruct (selectAnnotation_out_of_range
              (W := list Annotation.row)
              (Some (fun a => Js.modify (fun log => (log ++ [a])%list))) 2
              (loadAnnotations [world_at_5; hello_at_2] (new "sentiment")) [])
    as (e & v' & Hrun & Hsel & Hfrag & _).
  { cbn. lia. }
  exists e, v'. split; [exact Hrun|]. split; [exact Hsel|].
  rewrite Hfrag. reflexivity.
Defined.

(** [updateAnnotation] with an identifier that no annotation of the list
    has changes nothing: the list, the content and the selection stay. *)
Theorem updateAnnotation_unknown_id (annotationId : string) (updates : Annotation.row) (v : t) :
  Forall (fun a => Annotation.id a <> annotationId) (annotations v) ->
  updateAnnotation annotationId updates v = v.
Proof.
  intros H. unfold updateAnnotation.
  by rewrite (proj2 (list_find_None _ _) H).
Qed.

Lemma updateAnnotation_unknown_id_witness :
  updateAnnotation "a-9" again_at_2
    (loadAnnotations [world_at_5; hello_at_2] (new "sentiment"))
  = loadAnnotations [world_at_5; hello_at_2] (new "sentiment").
Proof.
  apply (updateAnnotation_unknown_id "a-9" again_at_2).
  apply (bool_decide_unpack _). vm_compute. reflexivity.
Defined.

Lemma spread_complete (old updates : Annotation.row) :
  complete updates -> Annotation.spread old updates = updates.
Proof.
  intros (H1 & H2 & H3 & H4). destruct updates as [i j tx p sc e m c].
  cbn in *. unfold Annotation.spread. cbn.
  destruct j, sc, e, c; done.
Qed.

(** [updateAnnotation] merges the update into the first annotation that
    has the identifier, at its place in the list, and renders the list again:
    the columns that the update carries replace the annotation's, the others
    stay, and an update that carries every column replaces the annotation.
    The other annotations and the length of the list stay, and a later
    annotation with the same identifier is not touched. *)
Theorem updateAnnotation_merges_into_first (annotationId : string)
    (updates old : Annotation.row) (k : nat) (v : t) :
  annotations v !! k = Some old ->
  Annotation.id old = annotationId ->
  (forall j a, annotations v !! j = Some a -> (j < k)%nat -> Annotation.id a <> annotationId) ->
  annotations (updateAnnotation annotationId updates v)
  = <[k := Annotation.spread old updates]> (annotations v)
  /\ (complete updates ->
      annotations (updateAnnotation annotationId updates v) = <[k := updates]> (annotations v))
  /\ length (annotations (updateAnnotation annotationId updates v)) = length (annotations v)
  /\ (forall j, j <> k ->
        annotations (updateAnnotation annotationId updates v) !! j = annotations v !! j)
  /\ fragments (updateAnnotation annotationId updates v)
     = imap (span_element v)
            (sortedAnnotations (<[k := Annotation.spread old updates]> (annotations v))).
Proof.
  intros Hk Hid Hfirst. unfold updateAnnotation.
  rewrite (proj2 (list_find_Some (fun a => Annotation.id a = annotationId)
                    (annotations v) k old)) by done.
  rewrite annotations_renderAnnotations, fragments_renderAnnotations.
  cbn [annotations set_annotations].
  split; [done|]. split; [intros Hc; by rewrite spread_complete|].
  split; [by rewrite length_insert|].
  split; [intros j Hj; by rewrite list_lookup_insert_ne|].
  apply imap_ext. intros i a _. done.
Qed.

Lemma updateAnnotation_merges_into_first_witness :
  annotations
    (updateAnnotation "a-2" again_at_2
       (loadAnnotations [world_at_5; hello_at_2; hello_at_2] (new "sentiment")))
  = [world_at_5; Annotation.spread hello_at_2 again_at_2; hello_at_2].
Proof.
  refine (proj1 (updateAnnotation_merges_into_first "a-2" again_at_2 hello_at_2 1
                   (loadAnnotations [world_at_5; hello_at_2; hello_at_2] (new "sentiment"))
                   eq_refl eq_refl _)).
  intros [|[|j]] a Ha Hj; [|lia|lia].
  injection Ha as <-. discriminate.
Defined.

Lemma getHighlightClass_off (v : t) (a : Annotation.row) :
  highlightMode v <> "sentiment" -> highlightMode v <> "emotion" ->
  getHighlightClass v a = "".
Proof.
  intros H1 H2. unfold getHighlightClass.
  rewrite (proj2 (String.eqb_neq _ _) H1), (proj2 (String.eqb_neq _ _) H2). done.
Qed.

(** Switching the highlight mode keeps the order, the texts, the
    identifiers and the indices of the fragments and changes their classes
    only; in a mode other than [sentiment] and [emotion] no fragment has a
    highlight class. *)
Theorem setHighlightMode_changes_classes_only (mode : string) (v : t) :
  annotations (setHighlightMode mode v) = annotations v
  /\ map frag_text (fragments (setHighlightMode mode v))
     = map frag_text (fragments (renderAnnotations v))
  /\ map frag_annotation_id (fragments (setHighlightMode mode v))
     = map frag_annotation_id (fragments (renderAnnotations v))
  /\ map frag_index (fragments (setHighlightMode mode v))
     = map frag_index (fragments (renderAnnotations v))
  /\ (mode <> "sentiment" -> mode <> "emotion" ->
      Forall (fun el => frag_class el = "annotated-text ")
             (fragments (setHighlightMode mode v))).
Proof.
  unfold setHighlightMode.
  rewrite annotations_renderAnnotations, !fragments_renderAnnotations.
  cbn [annotations set_highlightMode].
  split; [done|].
  rewrite !fmap_imap.
  split; [by apply imap_ext|]. split; [by apply imap_ext|]. split; [by apply imap_ext|].
  intros H1 H2. apply Forall_forall.
  intros el [k [a [-> _]]]%elem_of_lookup_imap.
  cbn [frag_class span_element]. by rewrite getHighlightClass_off.
Qed.

Lemma lower_ascii_idempotent (c : ascii) :
  Js.lower_ascii (Js.lower_ascii c) = Js.lower_ascii c.
Proof. destruct c as [[] [] [] [] [] [] [] []]; reflexivity. Qed.

Lemma toLowerCase_idempotent (s : string) :
  Js.toLowerCase (Js.toLowerCase s) = Js.toLowerCase s.
Proof.
  induction s as [|c s IH]; [done|]. cbn [Js.toLowerCase].
  by rewrite lower_ascii_idempotent, IH.
Qed.

(** In emotion mode the class of an annotation ignores the case of its
    label, and an annotation without label, or with an empty one, gets the
    class of [neutral]. *)
Theorem emotion_class_ignores_case (v : t) (a : Annotation.row) (label : string) :
  let emotion := set_highlightMode "emotion" v in
  getHighlightClass emotion (labelled (Js.Val label) a)
    = getHighlightClass emotion (labelled (Js.Val (Js.toLowerCase label)) a)
  /\ getHighlightClass emotion (labelled Js.Undefined a) = "emotion-neutral"
  /\ getHighlightClass emotion (labelled Js.Null a) = "emotion-neutral"
  /\ getHighlightClass emotion (labelled (Js.Val "") a) = "emotion-neutral".
Proof.
  split; [|done].
  assert (forall b, getHighlightClass (set_highlightMode "emotion" v) b
                    = "emotion-" +:+ Js.toLowerCase (Js.or_string (Annotation.emotion b) "neutral"))
    as Hclass by reflexivity.
  rewrite !Hclass. cbn [labelled Annotation.emotion].
  destruct label as [|c s]; [done|].
  cbn [Js.or_string Js.toLowerCase].
  by rewrite lower_ascii_idempotent, toLowerCase_idempotent.
Qed.

(** [clear()] empties the list and the selection, shows the empty state
    and hides the detail panel, whatever was shown; an annotation added after
    it is the only fragment. *)
Theorem clear_then_add (annotation : Annotation.row) (v : t) :
  getAnnotations (clear v) = []
  /\ getSelectedAnnotation (clear v) = None
  /\ content_innerHTML (clear v) = empty_state
  /\ fragments (clear v) = []
  /\ details_display (clear v) = "none"
  /\ fragments (addAnnotation annotation (clear v)) = [span_element v 0 annotation].
Proof.
  repeat split.
Qed.
End ViewerMore.

(** * Further properties of the status view *)

Section StatusViewMore.
Import ProcessingStatusComponent ProcessingStatusControls Props MoreProps.

(** A callback runs on the world of its owner and leaves the view alone. *)
Lemma callback_view {W} (h : option (Job.row -> Js.M W unit)) (d : Job.row)
    (c : t) (w : W) :
  (callback h d (c, w)).2.1 = c.
Proof.
  unfold callback, Js.zoom, Js.call_if_set. cbn.
  destruct h as [f|]; [destruct (f d w)|]; done.
Qed.

Lemma callback_cases {W} (h : option (Job.row -> Js.M W unit)) (d : Job.row)
    (c : t) (w : W) :
  exists r w', callback h d (c, w) = (r, (c, w')).
Proof.
  unfold callback, Js.zoom, Js.call_if_set. cbn.
  destruct h as [f|]; [destruct (f d w) as [r w']|]; by eexists _, _.
Qed.

Lemma stopTimer_fields (c : t) :
  statusInterval (stopTimer c) = None
  /\ intervals_started (stopTimer c) = intervals_started c
  /\ currentJob (stopTimer c) = currentJob c
  /\ cancel_button_display (stopTimer c) = cancel_button_display c
  /\ wrapper_display (stopTimer c) = wrapper_display c
  /\ job_status (stopTimer c) = job_status c
  /\ hide_timeouts (stopTimer c) = hide_timeouts c.
Proof. unfold stopTimer. by destruct (statusInterval c) eqn:H. Qed.

(** One callback of an update has run: it returned or it threw. *)
Ltac view_callback :=
  match goal with
  | |- context [callback ?h ?x (?y, ?z)] =>
      let w' := fresh "w" in
      let e := fresh "e" in
      destruct (callback_cases h x y z) as ([[]|e] & w' & ->)
  end.

(** What is left is to read the fields of the view. *)
Ltac view_done :=
  cbn [fst snd]; unfold stopTimer;
  cbn [statusInterval cancel_button_display currentJob intervals_started
       wrapper_display job_status progress_percentage hide_timeouts
       set_details set_progress set_banner set_cancel_button set_statusInterval
       add_hide_timeout];
  try match goal with |- context [match ?x with Some _ => _ | None => _ end] =>
        let H := fresh "H" in
        destruct x eqn:H;
        cbn [statusInterval cancel_button_display currentJob intervals_started
             wrapper_display job_status progress_percentage hide_timeouts
             set_details set_progress set_banner set_cancel_button
             set_statusInterval add_hide_timeout];
        rewrite ?H
      end;
  done.

(** The fields of the view that an update writes in every case, with
    callbacks of any kind, returned or thrown. *)
Lemma updateStatus_view {W} (options : Options W) (d : Job.row) (c : t) (w : W) :
  let c' := (updateStatus options d (c, w)).2.1 in
  statusInterval c' = (if terminal d then None else statusInterval c)
  /\ cancel_button_display c' = (if terminal d then "none" else cancel_button_display c)
  /\ currentJob c' = currentJob c
  /\ intervals_started c' = intervals_started c
  /\ wrapper_display c' = wrapper_display c
  /\ job_status c' = Js.or_string (Job.status d) "unknown"
  /\ progress_percentage c' = pretty (Js.or_zero_int (Job.progress d)) +:+ "%".
Proof.
  unfold updateStatus, terminal, Js.bind, on_self, Js.modify, Js.ret. cbn [fst snd].
  destruct (status_is d "pending") eqn:Hp.
  { rewrite !(status_is_exclusive d "pending") by done. cbn [orb].
    view_callback; view_done. }
  destruct (status_is d "processing") eqn:Hq.
  { rewrite !(status_is_exclusive d "processing") by done. cbn [orb].
    view_callback; view_done. }
  destruct (status_is d "completed") eqn:Hc.
  { cbn [orb]. view_callback; [|view_done].
    destruct (autoClose options); view_callback; view_done. }
  destruct (status_is d "failed" || status_is d "error") eqn:Hf.
  { cbn [orb].
    assert ((status_is d "failed" || status_is d "error" || status_is d "cancelled") = true)
      as -> by by rewrite Hf.
    view_callback; [|view_done]. view_callback; view_done. }
  apply orb_false_iff in Hf as [-> ->]. cbn [orb].
  destruct (status_is d "cancelled") eqn:Hx; view_callback; view_done.
Qed.

(** X4. An update that ends the job (completed, failed, error, cancelled)
    stops the ticker and hides the cancel button, also when a callback
    throws; any other update leaves both as they were. The tracked job is
    never replaced by an update. *)
Theorem terminal_update_stops_ticker {W} (options : Options W) (d : Job.row)
    (c : t) (w : W) :
  statusInterval (updateStatus options d (c, w)).2.1
    = (if terminal d then None else statusInterval c)
  /\ cancel_button_display (updateStatus options d (c, w)).2.1
     = (if terminal d then "none" else cancel_button_display c)
  /\ currentJob (updateStatus options d (c, w)).2.1 = currentJob c.
Proof.
  destruct (updateStatus_view options d c w) as (H1 & H2 & H3 & _). done.
Qed.

Lemma updateStatus_tracing (sd ac : bool) (delay : Z) (d : Job.row) (c : t)
    (log : list ViewCall) :
  exists c',
    updateStatus (tracing_options sd ac delay) d (c, log) =
      (Js.Returned tt,
       (c', ((log ++ (if completed d then [Completed d]
                      else if failed d then [Errored d] else []))
             ++ [Changed d])%list)).
Proof.
  unfold updateStatus, failed, Js.bind, on_self, callback, Js.modify, Js.zoom, Js.ret.
  cbn [fst snd tracing_options onComplete onStatusChange onError autoClose
       Js.call_if_set].
  rewrite <- status_is_completed.
  destruct (status_is d "pending") eqn:Hp.
  { rewrite !(status_is_exclusive d "pending") by done. cbn [orb].
    rewrite app_nil_r. eexists. reflexivity. }
  destruct (status_is d "processing") eqn:Hq.
  { rewrite !(status_is_exclusive d "processing") by done. cbn [orb].
    rewrite app_nil_r. eexists. reflexivity. }
  destruct (status_is d "completed") eqn:Hc.
  { destruct ac; eexists; reflexivity. }
  destruct (status_is d "failed" || status_is d "error") eqn:Hf.
  { eexists. reflexivity. }
  rewrite app_nil_r.
  destruct (status_is d "cancelled"); eexists; reflexivity.
Qed.

(** X5. Each update invokes the callbacks of the view in a fixed pattern:
    the completion callback when it carries [completed], the error callback
    when it carries [failed] or [error] (not when it carries [cancelled]),
    and then the status-change callback, for every update, whatever its
    status and whether or not the status changed. *)
Theorem callbacks_of_updates (showDetails autoClose : bool) (autoCloseDelay : Z)
    (view : t) (ds : list Job.row) :
  exists view',
    updates (tracing_options showDetails autoClose autoCloseDelay) ds (view, [])
    = (Js.Returned tt,
       (view',
        concat (map (fun d => ((if completed d then [Completed d]
                                else if failed d then [Errored d] else [])
                               ++ [Changed d])%list) ds))).
Proof.
  assert (forall c log, exists c',
            updates (tracing_options showDetails autoClose autoCloseDelay) ds (c, log)
            = (Js.Returned tt,
               (c', (log ++ concat (map (fun d => ((if completed d then [Completed d]
                                else if failed d then [Errored d] else [])
                               ++ [Changed d])%list) ds))%list))) as H.
  { induction ds as [|d ds IH]; intros c log.
    - exists c. cbn. by rewrite app_nil_r.
    - destruct (updateStatus_tracing showDetails autoClose autoCloseDelay d c log)
        as [c1 H1].
      destruct (IH c1 ((log ++ (if completed d then [Completed d]
                                else if failed d then [Errored d] else []))
                           ++ [Changed d])%list) as [c2 H2].
      exists c2. cbn [updates map concat]. unfold Js.bind at 1. rewrite H1, H2.
      by rewrite <- !app_assoc. }
  destruct (H view []) as [c' Hc']. exists c'. exact Hc'.
Qed.

(** X6. [startTracking] that returns has made the job the tracked one, shown
    the card and started a new ticker, whatever the status of the job: for a
    job that is already completed, failed or cancelled the ticker runs as
    well, with the cancel button hidden; for a pending or processing job the
    cancel button is shown. *)
Theorem startTracking_starts_ticker {W} (options : Options W) (jobData : Job.row)
    (c c' : t) (w w' : W) :
  startTracking options jobData (c, w) = (Js.Returned tt, (c', w')) ->
  currentJob c' = Some jobData
  /\ wrapper_display c' = "block"
  /\ statusInterval c' = Some (intervals_started c)
  /\ intervals_started c' = S (intervals_started c)
  /\ cancel_button_display c'
     = (if active jobData then "block"
        else if terminal jobData then "none" else cancel_button_display c).
Proof.
  unfold startTracking, active, Js.bind, on_self, Js.modify, Js.ret. cbn [fst snd].
  pose proof (updateStatus_view options jobData (show (set_currentJob (Some jobData) c)) w)
    as (H1 & H2 & H3 & H4 & H5 & _).
  destruct (updateStatus options jobData (show (set_currentJob (Some jobData) c), w))
    as [[[]|e] [c1 w1]]; [|discriminate].
  cbn [fst snd] in *.
  destruct (status_is jobData "pending" || status_is jobData "processing");
    intros [= <- <-]; cbn; rewrite ?H2, ?H3, ?H4, ?H5; done.
Qed.

Lemma startTracking_starts_ticker_witness :
  exists c',
    startTracking (recording_options true false 3000) (job_at "completed" 100) (new, [])
    = (Js.Returned tt, (c', [job_at "completed" 100]))
    /\ statusInterval c' = Some 0%nat
    /\ cancel_button_display c' = "none".
Proof.
  eexists. split; [reflexivity|].
  destruct (startTracking_starts_ticker (recording_options true false 3000)
              (job_at "completed" 100) new _ [] _ eq_refl) as (_ & _ & H3 & _ & H5).
  split; [exact H3|exact H5].
Defined.

(** The ticker text: below one minute the seconds alone, from one minute
    on the whole minutes and the seconds left over, which are fewer than
    sixty; for a negative number of seconds no minutes are shown, only the
    remainder. *)
Theorem formatElapsedTime_minutes_and_seconds (seconds : Z) :
  ((0 <= seconds < 60)%Z -> formatElapsedTime seconds = pretty seconds +:+ "s")
  /\ ((60 <= seconds)%Z ->
      exists mins secs : Z,
        (seconds = 60 * mins + secs /\ 1 <= mins /\ 0 <= secs < 60)%Z
        /\ formatElapsedTime seconds = pretty mins +:+ "m " +:+ pretty secs +:+ "s")
  /\ ((seconds < 0)%Z ->
      formatElapsedTime seconds = pretty (Z.rem seconds 60) +:+ "s").
Proof.
  unfold formatElapsedTime. split; [|split].
  - intros H. rewrite Z.div_small, Z.rem_small by lia. done.
  - intros H. exists (seconds / 60)%Z, (seconds mod 60)%Z.
    pose proof (Z.div_mod seconds 60 ltac:(lia)).
    pose proof (Z.mod_pos_bound seconds 60 ltac:(lia)).
    assert (1 <= seconds / 60)%Z by (apply Z.div_le_lower_bound; lia).
    split; [lia|].
    rewrite Z.rem_mod_nonneg by lia.
    by rewrite (proj2 (Z.ltb_lt 0 (seconds / 60)%Z)) by lia.
  - intros H.
    assert (seconds / 60 < 0)%Z by (apply Z.div_lt_upper_bound; lia).
    by rewrite (proj2 (Z.ltb_ge 0 (seconds / 60)%Z)) by lia.
Qed.


(** The details toggle alternates between two states: whatever the
    section showed, after one click a second click and a third give the
    hidden and the shown section in turn, and on the rendered card two clicks
    restore it. *)
Theorem toggleDetails_alternates (d : DetailsSection) :
  toggleDetails (toggleDetails (toggleDetails d)) = toggleDetails d
  /\ toggleDetails (toggleDetails rendered_details) = rendered_details
  /\ (details_display (toggleDetails d) = "block" <-> details_display d = "none").
Proof.
  unfold toggleDetails.
  destruct (String.eqb (details_display d) "none") eqn:H.
  - apply String.eqb_eq in H. by rewrite H.
  - apply String.eqb_neq in H. repeat split; done.
Qed.

(** [reset] and [hide] stop the ticker and hide the card; [reset] also
    forgets the tracked job. Neither touches the banner: a card shown again
    still displays the last status. *)
Theorem reset_forgets_job_keeps_banner (c : t) :
  getCurrentJob (reset c) = None
  /\ statusInterval (reset c) = None
  /\ wrapper_display (reset c) = "none"
  /\ statusInterval (hide c) = None
  /\ getCurrentJob (hide c) = getCurrentJob c
  /\ status_title (show (reset c)) = status_title c
  /\ job_status (show (reset c)) = job_status c.
Proof.
  destruct c as [? ticker ? ? ? ? ? ? ? ? ? ? ? ? ?]. by destruct ticker.
Qed.
End StatusViewMore.

(** * Further properties of the access layer *)

Section MarkerEngineMore.
Import MarkerEngineService Props MoreProps.

(** [uploadAndProcess] by the replies of the backend to its two requests. *)
Lemma uploadAndProcess_unfold (file : File.t) (options : list (string * bool)) (s : t) :
  uploadAndProcess file options s =
    let path := upload_path (Supabase.now (supabase s)) file in
    match Supabase.next_reply (supabase s) with
    | (Supabase.AnswersError e, db1) | (Supabase.Rejects e, db1) =>
        (Js.Thrown e, set_supabase db1 s)
    | (Supabase.Answers, db1) =>
        match Supabase.documents db1 !! path with
        | Some _ =>
            (Js.Thrown (Js.mkError "The resource already exists"), set_supabase db1 s)
        | None =>
            let db2 := Supabase.set_documents (<[path := file]> (Supabase.documents db1)) db1 in
            match Supabase.next_reply db2 with
            | (Supabase.AnswersError e, db3) | (Supabase.Rejects e, db3) =>
                (Js.Thrown e, set_supabase db3 s)
            | (Supabase.Answers, db3) =>
                let job :=
                  Job.mk (Js.Val (Supabase.uuid db3 (Supabase.next_uuid db3))) Js.Null
                    (Js.Val path) (Js.Val (File.name file)) (Js.Val (File.size file))
                    (Js.Val (Js.pop (Js.split_dot (File.name file))))
                    (Js.Val "pending") (Js.Val 0%Z) Js.Null Js.Null options Js.Null
                    (Js.Val (Supabase.now db1)) (Js.Val (Supabase.now db3)) Js.Null in
                (Js.Returned job,
                 set_processingQueue
                   (<[Job.id job := mkQueueEntry "pending" 0 (Supabase.now db3)]>
                      (processingQueue s))
                   (set_supabase
                      (Supabase.set_marker_jobs (Supabase.marker_jobs db3 ++ [job])
                         (Supabase.set_next_uuid (S (Supabase.next_uuid db3)) db3))
                      s))
            end
        end
    end.
Proof.
  unfold uploadAndProcess, upload_path, Js.try_catch, Js.bind, Date_now, Js.gets,
    await, Js.zoom, Supabase.storage_upload, Supabase.insert_marker_job, rethrow,
    Js.throw.
  destruct (Supabase.next_reply (supabase s)) as [reply1 db1] eqn:Hreply1.
  pose proof (next_reply_frame _ _ _ Hreply1) as (_ & _ & _ & _ & _ & _ & _ & _ & Hnow1).
  destruct reply1 as [|e|e].
  2: { by rewrite (request_error _ _ _ _ Hreply1). }
  2: { by rewrite (request_rejects _ _ _ _ Hreply1). }
  rewrite (request_answers _ _ _ Hreply1).
  destruct (Supabase.documents db1 !! _) eqn:Hdoc; cbn; [done|].
  match goal with |- context [Supabase.request ?f ?x] =>
    set (serve := f); set (db2 := x) end.
  destruct (Supabase.next_reply db2) as [reply2 db3] eqn:Hreply2.
  destruct reply2 as [|e|e].
  2: { by rewrite (request_error _ _ _ _ Hreply2). }
  2: { by rewrite (request_rejects _ _ _ _ Hreply2). }
  rewrite (request_answers _ _ _ Hreply2). subst serve. cbn.
  by rewrite Hnow1.
Qed.

(** When the storage upload fails, by an [error] answer or a rejected
    request, [uploadAndProcess] throws that error and nothing is stored: no
    blob, no job row, no queue entry. *)
Theorem uploadAndProcess_upload_failure (file : File.t) (options : list (string * bool))
    (s : t) (e : Js.JsError) (db : Supabase.t) :
  Supabase.next_reply (supabase s) = (Supabase.AnswersError e, db)
  \/ Supabase.next_reply (supabase s) = (Supabase.Rejects e, db) ->
  uploadAndProcess file options s = (Js.Thrown e, set_supabase db s)
  /\ Supabase.documents db = Supabase.documents (supabase s)
  /\ Supabase.marker_jobs db = Supabase.marker_jobs (supabase s)
  /\ processingQueue (uploadAndProcess file options s).2 = processingQueue s.
Proof.
  intros H. rewrite uploadAndProcess_unfold. cbn zeta.
  destruct H as [H|H]; rewrite H;
    pose proof (next_reply_frame _ _ _ H) as (Hd & Hj & _); done.
Qed.

Lemma uploadAndProcess_upload_failure_witness :
  uploadAndProcess report_pdf []
    (new (Supabase.set_script [Supabase.AnswersError (Js.mkError "quota exceeded")]
            (sample_backend [] [])))
  = (Js.Thrown (Js.mkError "quota exceeded"), new (sample_backend [] [])).
Proof.
  apply (uploadAndProcess_upload_failure report_pdf []
           (new (Supabase.set_script [Supabase.AnswersError (Js.mkError "quota exceeded")]
                   (sample_backend [] [])))
           (Js.mkError "quota exceeded") (sample_backend [] [])).
  left. reflexivity.
Defined.

(** X8. When the upload succeeds and the insertion of the job row fails,
    [uploadAndProcess] throws the error of the insertion; the uploaded blob
    stays in the bucket under its path, and neither a job row nor a queue
    entry exists for it. *)
Theorem uploadAndProcess_insert_failure_leaves_blob (file : File.t)
    (options : list (string * bool)) (s : t) (e : Js.JsError) (db1 db3 : Supabase.t) :
  let path := upload_path (Supabase.now (supabase s)) file in
  Supabase.next_reply (supabase s) = (Supabase.Answers, db1) ->
  Supabase.documents (supabase s) !! path = None ->
  Supabase.next_reply
      (Supabase.set_documents (<[path := file]> (Supabase.documents db1)) db1)
    = (Supabase.AnswersError e, db3)
  \/ Supabase.next_reply
       (Supabase.set_documents (<[path := file]> (Supabase.documents db1)) db1)
     = (Supabase.Rejects e, db3) ->
  uploadAndProcess file options s = (Js.Thrown e, set_supabase db3 s)
  /\ Supabase.documents db3 !! path = Some file
  /\ Supabase.marker_jobs db3 = Supabase.marker_jobs (supabase s)
  /\ processingQueue (uploadAndProcess file options s).2 = processingQueue s.
Proof.
  intros path H1 Hfree H3. rewrite uploadAndProcess_unfold. cbn zeta. fold path.
  pose proof (next_reply_frame _ _ _ H1) as (Hd1 & Hj1 & _).
  rewrite H1, Hd1, Hfree. rewrite <- Hd1.
  destruct H3 as [H3|H3]; rewrite H3;
    pose proof (next_reply_frame _ _ _ H3) as (Hd3 & Hj3 & _);
    rewrite Hd3, Hj3; cbn; rewrite lookup_insert_eq; done.
Qed.

Lemma uploadAndProcess_insert_failure_leaves_blob_witness :
  exists s',
    uploadAndProcess report_pdf []
      (new (Supabase.set_script
              [Supabase.Answers; Supabase.AnswersError (Js.mkError "row-level security")]
              (sample_backend [] [])))
    = (Js.Thrown (Js.mkError "row-level security"), s')
    /\ Supabase.documents (supabase s') !! "documents/1700000000000_report.pdf"
       = Some report_pdf
    /\ Supabase.marker_jobs (supabase s') = [].
Proof.
  destruct (uploadAndProcess_insert_failure_leaves_blob report_pdf []
              (new (Supabase.set_script
                      [Supabase.Answers;
                       Supabase.AnswersError (Js.mkError "row-level security")]
                      (sample_backend [] [])))
              (Js.mkError "row-level security") _ _ eq_refl eq_refl
              (or_introl eq_refl))
    as (Hrun & Hblob & Hjobs & _).
  eexists. split; [exact Hrun|]. split; [exact Hblob|exact Hjobs].
Defined.

(** X9. A job that [uploadAndProcess] returns points at its blob: the bucket
    holds the uploaded file under the job's [file_path], which is
    [documents/] followed by the time of the call, an underscore and the file
    name; the job records the file's name and size, the options, and as type
    the piece of the name after its last dot, in the case it is written. *)
Theorem uploadAndProcess_job_points_at_blob (file : File.t)
    (options : list (string * bool)) (s s' : t) (job : Job.row) :
  uploadAndProcess file options s = (Js.Returned job, s') ->
  Job.file_path job = Js.Val (upload_path (Supabase.now (supabase s)) file)
  /\ Supabase.documents (supabase s') !! upload_path (Supabase.now (supabase s)) file
     = Some file
  /\ Supabase.documents (supabase s) !! upload_path (Supabase.now (supabase s)) file
     = None
  /\ Job.file_type job = Js.Val (Js.pop (Js.split_dot (File.name file)))
  /\ Job.file_size job = Js.Val (File.size file)
  /\ Job.options job = options
  /\ Supabase.is_val (Job.id job) = true.
Proof.
  rewrite uploadAndProcess_unfold. cbn zeta.
  destruct (Supabase.next_reply (supabase s)) as [[|e|e] db1] eqn:H1; try discriminate.
  pose proof (next_reply_frame _ _ _ H1) as (Hd1 & _).
  destruct (Supabase.documents db1 !! _) eqn:Hdoc; [discriminate|].
  destruct (Supabase.next_reply (Supabase.set_documents _ db1)) as [[|e|e] db3] eqn:H3;
    try discriminate.
  pose proof (next_reply_frame _ _ _ H3) as (Hd3 & _).
  intros [= <- <-]. cbn. rewrite Hd3. cbn. rewrite lookup_insert_eq, <- Hd1. done.
Qed.

Lemma uploadAndProcess_job_points_at_blob_witness :
  exists job s',
    uploadAndProcess (File.mk "REPORT.PDF" 10 "application/pdf") []
      (new (sample_backend [] [])) = (Js.Returned job, s')
    /\ Job.file_path job = Js.Val "documents/1700000000000_REPORT.PDF"
    /\ Job.file_type job = Js.Val "PDF".
Proof.
  eexists. eexists. split; [vm_compute; reflexivity|].
  destruct (uploadAndProcess_job_points_at_blob (File.mk "REPORT.PDF" 10 "application/pdf")
              [] (new (sample_backend [] [])) _ _ eq_refl)
    as (Hpath & _ & _ & Htype & _).
  split; [exact Hpath|exact Htype].
Defined.

(** [createAnnotation] by the reply of the backend to its request. *)
Lemma createAnnotation_unfold (annotation : NewAnnotation) (s : t) :
  createAnnotation annotation s =
    match Supabase.next_reply (supabase s) with
    | (Supabase.AnswersError e, db) | (Supabase.Rejects e, db) =>
        (Js.Thrown e, set_supabase db s)
    | (Supabase.Answers, db) =>
        let row :=
          Annotation.mk (Supabase.uuid db (Supabase.next_uuid db))
            (Js.Val (jobId annotation)) (new_text annotation) (new_position annotation)
            (Supabase.default_to Js.Null (sentimentScore annotation))
            (Supabase.default_to Js.Null (new_emotion annotation))
            (new_metadata annotation) (Js.Val (Supabase.now (supabase s))) in
        (Js.Returned row,
         set_annotationCache (delete (jobId annotation) (annotationCache s))
           (set_supabase
              (Supabase.set_text_annotations (Supabase.text_annotations db ++ [row])
                 (Supabase.set_next_uuid (S (Supabase.next_uuid db)) db))
              s))
    end.
Proof.
  unfold createAnnotation, Js.try_catch, Js.bind, Date_now, Js.gets, await, Js.zoom,
    Supabase.insert_annotation, rethrow, Js.throw.
  destruct (Supabase.next_reply (supabase s)) as [[|e|e] db] eqn:Hreply.
  - by rewrite (request_answers _ _ _ Hreply).
  - by rewrite (request_error _ _ _ _ Hreply).
  - by rewrite (request_rejects _ _ _ _ Hreply).
Qed.

(** X10. An annotation created through the service invalidates the cache of
    its job and of no other job: the next [getAnnotations] for the job that
    the backend answers reads the table again, and the list it returns holds
    the created row. *)
Theorem createAnnotation_then_getAnnotations (annotation : NewAnnotation) (s s1 : t)
    (row : Annotation.row) :
  createAnnotation annotation s = (Js.Returned row, s1) ->
  annotationCache s1 !! jobId annotation = None
  /\ (forall other, other <> jobId annotation ->
        annotationCache s1 !! other = annotationCache s !! other)
  /\ (forall db, Supabase.next_reply (supabase s1) = (Supabase.Answers, db) ->
        exists rows s2,
          getAnnotations (jobId annotation) s1 = (Js.Returned rows, s2)
          /\ row ∈ rows
          /\ annotationCache s2 !! jobId annotation = Some rows).
Proof.
  rewrite createAnnotation_unfold.
  destruct (Supabase.next_reply (supabase s)) as [[|e|e] db0] eqn:Hreply;
    try discriminate.
  cbn zeta. intros [= <- <-]. cbn [annotationCache set_annotationCache].
  split; [apply lookup_delete_eq|].
  split; [intros other Hne; by apply lookup_delete_ne|].
  intros db Hdb.
  rewrite (getAnnotations_fetched _ _ db) by (try apply lookup_delete_eq; done).
  eexists _, _. split; [reflexivity|]. split; [|cbn; apply lookup_insert_eq].
  unfold fetched. rewrite merge_sort_Permutation.
  apply list_elem_of_filter. split; [done|].
  cbn. apply elem_of_app. right. by left.
Qed.

Lemma createAnnotation_then_getAnnotations_witness :
  exists row s1 rows s2,
    createAnnotation (mkNewAnnotation "job-1" "fine" 7 Js.Undefined Js.Undefined [])
      (mk (sample_backend [] [world_at_5])
          ∅ {["job-1" := [world_at_5]]})
    = (Js.Returned row, s1)
    /\ getAnnotations "job-1" s1 = (Js.Returned rows, s2)
    /\ rows = [world_at_5; row].
Proof.
  eexists. eexists. eexists. eexists.
  split; [vm_compute; reflexivity|].
  destruct (createAnnotation_then_getAnnotations
              (mkNewAnnotation "job-1" "fine" 7 Js.Undefined Js.Undefined [])
              (mk (sample_backend [] [world_at_5]) ∅ {["job-1" := [world_at_5]]})
              _ _ eq_refl) as (_ & _ & _).
  split; vm_compute; reflexivity.
Defined.

(** When the insertion fails, [createAnnotation] throws the error and
    leaves the cache and the table as they were: a cached list is served on. *)
Theorem createAnnotation_failure_keeps_cache (annotation : NewAnnotation) (s : t)
    (e : Js.JsError) (db : Supabase.t) :
  Supabase.next_reply (supabase s) = (Supabase.AnswersError e, db)
  \/ Supabase.next_reply (supabase s) = (Supabase.Rejects e, db) ->
  createAnnotation annotation s = (Js.Thrown e, set_supabase db s)
  /\ Supabase.text_annotations db = Supabase.text_annotations (supabase s)
  /\ (forall cached, annotationCache s !! jobId annotation = Some cached ->
        getAnnotations (jobId annotation) (createAnnotation annotation s).2
        = (Js.Returned cached, (createAnnotation annotation s).2)).
Proof.
  intros H. rewrite createAnnotation_unfold.
  destruct H as [H|H]; rewrite H;
    pose proof (next_reply_frame _ _ _ H) as (_ & _ & Ha & _);
    (split; [done|]); (split; [done|]);
    intros cached Hc; by apply getAnnotations_cached.
Qed.

Lemma createAnnotation_failure_keeps_cache_witness :
  createAnnotation (mkNewAnnotation "job-1" "fine" 7 Js.Undefined Js.Undefined [])
    (mk (Supabase.set_script [Supabase.Rejects (Js.mkError "offline")]
           (sample_backend [] [world_at_5]))
        ∅ {["job-1" := [world_at_5]]})
  = (Js.Thrown (Js.mkError "offline"),
     mk (sample_backend [] [world_at_5]) ∅ {["job-1" := [world_at_5]]}).
Proof.
  destruct (createAnnotation_failure_keeps_cache
              (mkNewAnnotation "job-1" "fine" 7 Js.Undefined Js.Undefined [])
              (mk (Supabase.set_script [Supabase.Rejects (Js.mkError "offline")]
                     (sample_backend [] [world_at_5]))
                  ∅ {["job-1" := [world_at_5]]})
              (Js.mkError "offline") (sample_backend [] [world_at_5])
              (or_intror eq_refl)) as [H _].
  exact H.
Defined.

(** After [clearCache] every job misses the cache: a [getAnnotations]
    that the backend answers returns the rows the table holds now, also for a
    job whose cached list was out of date. [clearCache] touches neither the
    queue nor the backend. *)
Theorem clearCache_then_getAnnotations (jobId : string) (s : t) (db : Supabase.t) :
  Supabase.next_reply (supabase s) = (Supabase.Answers, db) ->
  (clearCache s).1 = Js.Returned tt
  /\ processingQueue (clearCache s).2 = processingQueue s
  /\ supabase (clearCache s).2 = supabase s
  /\ getAnnotations jobId (clearCache s).2
     = (Js.Returned (fetched jobId s),
        mk db (processingQueue s) {[jobId := fetched jobId s]}).
Proof.
  intros H. unfold clearCache, Js.modify. cbn [fst snd].
  repeat split.
  rewrite (getAnnotations_fetched _ _ db) by done.
  unfold fetched. cbn. by rewrite insert_empty.
Qed.

Lemma clearCache_then_getAnnotations_witness :
  getAnnotations "job-1"
    (clearCache (mk (sample_backend [] [world_at_5; hello_at_2]) ∅
                    {["job-1" := [world_at_5]]})).2
  = (Js.Returned [hello_at_2; world_at_5],
     mk (sample_backend [] [world_at_5; hello_at_2]) ∅
        {["job-1" := [hello_at_2; world_at_5]]}).
Proof.
  destruct (clearCache_then_getAnnotations "job-1"
              (mk (sample_backend [] [world_at_5; hello_at_2]) ∅
                  {["job-1" := [world_at_5]]})
              (sample_backend [] [world_at_5; hello_at_2]) eq_refl)
    as (_ & _ & _ & H).
  rewrite H. reflexivity.
Defined.

(** [getJobStatus] reads and changes nothing local: when it returns, the
    row is a row of the table with the asked identifier; when no row of the
    table has the identifier it throws, and so it does when the backend
    fails. The queue and the cache stay as they were either way. *)
Theorem getJobStatus_returns_the_job (jobId : string) (s : t) :
  processingQueue (getJobStatus jobId s).2 = processingQueue s
  /\ annotationCache (getJobStatus jobId s).2 = annotationCache s
  /\ Supabase.marker_jobs (supabase (getJobStatus jobId s).2)
     = Supabase.marker_jobs (supabase s)
  /\ (forall row, (getJobStatus jobId s).1 = Js.Returned row ->
        Job.id row = Js.Val jobId /\ row ∈ Supabase.marker_jobs (supabase s))
  /\ (Forall (fun r => Job.id r <> Js.Val jobId) (Supabase.marker_jobs (supabase s)) ->
      exists e, (getJobStatus jobId s).1 = Js.Thrown e).
Proof.
  unfold getJobStatus, Js.try_catch, Js.bind, await, Js.zoom, Supabase.select_job_single.
  destruct (Supabase.next_reply (supabase s)) as [reply db] eqn:Hreply.
  pose proof (next_reply_frame _ _ _ Hreply) as (_ & Hj & _).
  assert (forall r l,
            filter (fun r => Job.id r = Js.Val jobId) (Supabase.marker_jobs (supabase s))
            = r :: l ->
            Job.id r = Js.Val jobId /\ r ∈ Supabase.marker_jobs (supabase s)) as Hhead.
  { intros r l Hf. apply (list_elem_of_filter (fun r => Job.id r = Js.Val jobId)).
    rewrite Hf. left. }
  destruct reply as [|e|e].
  - rewrite (request_answers _ _ _ Hreply). rewrite Hj.
    destruct (filter _ (Supabase.marker_jobs (supabase s))) as [|r [|r' l]] eqn:Hf;
      cbn; rewrite ?Hj.
    + split_and!; try done. intros _. by eexists.
    + split_and!; try done.
      * intros ? [= <-]. by eapply Hhead.
      * intros Hall. exfalso. destruct (Hhead r [] eq_refl) as [Hid Hin].
        rewrite Forall_forall in Hall. by apply (Hall r).
    + split_and!; try done. intros _. by eexists.
  - rewrite (request_error _ _ _ _ Hreply). cbn. rewrite Hj.
    split_and!; try done. intros _. by eexists.
  - rewrite (request_rejects _ _ _ _ Hreply). cbn. rewrite Hj.
    split_and!; try done. intros _. by eexists.
Qed.
End MarkerEngineMore.

(** * Further properties of the change-subscription layer *)

Section SubscriptionsMore.
Import RealtimeAnnotationsService RealtimeCleanup Props MoreProps.
Context {W : Type}.
Implicit Types (s : t W) (jobId : string).

(** Leaving a job twice is leaving it once: after an
    [unsubscribeFromJob] that returned, a second one for the same job returns
    at once, sends no request and changes nothing. *)
Theorem unsubscribeFromJob_twice jobId s (s' : t W) :
  unsubscribeFromJob jobId s = (Js.Returned tt, s') ->
  unsubscribeFromJob jobId s' = (Js.Returned tt, s')
  /\ isSubscribedToJob jobId s' = false.
Proof.
  rewrite unsubscribeFromJob_unfold.
  assert (forall s0 : t W, subscriptions s0 !! jobId = None ->
            unsubscribeFromJob jobId s0 = (Js.Returned tt, s0)
            /\ isSubscribedToJob jobId s0 = false) as Hfree.
  { intros s0 H0. rewrite unsubscribeFromJob_unfold, H0. split; [done|].
    unfold isSubscribedToJob. rewrite H0. apply bool_decide_eq_false. by intros [? ?]. }
  destruct (subscriptions s !! jobId) as [c|] eqn:Hc.
  - destruct (Supabase.next_reply (supabase s)) as [[|e|e] db]; intros [= <-];
      apply Hfree; cbn; apply lookup_delete_eq.
  - intros [= <-]. by apply Hfree.
Qed.

(** X11. A re-subscription whose removal of the prior channel is rejected
    throws that rejection and installs nothing: the table, the handlers and
    the live channels are as before, and the job stays subscribed through the
    prior channel. *)
Theorem subscribeToJob_rejected_keeps_prior jobId (handlers : Handlers W) s
    (prior : Supabase.Channel) (e : Js.JsError) (db : Supabase.t) :
  subscriptions s !! jobId = Some prior ->
  Supabase.next_reply (supabase s) = (Supabase.Rejects e, db) ->
  subscribeToJob jobId handlers s = (Js.Thrown e, set_supabase db s)
  /\ subscriptions (subscribeToJob jobId handlers s).2 !! jobId = Some prior
  /\ eventHandlers (subscribeToJob jobId handlers s).2 = eventHandlers s
  /\ Supabase.channels (supabase (subscribeToJob jobId handlers s).2)
     = Supabase.channels (supabase s)
  /\ Supabase.removed_channels (supabase (subscribeToJob jobId handlers s).2)
     = Supabase.removed_channels (supabase s).
Proof.
  intros Hprior Hreply.
  pose proof (next_reply_frame _ _ _ Hreply) as (_ & _ & _ & Hch & Hrem & _).
  rewrite subscribeToJob_unfold, bool_decide_eq_true_2 by by rewrite Hprior.
  rewrite unsubscribeFromJob_unfold, Hprior, Hreply. done.
Qed.

(** A [subscribeToJob] that returns leaves the job subscribed with the
    handlers it was given and the other entries of the table untouched; the
    number of subscriptions grows by one for a job that was not subscribed
    and stays for a job that was. *)
Theorem subscribeToJob_counts jobId (handlers : Handlers W) s (s' : t W)
    (c : Supabase.Channel) :
  subscribeToJob jobId handlers s = (Js.Returned c, s') ->
  subscriptions s' !! jobId = Some c
  /\ isSubscribedToJob jobId s' = true
  /\ Supabase.topic c = "job-" +:+ jobId
  /\ (forall other, other <> jobId ->
        subscriptions s' !! other = subscriptions s !! other)
  /\ getActiveSubscriptionsCount s'
     = (if isSubscribedToJob jobId s
        then getActiveSubscriptionsCount s
        else S (getActiveSubscriptionsCount s)).
Proof.
  rewrite subscribeToJob_unfold. unfold isSubscribedToJob, getActiveSubscriptionsCount.
  destruct (subscriptions s !! jobId) as [prior|] eqn:Hprior.
  - rewrite bool_decide_eq_true_2 by by eexists.
    rewrite unsubscribeFromJob_unfold, Hprior.
    destruct (Supabase.next_reply (supabase s)) as [[|e|e] db]; try discriminate;
      cbn zeta; intros [= <- <-]; cbn;
      (split; [apply lookup_insert_eq|]);
      (split; [apply bool_decide_eq_true_2; rewrite lookup_insert_eq; by eexists|]);
      (split; [done|]);
      (split; [intros other Hne; by rewrite lookup_insert_ne, lookup_delete_ne|]);
      rewrite insert_delete_eq; by rewrite map_size_insert_Some by by eexists.
  - rewrite bool_decide_eq_false_2 by by intros [? ?].
    cbn zeta. intros [= <- <-]. cbn.
    split; [apply lookup_insert_eq|].
    split; [apply bool_decide_eq_true_2; rewrite lookup_insert_eq; by eexists|].
    split; [done|].
    split; [intros other Hne; by rewrite lookup_insert_ne|].
    by rewrite map_size_insert_None.
Qed.

(** A subscription status sets the connection flag of the service to
    whether the status is [SUBSCRIBED], whichever job's channel reports it,
    and touches nothing else: after a status that reports a dropped channel
    the job still counts as subscribed. *)
Theorem on_subscription_status_keeps_table (handlers : Handlers W) (status : string)
    s (w : W) :
  getConnectionStatus (on_subscription_status handlers status (s, w)).2.1
    = String.eqb status "SUBSCRIBED"
  /\ subscriptions (on_subscription_status handlers status (s, w)).2.1 = subscriptions s
  /\ eventHandlers (on_subscription_status handlers status (s, w)).2.1 = eventHandlers s
  /\ supabase (on_subscription_status handlers status (s, w)).2.1 = supabase s
  /\ (forall jobId,
        isSubscribedToJob jobId (on_subscription_status handlers status (s, w)).2.1
        = isSubscribedToJob jobId s)
  /\ (forall f, onConnectionChange handlers = Some f ->
        (on_subscription_status handlers status (s, w)).1
          = (f (String.eqb status "SUBSCRIBED") w).1
        /\ (on_subscription_status handlers status (s, w)).2.2
          = (f (String.eqb status "SUBSCRIBED") w).2).
Proof.
  unfold on_subscription_status, getConnectionStatus, isSubscribedToJob, Js.bind,
    Js.modify, Js.gets, Js.zoom, Js.call_if_set. cbn [fst snd isConnected set_isConnected].
  destruct (onConnectionChange handlers) as [g|].
  - destruct (g (String.eqb status "SUBSCRIBED") w) as [r w'] eqn:Hg.
    split_and!; try done. intros f [= <-]. by rewrite Hg.
  - split_and!; done.
Qed.

Lemma never_rejects_next_reply (db db' : Supabase.t) (reply : Supabase.Reply) :
  never_rejects db -> Supabase.next_reply db = (reply, db') ->
  never_rejects db' /\ forall e, reply <> Supabase.Rejects e.
Proof.
  unfold never_rejects, Supabase.next_reply.
  destruct (Supabase.script db) as [|r rest] eqn:Hs; intros Hn [= <- <-].
  - rewrite Hs. split; [done|]. intros e. discriminate.
  - apply Forall_cons in Hn as [Hr Hrest]. split; [done|].
    intros e ->. done.
Qed.

(** Leaving the jobs of [keys] one after the other, when no request is
    rejected. *)
Lemma unsubscribe_each (keys : list string) s :
  never_rejects (supabase s) ->
  tracked (supabase s) (subscriptions s) ->
  exists s' : t W,
    foldl (fun acc jobId =>
             let (r, s1) := acc : Js.outcome unit * t W in
             let (r', s2) := unsubscribeFromJob jobId s1 in
             (match r with
              | Js.Thrown e => Js.Thrown e
              | Js.Returned _ => r'
              end, s2))
          (Js.Returned tt, s) keys
    = (Js.Returned tt, s')
    /\ never_rejects (supabase s')
    /\ tracked (supabase s') (subscriptions s')
    /\ forall k, subscriptions s' !! k
                 = if decide (k ∈ keys) then None else subscriptions s !! k.
Proof.
  revert s. induction keys as [|key keys IH]; intros s Hn Ht.
  { exists s. split_and!; done. }
  cbn [foldl].
  pose proof (unsubscribeFromJob_tracked key s Ht) as [Ht1 _].
  rewrite unsubscribeFromJob_unfold in Ht1 |- *.
  destruct (subscriptions s !! key) as [c|] eqn:Hc.
  - destruct (Supabase.next_reply (supabase s)) as [reply db] eqn:Hreply.
    destruct (never_rejects_next_reply _ _ _ Hn Hreply) as [Hn' Hne].
    assert (exists s1, (match reply with
                        | Supabase.Rejects e => (Js.Thrown e, set_supabase db s)
                        | _ => (Js.Returned tt, unsubscribed key c db s)
                        end) = (Js.Returned tt, s1)
                       /\ s1 = unsubscribed key c db s) as (s1 & Hs1 & Heq).
    { destruct reply as [| |e]; [by eexists|by eexists|by destruct (Hne e)]. }
    rewrite Hs1 in Ht1 |- *. cbn [snd] in Ht1.
    destruct (IH s1) as (s' & Hrun & Hn2 & Ht2 & Hlook); [by subst s1|done|].
    exists s'. split_and!; try done.
    intros k. rewrite Hlook. subst s1. cbn [subscriptions unsubscribed set_eventHandlers
                                          set_subscriptions].
    destruct (decide (k = key)) as [->|Hk].
    + rewrite lookup_delete_eq. rewrite (decide_True (P := key ∈ key :: keys)) by left.
      by case_decide.
    + rewrite lookup_delete_ne by done.
      destruct (decide (k ∈ keys)) as [Hin|Hnotin].
      * by rewrite decide_True by by right.
      * rewrite decide_False; [done|]. by intros [?|?]%elem_of_cons.
  - destruct (IH s) as (s' & Hrun & Hn2 & Ht2 & Hlook); [done|done|].
    exists s'. split_and!; try done.
    intros k. rewrite Hlook.
    destruct (decide (k = key)) as [->|Hk].
    + rewrite (decide_True (P := key ∈ key :: keys)) by left.
      by case_decide.
    + destruct (decide (k ∈ keys)) as [Hin|Hnotin].
      * by rewrite decide_True by by right.
      * rewrite decide_False; [done|]. by intros [?|?]%elem_of_cons.
Qed.

(** [unsubscribeAll] when every removal is answered. *)
Lemma unsubscribeAll_answered (keys : list string) s :
  keys ≡ₚ (map_to_list (subscriptions s)).*1 ->
  never_rejects (supabase s) ->
  tracked (supabase s) (subscriptions s) ->
  exists s' : t W,
    unsubscribeAll keys s = (Js.Returned tt, s')
    /\ subscriptions s' = ∅
    /\ getActiveSubscriptionsCount s' = 0%nat
    /\ Supabase.channels (supabase s') = []
    /\ forall jobId, isSubscribedToJob jobId s' = false.
Proof.
  intros Hkeys Hn Ht.
  destruct (unsubscribe_each keys s Hn Ht) as (s' & Hrun & _ & Ht' & Hlook).
  exists s'. unfold unsubscribeAll, Js.try_catch. rewrite Hrun.
  assert (subscriptions s' = ∅) as Hempty.
  { apply map_eq. intros k. rewrite Hlook, lookup_empty.
    case_decide as Hin; [done|].
    destruct (subscriptions s !! k) as [c|] eqn:Hc; [|done].
    exfalso. apply Hin. rewrite Hkeys.
    apply list_elem_of_fmap. exists (k, c). split; [done|].
    by apply elem_of_map_to_list. }
  split_and!; try done.
  - unfold getActiveSubscriptionsCount. by rewrite Hempty, map_size_empty.
  - destruct Ht' as (_ & _ & Hlive & _).
    destruct (Supabase.channels (supabase s')) as [|c l] eqn:Hch; [done|].
    exfalso. destruct (proj1 (Hlive c)) as [k Hk]; [left|].
    by rewrite Hempty, lookup_empty in Hk.
  - intros jobId. unfold isSubscribedToJob. rewrite Hempty, lookup_empty.
    apply bool_decide_eq_false. by intros [? ?].
Qed.

(** X12. [unsubscribeAll], when no request is rejected, returns with an empty
    subscription table and no live channel left on the client, in whatever
    order the table hands out its keys. *)
Theorem unsubscribeAll_leaves_nothing (keys : list string) s :
  keys ≡ₚ (map_to_list (subscriptions s)).*1 ->
  never_rejects (supabase s) ->
  tracked (supabase s) (subscriptions s) ->
  exists s' : t W,
    unsubscribeAll keys s = (Js.Returned tt, s')
    /\ subscriptions s' = ∅
    /\ getActiveSubscriptionsCount s' = 0%nat
    /\ Supabase.channels (supabase s') = []
    /\ forall jobId, isSubscribedToJob jobId s' = false.
Proof. apply unsubscribeAll_answered. Qed.

End SubscriptionsMore.

Section SubscriptionsMoreWitnesses.
Import RealtimeAnnotationsService RealtimeCleanup Props MoreProps.

Lemma unsubscribeFromJob_twice_witness :
  exists s',
    unsubscribeFromJob "job-1"
      (calls [CallSubscribeToJob "job-1" (no_handlers (W := unit))]
             (create (sample_backend [] [])))
    = (Js.Returned tt, s')
    /\ unsubscribeFromJob "job-1" s' = (Js.Returned tt, s').
Proof.
  eexists. split; [reflexivity|].
  apply (unsubscribeFromJob_twice "job-1"
           (calls [CallSubscribeToJob "job-1" (no_handlers (W := unit))]
                  (create (sample_backend [] [])))).
  reflexivity.
Defined.

Lemma subscribeToJob_rejected_keeps_prior_witness :
  isSubscribedToJob "job-1"
    (subscribeToJob "job-1" (no_handlers (W := unit))
       (set_supabase
          (Supabase.set_script [Supabase.Rejects (Js.mkError "offline")]
             (supabase (calls [CallSubscribeToJob "job-1" (no_handlers (W := unit))]
                              (create (sample_backend [] [])))))
          (calls [CallSubscribeToJob "job-1" (no_handlers (W := unit))]
                 (create (sample_backend [] []))))).2
  = true.
Proof.
  destruct (subscribeToJob_rejected_keeps_prior "job-1" (no_handlers (W := unit))
              (set_supabase
                 (Supabase.set_script [Supabase.Rejects (Js.mkError "offline")]
                    (supabase (calls [CallSubscribeToJob "job-1" (no_handlers (W := unit))]
                                     (create (sample_backend [] [])))))
                 (calls [CallSubscribeToJob "job-1" (no_handlers (W := unit))]
                        (create (sample_backend [] []))))
              _ (Js.mkError "offline") _ eq_refl eq_refl) as (_ & H & _).
  unfold isSubscribedToJob. rewrite H. reflexivity.
Defined.

Lemma subscribeToJob_counts_witness :
  exists c s',
    subscribeToJob "job-2" (no_handlers (W := unit))
      (calls [CallSubscribeToJob "job-1" no_handlers] (create (sample_backend [] [])))
    = (Js.Returned c, s')
    /\ getActiveSubscriptionsCount s' = 2%nat.
Proof.
  eexists. eexists. split; [reflexivity|].
  destruct (subscribeToJob_counts "job-2" (no_handlers (W := unit))
              (calls [CallSubscribeToJob "job-1" no_handlers]
                     (create (sample_backend [] []))) _ _ eq_refl)
    as (_ & _ & _ & _ & H).
  rewrite H. vm_compute. reflexivity.
Defined.

Lemma unsubscribeAll_leaves_nothing_witness :
  exists s',
    unsubscribeAll ["job-1"; "job-2"]
      (calls [CallSubscribeToJob "job-1" (no_handlers (W := unit));
              CallSubscribeToJob "job-2" no_handlers]
             (create (sample_backend [] [])))
    = (Js.Returned tt, s')
    /\ getActiveSubscriptionsCount s' = 0%nat.
Proof.
  destruct (unsubscribeAll_leaves_nothing ["job-1"; "job-2"]
              (calls [CallSubscribeToJob "job-1" (no_handlers (W := unit));
                      CallSubscribeToJob "job-2" no_handlers]
                     (create (sample_backend [] []))))
    as (s' & Hrun & _ & Hcount & _).
  - apply (bool_decide_unpack _). vm_compute. reflexivity.
  - constructor.
  - apply calls_tracked, create_tracked. reflexivity.
  - exists s'. split; [exact Hrun|exact Hcount].
Defined.
End SubscriptionsMoreWitnesses.

(** * Further properties of the orchestrator's handlers *)

Section AppHandlersMore.
Import MarkerIntegrationApp Props MoreProps.

(** An inserted annotation that the change feed delivers to the
    orchestrator's handlers reaches the viewer once: it is appended to the
    viewer's list, also when the list already holds it, one notification is
    shown, and the generic annotation handler adds nothing for an insert. *)
Theorem annotation_insert_adds_once (jobId : string)
    (payload : RealtimeAnnotationsService.AnnotationPayload) (app : t) :
  exists app',
    RealtimeAnnotationsService.handleAnnotationInsert jobId payload job_handlers app
    = (Js.Returned tt, app')
    /\ AnnotationsViewerComponent.annotations (annotationsViewer app')
       = (AnnotationsViewerComponent.annotations (annotationsViewer app)
          ++ [RealtimeAnnotationsService.new_annotation payload])%list
    /\ notifications app'
       = (notifications app ++ [("Neue Annotation hinzugefügt", "info")])%list
    /\ statusComponent app' = statusComponent app
    /\ started app' = started app.
Proof.
  exists (mk (statusComponent app)
             (AnnotationsViewerComponent.addAnnotation
                (RealtimeAnnotationsService.new_annotation payload) (annotationsViewer app))
             (notifications app ++ [("Neue Annotation hinzugefügt", "info")])
             (started app)).
  split; [reflexivity|]. cbn [annotationsViewer notifications statusComponent started].
  split; [|done].
  unfold AnnotationsViewerComponent.addAnnotation.
  by rewrite annotations_renderAnnotations.
Qed.

(** A modified annotation that the change feed delivers is merged, in
    the viewer, into the first annotation with its identifier; one that the
    viewer does not hold changes nothing. No notification is shown either way, and
    the handlers never throw. *)
Theorem annotation_update_merges_in_viewer (jobId : string)
    (payload : RealtimeAnnotationsService.AnnotationPayload) (app : t) :
  let updated := RealtimeAnnotationsService.new_annotation payload in
  exists app',
    RealtimeAnnotationsService.handleAnnotationUpdate jobId payload job_handlers app
    = (Js.Returned tt, app')
    /\ annotationsViewer app'
       = AnnotationsViewerComponent.updateAnnotation (Annotation.id updated) updated
           (annotationsViewer app)
    /\ (Forall (fun a => Annotation.id a <> Annotation.id updated)
               (AnnotationsViewerComponent.annotations (annotationsViewer app)) ->
        app' = app)
    /\ notifications app' = notifications app
    /\ statusComponent app' = statusComponent app
    /\ started app' = started app.
Proof.
  intros updated.
  exists (set_annotationsViewer
            (AnnotationsViewerComponent.updateAnnotation (Annotation.id updated) updated
               (annotationsViewer app)) app).
  split; [reflexivity|].
  cbn [annotationsViewer notifications statusComponent started set_annotationsViewer].
  split; [done|]. split; [|done].
  intros Hunknown. unfold AnnotationsViewerComponent.updateAnnotation.
  rewrite (proj2 (list_find_None _ _) Hunknown). by destruct app.
Qed.
End AppHandlersMore.

(** * Properties of the upload view *)

Section UploadViewProps.
Import DocumentUploadComponent Props MoreProps.

Lemma split_dot_aux_not_nil (cur s : string) : Js.split_dot_aux cur s <> [].
Proof.
  revert cur. induction s as [|c s IH]; intros cur; cbn; [done|].
  destruct (Ascii.eqb c "."); [done|apply IH].
Qed.

Lemma last_cons_not_nil (x : string) (l : list string) :
  l <> [] -> List.last (x :: l) EmptyString = List.last l EmptyString.
Proof. by destruct l. Qed.

Lemma append_empty (s : string) : s +:+ EmptyString = s.
Proof. induction s as [|c s IH]; [done|]. change (String c (s +:+ EmptyString) = String c s). by f_equal. Qed.

Lemma append_one (cur : string) (c : ascii) (s : string) :
  (cur +:+ String c EmptyString) +:+ s = cur +:+ String c s.
Proof.
  induction cur as [|d cur IH]; [done|].
  change (String d ((cur +:+ String c EmptyString) +:+ s) = String d (cur +:+ String c s)).
  by f_equal.
Qed.

Lemma split_dot_aux_dotless (cur s : string) :
  dotless s = true -> Js.split_dot_aux cur s = [cur +:+ s].
Proof.
  revert cur. induction s as [|c s IH]; intros cur H; cbn in *.
  - by rewrite append_empty.
  - apply andb_true_iff in H as [Hc Hs]. apply negb_true_iff in Hc. rewrite Hc.
    rewrite IH by done. by rewrite append_one.
Qed.

Lemma pop_split_dot_aux (cur base ext : string) :
  dotless ext = true ->
  Js.pop (Js.split_dot_aux cur (base +:+ "." +:+ ext)) = ext.
Proof.
  intros Hext. unfold Js.pop. revert cur.
  induction base as [|c base IH]; intros cur.
  - change (Js.split_dot_aux cur ("" +:+ "." +:+ ext))
      with (cur :: Js.split_dot_aux EmptyString ext).
    rewrite last_cons_not_nil by apply split_dot_aux_not_nil.
    by rewrite split_dot_aux_dotless.
  - change (Js.split_dot_aux cur (String c base +:+ "." +:+ ext))
      with (if Ascii.eqb c "."
            then cur :: Js.split_dot_aux EmptyString (base +:+ "." +:+ ext)
            else Js.split_dot_aux (cur +:+ String c EmptyString) (base +:+ "." +:+ ext)).
    destruct (Ascii.eqb c "."); [|apply IH].
    rewrite last_cons_not_nil by apply split_dot_aux_not_nil. apply IH.
Qed.

(** X13. The extension that the upload view validates, and that the access
    layer records as file type, is what follows the last dot of the file
    name; a name without a dot is its own extension. *)
Theorem extension_follows_last_dot (base ext : string) :
  dotless ext = true ->
  Js.pop (Js.split_dot (base +:+ "." +:+ ext)) = ext
  /\ Js.pop (Js.split_dot ext) = ext.
Proof.
  intros H. split; [by apply pop_split_dot_aux|].
  unfold Js.split_dot. by rewrite split_dot_aux_dotless.
Qed.

Lemma extension_follows_last_dot_witness :
  Js.pop (Js.split_dot "annual.report.PDF") = "PDF"
  /\ Js.pop (Js.split_dot "README") = "README".
Proof.
  split.
  - apply (extension_follows_last_dot "annual.report" "PDF"). reflexivity.
  - apply (extension_follows_last_dot "" "README"). reflexivity.
Defined.

(** [validateFile] by its two checks. *)
Lemma validateFile_unfold (file : File.t) (c : t) :
  let fileExt := Js.toLowerCase (Js.pop (Js.split_dot (File.name file))) in
  validateFile file c =
    if bool_decide (fileExt ∈ allowedTypes c)
    then if (File.size file <=? maxFileSize c)%Z
         then (Js.Returned true, c)
         else (Js.Returned false, notify (TooLarge (File.name file) (maxFileSize c)) c)
    else (Js.Returned false, notify (UnsupportedType fileExt) c).
Proof.
  unfold validateFile, Js.bind, Js.get, Js.modify, Js.ret. cbn zeta.
  destruct (bool_decide _); cbn [negb]; [|done].
  rewrite Z.leb_antisym. by destruct (_ <? _)%Z.
Qed.

(** X14. [validateFile] accepts a file exactly when the lower-cased
    extension is in the allow-list and the size does not exceed the ceiling.
    It never throws and never touches the selection; an accepted file adds no
    notification, a rejected one exactly one, about the extension when that is
    not allowed, whatever the size, and about the size otherwise. *)
Theorem validateFile_verdict (file : File.t) (c : t) :
  let fileExt := Js.toLowerCase (Js.pop (Js.split_dot (File.name file))) in
  exists c',
    validateFile file c
    = (Js.Returned (bool_decide (fileExt ∈ allowedTypes c)
                    && (File.size file <=? maxFileSize c)%Z), c')
    /\ selectedFiles c' = selectedFiles c
    /\ allowedTypes c' = allowedTypes c
    /\ maxFileSize c' = maxFileSize c
    /\ multiple c' = multiple c
    /\ notifications c'
       = (notifications c
          ++ (if bool_decide (fileExt ∈ allowedTypes c)
              then if (File.size file <=? maxFileSize c)%Z then []
                   else [TooLarge (File.name file) (maxFileSize c)]
              else [UnsupportedType fileExt]))%list.
Proof.
  intros fileExt. rewrite validateFile_unfold. fold fileExt.
  destruct (bool_decide _); [destruct (_ <=? _)%Z|]; eexists;
    (split; [reflexivity|]); cbn; rewrite ?app_nil_r; done.
Qed.

Lemma valid_eq (c : t) (file : File.t) :
  valid c file
  = bool_decide (Js.toLowerCase (Js.pop (Js.split_dot (File.name file))) ∈ allowedTypes c)
    && (File.size file <=? maxFileSize c)%Z.
Proof.
  unfold valid. rewrite validateFile_unfold.
  destruct (bool_decide _); [|done]. by destruct (_ <=? _)%Z.
Qed.

Lemma valid_options (c c' : t) (file : File.t) :
  allowedTypes c' = allowedTypes c -> maxFileSize c' = maxFileSize c ->
  valid c' file = valid c file.
Proof. intros Ha Hm. by rewrite !valid_eq, Ha, Hm. Qed.

Lemma validateFile_valid (file : File.t) (c : t) :
  exists c',
    validateFile file c = (Js.Returned (valid c file), c')
    /\ selectedFiles c' = selectedFiles c
    /\ allowedTypes c' = allowedTypes c
    /\ maxFileSize c' = maxFileSize c
    /\ multiple c' = multiple c
    /\ length (notifications c')
       = (length (notifications c) + if valid c file then 0 else 1)%nat.
Proof.
  rewrite valid_eq, validateFile_unfold.
  destruct (bool_decide _); [destruct (_ <=? _)%Z|]; eexists;
    (split; [reflexivity|]); cbn; rewrite ?length_app; cbn; split_and!; try done; lia.
Qed.

(** [files.filter(file => this.validateFile(file))] returns the files that
    pass, in order; each of the others adds one notification. *)
Lemma validFiles_filter (files : list File.t) (c : t) :
  exists c',
    UploadView.validFiles files c = (Js.Returned (List.filter (valid c) files), c')
    /\ selectedFiles c' = selectedFiles c
    /\ allowedTypes c' = allowedTypes c
    /\ maxFileSize c' = maxFileSize c
    /\ multiple c' = multiple c
    /\ (length (notifications c') + length (List.filter (valid c) files)
        = length (notifications c) + length files)%nat.
Proof.
  revert c. induction files as [|file rest IH]; intros c.
  - exists c. cbn. split_and!; try done; lia.
  - destruct (validateFile_valid file c) as (c1 & Hrun & Hs & Ha & Hm & Hmu & Hn).
    destruct (IH c1) as (c2 & Hrest & Hs2 & Ha2 & Hm2 & Hmu2 & Hn2).
    exists c2. cbn [UploadView.validFiles List.filter]. unfold Js.bind at 1. rewrite Hrun.
    unfold Js.bind at 1. rewrite Hrest. unfold Js.ret.
    assert (List.filter (valid c1) rest = List.filter (valid c) rest) as Hf.
    { apply List.filter_ext. intros f. by apply valid_options. }
    rewrite Hf in *.
    split; [by destruct (valid c file)|].
    split_and!; try congruence.
    destruct (valid c file); cbn [length]; lia.
Qed.

Lemma filter_valid_Forall (c : t) (files : list File.t) :
  Forall (fun file => valid c file = true) (List.filter (valid c) files).
Proof. apply Forall_forall. intros f Hf. apply list_elem_of_In, List.filter_In in Hf. tauto. Qed.

(** [addFiles] by the files that pass validation. *)
Lemma addFiles_unfold {W} (callbacks : UploadView.Callbacks W) (files : list File.t)
    (v : UploadView.t) (w : W) :
  exists c',
    selectedFiles c' = UploadView.selectedFiles v
    /\ allowedTypes c' = allowedTypes (UploadView.component v)
    /\ maxFileSize c' = maxFileSize (UploadView.component v)
    /\ multiple c' = multiple (UploadView.component v)
    /\ (length (notifications c')
          + length (List.filter (valid (UploadView.component v)) files)
        = length (notifications (UploadView.component v)) + length files)%nat
    /\ UploadView.addFiles callbacks files (v, w)
       = match List.filter (valid (UploadView.component v)) files with
         | [] => (Js.Returned tt,
                  (UploadView.set_component (notify NoValidFiles c') v, w))
         | first :: others =>
             let v1 :=
               UploadView.showUploadActions
                 (UploadView.renderFileList
                    (UploadView.set_selectedFiles
                       (if multiple c'
                        then (selectedFiles c' ++ first :: others)%list
                        else [first])
                       (UploadView.set_component c' v))) in
             let (r, w') :=
               Js.call_if_set (UploadView.onFileSelect callbacks)
                 (UploadView.selectedFiles v1) w in
             (r, (v1, w'))
         end.
Proof.
  destruct (validFiles_filter files (UploadView.component v))
    as (c' & Hrun & Hs & Ha & Hm & Hmu & Hn).
  exists c'. split_and!; try done.
  unfold UploadView.addFiles, Js.bind at 1. unfold Js.zoom at 1. cbn [fst snd].
  rewrite Hrun. destruct (List.filter _ files) as [|first others]; [done|].
  unfold UploadView.on_self, UploadView.callback, Js.bind, Js.modify, Js.gets, Js.zoom.
  cbn [fst snd UploadView.component UploadView.set_component].
  destruct (multiple c'); reflexivity.
Qed.

Lemma selectedFiles_renderFileList (v : UploadView.t) :
  UploadView.selectedFiles (UploadView.renderFileList v) = UploadView.selectedFiles v.
Proof. unfold UploadView.renderFileList. by destruct (UploadView.selectedFiles v) eqn:H. Qed.

Lemma component_renderFileList (v : UploadView.t) :
  UploadView.component (UploadView.renderFileList v) = UploadView.component v.
Proof. unfold UploadView.renderFileList. by destruct (UploadView.selectedFiles v). Qed.

Lemma component_showUploadActions (v : UploadView.t) :
  UploadView.component (UploadView.showUploadActions v) = UploadView.component v.
Proof. unfold UploadView.showUploadActions. by destruct (UploadView.selectedFiles v). Qed.

(** The view that [addFiles] leaves. *)
Lemma addFiles_view {W} (callbacks : UploadView.Callbacks W) (files : list File.t)
    (v : UploadView.t) (w : W) :
  let accepted := List.filter (valid (UploadView.component v)) files in
  let v' := (UploadView.addFiles callbacks files (v, w)).2.1 in
  UploadView.selectedFiles v'
  = match accepted with
    | [] => UploadView.selectedFiles v
    | first :: _ =>
        if multiple (UploadView.component v)
        then (UploadView.selectedFiles v ++ accepted)%list
        else [first]
    end
  /\ allowedTypes (UploadView.component v') = allowedTypes (UploadView.component v)
  /\ maxFileSize (UploadView.component v') = maxFileSize (UploadView.component v)
  /\ multiple (UploadView.component v') = multiple (UploadView.component v).
Proof.
  intros accepted v'. subst accepted v'.
  destruct (addFiles_unfold callbacks files v w) as (c' & Hs & Ha & Hm & Hmu & _ & ->).
  destruct (List.filter _ files) as [|first others].
  - cbn. unfold UploadView.selectedFiles in *. cbn. done.
  - cbn zeta. destruct (Js.call_if_set _ _ w) as [r w']. cbn [fst snd].
    unfold UploadView.selectedFiles at 1.
    rewrite component_showUploadActions, component_renderFileList.
    cbn. rewrite Hmu, Hs. done.
Qed.

(** X15. After [addFiles] the selection is: unchanged when no file passes
    validation; the first passing file alone in single-file mode, whatever
    was selected before; the old selection followed by all passing files, in
    their order, in multiple mode. This holds whatever [onFileSelect] does,
    and the options stay as they were. *)
Theorem addFiles_selection {W} (callbacks : UploadView.Callbacks W)
    (files : list File.t) (v : UploadView.t) (w : W) :
  let accepted := List.filter (valid (UploadView.component v)) files in
  let v' := (UploadView.addFiles callbacks files (v, w)).2.1 in
  UploadView.selectedFiles v'
  = match accepted with
    | [] => UploadView.selectedFiles v
    | first :: _ =>
        if multiple (UploadView.component v)
        then (UploadView.selectedFiles v ++ accepted)%list
        else [first]
    end
  /\ allowedTypes (UploadView.component v') = allowedTypes (UploadView.component v)
  /\ maxFileSize (UploadView.component v') = maxFileSize (UploadView.component v)
  /\ multiple (UploadView.component v') = multiple (UploadView.component v).
Proof. apply addFiles_view. Qed.

(** X16. [addFiles] keeps the selection valid: when every selected file
    passes [validateFile], so does every file selected afterwards, however
    many of the added files are rejected. *)
Theorem addFiles_keeps_selection_valid {W} (callbacks : UploadView.Callbacks W)
    (files : list File.t) (v : UploadView.t) (w : W) :
  all_valid v ->
  all_valid (UploadView.addFiles callbacks files (v, w)).2.1.
Proof.
  intros Hv. unfold all_valid in *.
  destruct (addFiles_view callbacks files v w) as (Hs & Ha & Hm & _).
  cbn zeta in Hs. rewrite Hs.
  pose proof (filter_valid_Forall (UploadView.component v) files) as Hf.
  eapply Forall_impl;
    [|intros f Hf'; rewrite (valid_options (UploadView.component v)) by done; exact Hf'].
  destruct (List.filter _ files) as [|first others] eqn:Hacc; [done|].
  destruct (multiple _).
  - by apply Forall_app.
  - apply Forall_cons in Hf as [Hfirst _]. by apply Forall_singleton.
Qed.

(** X17. When none of the added files passes validation, [addFiles] returns
    without calling [onFileSelect] and without touching the selection or the
    rendered list; it shows one notification for each added file and the
    summary notification last. *)
Theorem addFiles_without_valid_file {W} (callbacks : UploadView.Callbacks W)
    (files : list File.t) (v : UploadView.t) (w : W) :
  List.filter (valid (UploadView.component v)) files = [] ->
  exists v',
    UploadView.addFiles callbacks files (v, w) = (Js.Returned tt, (v', w))
    /\ UploadView.selectedFiles v' = UploadView.selectedFiles v
    /\ UploadView.file_list v' = UploadView.file_list v
    /\ UploadView.upload_queue_display v' = UploadView.upload_queue_display v
    /\ UploadView.upload_actions_display v' = UploadView.upload_actions_display v
    /\ last (notifications (UploadView.component v')) = Some NoValidFiles
    /\ length (notifications (UploadView.component v'))
       = (length (notifications (UploadView.component v)) + length files + 1)%nat.
Proof.
  intros Hnone.
  destruct (addFiles_unfold callbacks files v w) as (c' & Hs & Ha & Hm & Hmu & Hn & ->).
  rewrite Hnone in *. eexists. split; [reflexivity|].
  unfold UploadView.selectedFiles. cbn. rewrite last_snoc, length_app. cbn in *.
  split_and!; try done. lia.
Qed.

Lemma renderFileList_in_sync (v : UploadView.t) : in_sync (UploadView.renderFileList v).
Proof.
  unfold in_sync, UploadView.renderFileList.
  destruct (UploadView.selectedFiles v) as [|f fs] eqn:Hs; [left; exact Hs|right].
  unfold UploadView.selectedFiles in *. cbn. rewrite Hs. cbn. f_equal.
  rewrite map_map. cbn. by rewrite map_id.
Qed.

Lemma delete_past_end {A} (l : list A) (i : nat) :
  (length l <= i)%nat -> delete i l = l.
Proof.
  revert i. induction l as [|x l IH]; intros i H; [by destruct i|].
  destruct i as [|i]; cbn in *; [lia|]. f_equal. apply IH. lia.
Qed.

Lemma showUploadActions_in_sync (v : UploadView.t) :
  in_sync v -> in_sync (UploadView.showUploadActions v).
Proof.
  unfold UploadView.showUploadActions.
  destruct (UploadView.selectedFiles v) eqn:Hs; [done|].
  intros [H|H]; [left|right]; exact H.
Qed.

(** X18. [removeFile(index)] removes the file at [index] and nothing else;
    an index past the end removes nothing. While files are left the list is
    rendered anew from them; when the last file goes, queue and actions are
    hidden and the rendered list is left as it was. *)
Theorem removeFile_view (index : nat) (v : UploadView.t) :
  let v' := UploadView.removeFile index v in
  UploadView.selectedFiles v' = delete index (UploadView.selectedFiles v)
  /\ (length (UploadView.selectedFiles v) <= index ->
      UploadView.selectedFiles v' = UploadView.selectedFiles v)
  /\ (index < length (UploadView.selectedFiles v) ->
      S (length (UploadView.selectedFiles v')) = length (UploadView.selectedFiles v))
  /\ match UploadView.selectedFiles v' with
     | [] => UploadView.file_list v' = UploadView.file_list v
             /\ UploadView.upload_queue_display v' = "none"
             /\ UploadView.upload_actions_display v' = "none"
     | files => UploadView.file_list v' = map (fun file => UploadView.mkItem file []) files
                /\ UploadView.upload_queue_display v' = "block"
                /\ UploadView.upload_actions_display v' = UploadView.upload_actions_display v
     end.
Proof.
  intros v'. subst v'.
  assert (UploadView.selectedFiles (UploadView.removeFile index v)
          = delete index (UploadView.selectedFiles v)) as Hsel.
  { unfold UploadView.removeFile. cbn zeta.
    transitivity (UploadView.selectedFiles
                    (UploadView.renderFileList
                       (UploadView.set_selectedFiles
                          (delete index (UploadView.selectedFiles v)) v))).
    - destruct (UploadView.selectedFiles (UploadView.renderFileList _)) eqn:H;
        rewrite ?H; done.
    - by rewrite selectedFiles_renderFileList. }
  split; [exact Hsel|]. rewrite Hsel.
  split; [intros Hle; by apply delete_past_end|].
  split; [intros Hlt; rewrite length_delete by (by apply lookup_lt_is_Some_2); lia|].
  unfold UploadView.removeFile. cbn zeta.
  rewrite selectedFiles_renderFileList.
  unfold UploadView.renderFileList.
  change (UploadView.selectedFiles (UploadView.set_selectedFiles ?l v)) with l.
  destruct (delete index (UploadView.selectedFiles v)); cbn; done.
Qed.

Lemma last_cons_default {A} (x d : A) (l : list A) :
  List.last (x :: l) d = List.last l x.
Proof.
  revert x d. induction l as [|y l IH]; intros x d; [done|].
  change (List.last (y :: l) d = List.last (y :: l) x). by rewrite !IH.
Qed.

Lemma trace_run (c : UploadCall) (log : list UploadCall) :
  trace c log = (Js.Returned tt, (log ++ [c])%list).
Proof. reflexivity. Qed.

(** The progress loop with the recording callback, on an item with a bar. *)
Lemma simulate_progress_tracing (file : File.t) (index : nat) (steps : list Z) :
  forall (v : UploadView.t) (log : list UploadCall) (f : File.t) (b : Z) (bars : list Z),
    UploadView.file_list v !! index = Some (UploadView.mkItem f (b :: bars)) ->
    UploadView.simulate_progress (fun fp => trace (Progressed fp.1 fp.2)) file index steps
      (v, log)
    = (Js.Returned tt,
       (UploadView.set_file_list
          (<[index := UploadView.mkItem f (List.last steps b :: bars)]>
             (UploadView.file_list v)) v,
        (log ++ map (Progressed file) steps)%list)).
Proof.
  induction steps as [|p rest IH]; intros v log f b bars Hitem.
  - cbn [UploadView.simulate_progress List.last map]. unfold Js.ret.
    rewrite list_insert_id by done. rewrite app_nil_r. by destruct v.
  - cbn [UploadView.simulate_progress]. unfold Js.bind at 1.
    unfold UploadView.set_progress_width at 1. unfold Js.bind at 1, Js.gets at 1.
    cbn [fst snd]. rewrite Hitem.
    unfold UploadView.on_self at 1, Js.modify at 1. cbn [fst snd].
    unfold Js.bind at 1. unfold UploadView.callback at 1, Js.zoom at 1, Js.call_if_set at 1.
    cbn [fst snd]. rewrite trace_run.
    assert (index < length (UploadView.file_list v))%nat as Hlt
      by (apply lookup_lt_is_Some; eauto).
    rewrite (IH _ _ f p bars).
    + cbn [UploadView.file_list UploadView.set_file_list map].
      rewrite list_insert_insert_eq. rewrite <- app_assoc. cbn [app].
      by rewrite last_cons_default.
    + cbn [UploadView.file_list UploadView.set_file_list].
      by rewrite list_lookup_insert_eq.
Qed.

(** [uploadFile] on a rendered item, with the recording callbacks. *)
Lemma uploadFile_tracing (file : File.t) (index : nat) (v : UploadView.t)
    (log : list UploadCall) (item : UploadView.Item) :
  UploadView.file_list v !! index = Some item ->
  UploadView.uploadFile tracing_callbacks file index (v, log)
  = (Js.Returned tt,
     (UploadView.set_file_list (<[index := uploaded item]> (UploadView.file_list v)) v,
      (log ++ map (Progressed file) UploadView.progress_steps ++ [Uploaded file index])%list)).
Proof.
  intros Hitem.
  assert (index < length (UploadView.file_list v))%nat as Hlt
    by (apply lookup_lt_is_Some; eauto).
  unfold UploadView.uploadFile, Js.try_catch.
  unfold Js.bind at 1, Js.gets at 1. cbn [fst snd]. rewrite Hitem.
  unfold Js.bind at 1. unfold UploadView.on_self at 1, Js.modify at 1. cbn [fst snd].
  unfold Js.bind at 1. cbn [tracing_callbacks UploadView.onUploadProgress
    UploadView.onUploadComplete].
  destruct item as [f bars]. unfold UploadView.add_progress_bar.
  cbn [UploadView.item_file UploadView.progress_bars].
  destruct bars as [|b bars].
  - rewrite (simulate_progress_tracing file index UploadView.progress_steps _ _ f 0%Z [])
      by (cbn; by rewrite list_lookup_insert_eq).
    unfold UploadView.callback, Js.zoom, Js.call_if_set. cbn [fst snd]. rewrite trace_run.
    cbn [UploadView.file_list UploadView.set_file_list]. rewrite list_insert_insert_eq.
    rewrite <- app_assoc. reflexivity.
  - rewrite (simulate_progress_tracing file index UploadView.progress_steps _ _ f b
               (bars ++ [0%Z])%list)
      by (cbn; by rewrite list_lookup_insert_eq).
    unfold UploadView.callback, Js.zoom, Js.call_if_set. cbn [fst snd]. rewrite trace_run.
    cbn [UploadView.file_list UploadView.set_file_list]. rewrite list_insert_insert_eq.
    rewrite <- app_assoc. reflexivity.
Qed.

(** The loop of [startUpload] with the recording callbacks. *)
Lemma upload_from_tracing (files : list File.t) :
  forall (i : nat) (v : UploadView.t) (log : list UploadCall),
    (i + length files <= length (UploadView.file_list v))%nat ->
    exists v',
      UploadView.upload_from tracing_callbacks i files (v, log)
      = (Js.Returned tt, (v', (log ++ upload_trace i files)%list))
      /\ UploadView.component v' = UploadView.component v
      /\ UploadView.upload_queue_display v' = UploadView.upload_queue_display v
      /\ UploadView.upload_actions_display v' = UploadView.upload_actions_display v
      /\ UploadView.warnings v' = UploadView.warnings v
      /\ length (UploadView.file_list v') = length (UploadView.file_list v)
      /\ forall k item,
           UploadView.file_list v !! k = Some item ->
           UploadView.file_list v' !! k
           = Some (if bool_decide (i <= k < i + length files)%nat
                   then uploaded item else item).
Proof.
  induction files as [|file rest IH]; intros i v log Hlen.
  - exists v. cbn. rewrite app_nil_r. split_and!; try done.
    intros k item Hk. rewrite bool_decide_eq_false_2 by lia. exact Hk.
  - cbn [length] in Hlen.
    destruct (lookup_lt_is_Some_2 (UploadView.file_list v) i) as [item Hitem]; [lia|].
    cbn [UploadView.upload_from upload_trace]. unfold Js.bind at 1.
    rewrite (uploadFile_tracing file i v log item Hitem).
    destruct (IH (S i)
                (UploadView.set_file_list
                   (<[i := uploaded item]> (UploadView.file_list v)) v)
                (log ++ map (Progressed file) UploadView.progress_steps
                     ++ [Uploaded file i])%list)
      as (v' & Hrun & Hc & Hq & Ha & Hw & Hl & Hitems).
    { cbn. rewrite length_insert. lia. }
    exists v'. rewrite Hrun.
    split; [by rewrite <- !app_assoc|].
    cbn in Hc, Hq, Ha, Hw, Hl. rewrite length_insert in Hl.
    split_and!; try done.
    intros k item' Hk. cbn [length].
    destruct (decide (k = i)) as [->|Hne].
    + rewrite (Hitems i (uploaded item)) by (cbn; by apply list_lookup_insert_eq; lia).
      rewrite bool_decide_eq_false_2 by lia. rewrite bool_decide_eq_true_2 by lia.
      congruence.
    + rewrite (Hitems k item') by (cbn; by rewrite list_lookup_insert_ne).
      destruct (bool_decide (S i <= k < S i + length rest)%nat) eqn:Hin.
      * apply bool_decide_eq_true_1 in Hin. by rewrite bool_decide_eq_true_2 by lia.
      * apply bool_decide_eq_false_1 in Hin. by rewrite bool_decide_eq_false_2 by lia.
Qed.

(** X19. [startUpload] on a selection whose files all have a rendered item:
    [onUploadStart] is called once with the selection, then for each file in
    order [onUploadProgress] with 0, 10, ..., 100 and [onUploadComplete] with
    its index; [onUploadError] is never called. Selection and displays are
    left alone and the first bar of each uploaded item is full. With nothing
    selected no callback runs and a warning is shown. *)
Theorem startUpload_reports_each_file (v : UploadView.t) (log : list UploadCall) :
  (length (UploadView.selectedFiles v) <= length (UploadView.file_list v))%nat ->
  exists v',
    UploadView.startUpload tracing_callbacks (v, log)
    = (Js.Returned tt,
       (v', (log ++ match UploadView.selectedFiles v with
                    | [] => []
                    | files => Started files :: upload_trace 0 files
                    end)%list))
    /\ UploadView.component v' = UploadView.component v
    /\ UploadView.upload_queue_display v' = UploadView.upload_queue_display v
    /\ UploadView.upload_actions_display v' = UploadView.upload_actions_display v
    /\ UploadView.warnings v'
       = match UploadView.selectedFiles v with
         | [] => (UploadView.warnings v ++ ["Keine Dateien ausgewählt"])%list
         | _ => UploadView.warnings v
         end
    /\ forall k item,
         UploadView.file_list v !! k = Some item ->
         UploadView.file_list v' !! k
         = Some (if bool_decide (k < length (UploadView.selectedFiles v))%nat
                 then uploaded item else item).
Proof.
  intros Hlen. unfold UploadView.startUpload, Js.bind at 1, Js.gets at 1. cbn [fst snd].
  destruct (UploadView.selectedFiles v) as [|file rest] eqn:Hsel.
  - eexists. split; [unfold UploadView.on_self, Js.modify; cbn; by rewrite app_nil_r|].
    cbn. split_and!; done.
  - unfold Js.bind at 1. unfold UploadView.callback at 1, Js.zoom at 1, Js.call_if_set at 1.
    cbn [fst snd tracing_callbacks UploadView.onUploadStart]. rewrite trace_run.
    destruct (upload_from_tracing (file :: rest) 0 v (log ++ [Started (file :: rest)]))
      as (v' & Hrun & Hc & Hq & Ha & Hw & _ & Hitems); [cbn in *; lia|].
    exists v'. rewrite Hrun. split; [by rewrite <- app_assoc|].
    split_and!; try done.
    intros k item Hk. rewrite (Hitems k item Hk).
    destruct (bool_decide (k < _)%nat) eqn:Hin.
    + apply bool_decide_eq_true_1 in Hin. by rewrite bool_decide_eq_true_2 by lia.
    + apply bool_decide_eq_false_1 in Hin. by rewrite bool_decide_eq_false_2 by lia.
Qed.

(** The rendered items follow the selection: after [addFiles] on a view
    in that state, and after any [removeFile] or [clearFiles], the items are
    those of the selected files, in order, unless nothing is selected; so
    every selected file has an item for [startUpload]. *)
Theorem rendered_items_follow_selection {W} (callbacks : UploadView.Callbacks W)
    (files : list File.t) (index : nat) (v : UploadView.t) (w : W) :
  in_sync v ->
  in_sync (UploadView.addFiles callbacks files (v, w)).2.1
  /\ in_sync (UploadView.removeFile index v)
  /\ in_sync (UploadView.clearFiles v).
Proof.
  intros Hv. split_and!.
  - destruct (addFiles_unfold callbacks files v w) as (c' & Hs & _ & _ & _ & _ & ->).
    destruct (List.filter _ files) as [|first others].
    + cbn [fst snd]. unfold in_sync, UploadView.selectedFiles in *. cbn. by rewrite <- Hs in Hv.
    + cbn zeta. destruct (Js.call_if_set _ _ w) as [r w']. cbn [fst snd].
      apply showUploadActions_in_sync, renderFileList_in_sync.
  - unfold UploadView.removeFile. cbn zeta.
    destruct (UploadView.selectedFiles (UploadView.renderFileList _)) eqn:H1.
    + by left.
    + apply renderFileList_in_sync.
  - by left.
Qed.
End UploadViewProps.

Section UploadViewWitnesses.
Import DocumentUploadComponent Props MoreProps.

Lemma addFiles_keeps_selection_valid_witness :
  all_valid (UploadView.create of_app)
  /\ all_valid
       (UploadView.addFiles tracing_callbacks
          [File.mk "notes.exe" 10 ""; report_pdf]
          (UploadView.create of_app, [])).2.1.
Proof.
  assert (all_valid (UploadView.create of_app)) as H by apply Forall_nil_2.
  split; [exact H|].
  exact (addFiles_keeps_selection_valid tracing_callbacks _ _ [] H).
Defined.

Lemma addFiles_without_valid_file_witness :
  exists v',
    UploadView.addFiles tracing_callbacks [File.mk "notes.exe" 10 ""]
      (UploadView.create of_app, [])
    = (Js.Returned tt, (v', []))
    /\ notifications (UploadView.component v')
       = [UnsupportedType "exe"; NoValidFiles].
Proof.
  destruct (addFiles_without_valid_file tracing_callbacks
              [File.mk "notes.exe" 10 ""] (UploadView.create of_app) [] eq_refl)
    as (v' & Hrun & _).
  exists v'. split; [exact Hrun|].
  vm_compute in Hrun. by injection Hrun as <-.
Defined.

Lemma startUpload_reports_each_file_witness :
  exists v',
    UploadView.startUpload tracing_callbacks
      (UploadView.renderFileList
         (UploadView.set_selectedFiles [report_pdf] (UploadView.create of_app)), [])
    = (Js.Returned tt,
       (v', Started [report_pdf] :: upload_trace 0 [report_pdf]))
    /\ UploadView.file_list v' = [UploadView.mkItem report_pdf [100%Z]].
Proof.
  destruct (startUpload_reports_each_file
              (UploadView.renderFileList
                 (UploadView.set_selectedFiles [report_pdf] (UploadView.create of_app)))
              []) as (v' & Hrun & _); [cbn; lia|].
  exists v'. split; [exact Hrun|].
  vm_compute in Hrun. by injection Hrun as <-.
Defined.

Lemma rendered_items_follow_selection_witness :
  in_sync (UploadView.addFiles tracing_callbacks [report_pdf]
             (UploadView.create of_app, [])).2.1
  /\ in_sync (UploadView.removeFile 0 (UploadView.create of_app))
  /\ in_sync (UploadView.clearFiles (UploadView.create of_app)).
Proof.
  apply (rendered_items_follow_selection tracing_callbacks [report_pdf] 0
           (UploadView.create of_app) []).
  left. reflexivity.
Defined.
End UploadViewWitnesses.

(** * Properties of the orchestrator *)

Section SessionProps.
Import Session Props MoreProps.

(** Reading the fields of a session after the setters have run. *)
Ltac session_fields :=
  cbv beta iota delta
    [app uploadComponent markerService subscriptions eventHandlers isConnected
     sentiment_analysis currentJobId set_app set_uploadComponent set_markerService
     set_sentiment_analysis set_currentJobId client set_client realtimeService
     set_realtimeService notified fst snd
     RealtimeAnnotationsService.supabase RealtimeAnnotationsService.subscriptions
     RealtimeAnnotationsService.eventHandlers RealtimeAnnotationsService.isConnected
     RealtimeAnnotationsService.set_supabase RealtimeAnnotationsService.set_subscriptions
     RealtimeAnnotationsService.set_eventHandlers RealtimeAnnotationsService.set_isConnected
     MarkerEngineService.supabase MarkerEngineService.processingQueue
     MarkerEngineService.annotationCache MarkerEngineService.set_supabase
     MarkerEngineService.set_processingQueue MarkerEngineService.set_annotationCache
     MarkerIntegrationApp.statusComponent MarkerIntegrationApp.annotationsViewer
     MarkerIntegrationApp.notifications MarkerIntegrationApp.started
     MarkerIntegrationApp.set_statusComponent MarkerIntegrationApp.set_annotationsViewer
     Supabase.documents Supabase.marker_jobs Supabase.text_annotations Supabase.channels
     Supabase.removed_channels Supabase.next_channel Supabase.uuid Supabase.next_uuid
     Supabase.now Supabase.script Supabase.set_channels Supabase.set_marker_jobs
     Supabase.set_documents Supabase.set_script Supabase.set_next_uuid
     Supabase.set_text_annotations Supabase.topic Supabase.bindings Supabase.channel_id
     opened fresh_channel without unsubscribed] in *.

Lemma showNotification_run (message type : string) (a : t) :
  showNotification message type a = (Js.Returned tt, notified [(message, type)] a).
Proof. reflexivity. Qed.

Lemma try_catch_returned {W A} (m : Js.M W A) (h : Js.JsError -> Js.M W A) (w : W) :
  (forall e w', Js.returned (h e w').1 = true) ->
  Js.returned (Js.try_catch m h w).1 = true.
Proof.
  intros Hh. unfold Js.try_catch. destruct (m w) as [[x|e] w']; [done|apply Hh].
Qed.

(** X20. The entry points of the orchestrator that are fired without being
    awaited never throw, whatever the backend answers: [handleUploadStart],
    [subscribeToJobUpdates], [loadAnnotations], [handleProcessingComplete],
    [cancelCurrentJob] and [cleanup] end every failure in a notification or
    in the log. *)
Theorem entry_points_never_throw (files : list File.t) (jobId : string) (data : Job.row)
    (keys : list string) (a : t) :
  Js.returned (handleUploadStart files a).1 = true
  /\ Js.returned (subscribeToJobUpdates jobId a).1 = true
  /\ Js.returned (loadAnnotations jobId a).1 = true
  /\ Js.returned (handleProcessingComplete data a).1 = true
  /\ Js.returned (cancelCurrentJob a).1 = true
  /\ Js.returned (cleanup keys a).1 = true.
Proof.
  split_and!; try (apply try_catch_returned; done).
  unfold cancelCurrentJob, Js.bind, Js.gets.
  destruct (negb _); [done|]. apply try_catch_returned; done.
Qed.

(** What a job that [uploadAndProcess] returned looks like, and what the call
    left alone. *)
Lemma uploadAndProcess_returned (file : File.t) (options : list (string * bool))
    (s s' : MarkerEngineService.t) (job : Job.row) :
  MarkerEngineService.uploadAndProcess file options s = (Js.Returned job, s') ->
  Job.status job = Js.Val "pending"
  /\ (exists id, Job.id job = Js.Val id)
  /\ Supabase.marker_jobs (MarkerEngineService.supabase s')
     = (Supabase.marker_jobs (MarkerEngineService.supabase s) ++ [job])%list
  /\ Supabase.channels (MarkerEngineService.supabase s')
     = Supabase.channels (MarkerEngineService.supabase s)
  /\ Supabase.removed_channels (MarkerEngineService.supabase s')
     = Supabase.removed_channels (MarkerEngineService.supabase s)
  /\ Supabase.next_channel (MarkerEngineService.supabase s')
     = Supabase.next_channel (MarkerEngineService.supabase s)
  /\ MarkerEngineService.annotationCache s' = MarkerEngineService.annotationCache s.
Proof.
  rewrite uploadAndProcess_unfold. cbn zeta.
  destruct (Supabase.next_reply (MarkerEngineService.supabase s)) as [[|e|e] db1] eqn:H1;
    try discriminate.
  pose proof (next_reply_frame _ _ _ H1) as (_ & Hj1 & _ & Hc1 & Hr1 & Hn1 & _).
  destruct (Supabase.documents db1 !! _) eqn:Hdoc; [discriminate|].
  destruct (Supabase.next_reply (Supabase.set_documents _ db1)) as [[|e|e] db3] eqn:H3;
    try discriminate.
  pose proof (next_reply_frame _ _ _ H3) as (_ & Hj3 & _ & Hc3 & Hr3 & Hn3 & _).
  intros [= <- <-]. cbn. rewrite Hj3, Hc3, Hr3, Hn3. cbn. rewrite Hj1, Hc1, Hr1, Hn1.
  split_and!; try done. by eexists.
Qed.

(** [startTracking] of the orchestrator's status view on a pending job. *)
Lemma statusComponent_startTracking_pending (job : Job.row) (x : MarkerIntegrationApp.t) :
  Job.status job = Js.Val "pending" ->
  exists c',
    statusComponent_startTracking job x
    = (Js.Returned tt, MarkerIntegrationApp.set_statusComponent c' x)
    /\ ProcessingStatusComponent.currentJob c' = Some job
    /\ ProcessingStatusComponent.wrapper_display c' = "block"
    /\ ProcessingStatusComponent.statusInterval c'
       = Some (ProcessingStatusComponent.intervals_started
                 (MarkerIntegrationApp.statusComponent x))
    /\ ProcessingStatusComponent.cancel_button_display c' = "block"
    /\ ProcessingStatusComponent.job_status c' = "pending".
Proof.
  intros Hst.
  unfold statusComponent_startTracking, ProcessingStatusComponent.startTracking,
    ProcessingStatusComponent.updateStatus, ProcessingStatusComponent.status_is,
    ProcessingStatusComponent.callback, ProcessingStatusComponent.on_self,
    MarkerIntegrationApp.status_options, MarkerIntegrationApp.handleStatusChange,
    ProcessingStatusComponent.status_is, Js.bind, Js.modify, Js.zoom, Js.call_if_set, Js.ret.
  cbn [fst snd ProcessingStatusComponent.onStatusChange]. rewrite !Hst.
  eexists. split; [reflexivity|]. done.
Qed.

(** X21. [processDocument] on a file that [uploadAndProcess] accepts, for a
    job that has no subscription yet: the new job becomes the current job and
    the one the status view tracks, with the card shown, the ticker running
    and the cancel button offered; the job is subscribed through one new
    channel named after it, the other subscriptions stay; the user sees the
    two progress notifications and the annotation view is not touched. *)
Theorem processDocument_tracks_and_subscribes (file : File.t) (a : t) (job : Job.row)
    (m' : MarkerEngineService.t) :
  MarkerEngineService.uploadAndProcess file processing_options (markerService a)
  = (Js.Returned job, m') ->
  subscriptions a !! template (Job.id job) = None ->
  exists a',
    processDocument file a = (Js.Returned tt, a')
    /\ currentJobId a' = Job.id job
    /\ Supabase.marker_jobs (client a') = (Supabase.marker_jobs (client a) ++ [job])%list
    /\ ProcessingStatusComponent.currentJob (MarkerIntegrationApp.statusComponent (app a'))
       = Some job
    /\ ProcessingStatusComponent.wrapper_display
         (MarkerIntegrationApp.statusComponent (app a')) = "block"
    /\ ProcessingStatusComponent.cancel_button_display
         (MarkerIntegrationApp.statusComponent (app a')) = "block"
    /\ is_Some (ProcessingStatusComponent.statusInterval
                  (MarkerIntegrationApp.statusComponent (app a')))
    /\ (exists c,
          subscriptions a' !! template (Job.id job) = Some c
          /\ Supabase.topic c = "job-" +:+ template (Job.id job)
          /\ Supabase.channels (client a') = (Supabase.channels (client a) ++ [c])%list)
    /\ (forall other, other <> template (Job.id job) ->
          subscriptions a' !! other = subscriptions a !! other)
    /\ MarkerIntegrationApp.notifications (app a')
       = (MarkerIntegrationApp.notifications (app a)
          ++ [("Starte Dokumentenverarbeitung...", "info");
              ("Dokument wird verarbeitet...", "info")])%list
    /\ MarkerIntegrationApp.annotationsViewer (app a')
       = MarkerIntegrationApp.annotationsViewer (app a).
Proof.
  intros Hup Hfree.
  destruct (uploadAndProcess_returned _ _ _ _ _ Hup)
    as (Hst & _ & Hjobs & Hch & _).
  unfold processDocument, Js.try_catch. unfold Js.bind at 1. rewrite showNotification_run.
  unfold Js.bind at 1. unfold marker at 1, Js.zoom at 1.
  change (markerService (notified _ a)) with (markerService a). rewrite Hup.
  unfold Js.bind at 1, Js.modify at 1.
  unfold Js.bind at 1, on_app at 1, Js.zoom at 1.
  destruct (statusComponent_startTracking_pending job
              (app (set_currentJobId (Job.id job)
                      (set_markerService m'
                         (notified [("Starte Dokumentenverarbeitung...", "info")] a))))
              Hst)
    as (c' & Hrun & Hcur & Hdisp & Htick & Hbtn & _).
  rewrite Hrun.
  unfold Js.bind at 1.
  unfold subscribeToJobUpdates, Js.try_catch, Js.bind at 1, realtime, Js.zoom at 1.
  rewrite subscribeToJob_unfold.
  cbn [RealtimeAnnotationsService.subscriptions realtimeService set_app set_currentJobId
       set_markerService notified subscriptions].
  rewrite Hfree. rewrite bool_decide_eq_false_2 by (by intros [? ?]).
  cbn zeta. unfold Js.ret. rewrite showNotification_run.
  eexists. split; [reflexivity|].
  session_fields.
  rewrite Hcur, Hdisp, Hbtn, Htick, Hjobs, Hch.
  split_and!; try done.
  - eexists. split; [apply lookup_insert_eq|]. by split.
  - intros other Hne. by rewrite lookup_insert_ne.
  - by rewrite <- app_assoc.
Qed.

(** X22. When [uploadAndProcess] throws, [processDocument] throws the same
    error after an error notification that carries its message; the current
    job, the status view, the subscriptions and the annotation view are as
    before. *)
Theorem processDocument_failure (file : File.t) (a : t) (e : Js.JsError)
    (m' : MarkerEngineService.t) :
  MarkerEngineService.uploadAndProcess file processing_options (markerService a)
  = (Js.Thrown e, m') ->
  processDocument file a
  = (Js.Thrown e,
     notified [("Starte Dokumentenverarbeitung...", "info");
               ("Fehler bei der Verarbeitung: " +:+ Js.message e, "error")]
       (set_markerService m' a)).
Proof.
  intros Hup.
  unfold processDocument, Js.try_catch. unfold Js.bind at 1. rewrite showNotification_run.
  unfold Js.bind at 1. unfold marker at 1, Js.zoom at 1.
  change (markerService (notified _ a)) with (markerService a). rewrite Hup.
  unfold Js.bind, Js.throw. rewrite showNotification_run.
  unfold notified, set_app, set_markerService. cbn. by rewrite <- app_assoc.
Qed.

(** The loop of [handleUploadStart] ends at the first file that fails. *)
Lemma process_each_stops (done_ rest : list File.t) (file : File.t) (a a1 a2 : t)
    (e : Js.JsError) :
  process_each done_ a = (Js.Returned tt, a1) ->
  processDocument file a1 = (Js.Thrown e, a2) ->
  process_each (done_ ++ file :: rest) a = (Js.Thrown e, a2).
Proof.
  revert a. induction done_ as [|f fs IH]; intros a.
  - intros [= <-] Hfail. cbn [List.app process_each]. unfold Js.bind. by rewrite Hfail.
  - cbn [List.app process_each]. unfold Js.bind.
    destruct (processDocument f a) as [[[]|e'] a0]; [|discriminate].
    apply IH.
Qed.

(** X23. [handleUploadStart] processes the files in order and gives up at the
    first one that fails: the files after it are never uploaded, the failure
    is shown once more as a start error, and the call returns. *)
Theorem handleUploadStart_stops_at_first_failure (done_ rest : list File.t)
    (file : File.t) (a a1 a2 : t) (e : Js.JsError) :
  process_each done_ a = (Js.Returned tt, a1) ->
  processDocument file a1 = (Js.Thrown e, a2) ->
  handleUploadStart (done_ ++ file :: rest) a
  = (Js.Returned tt,
     notified [("Fehler beim Upload-Start: " +:+ Js.message e, "error")] a2).
Proof.
  intros Hdone Hfail. unfold handleUploadStart, Js.try_catch.
  rewrite (process_each_stops done_ rest file a a1 a2 e Hdone Hfail).
  apply showNotification_run.
Qed.

(** [cancelJob] by the reply of the backend. *)
Lemma cancelJob_unfold (jobId : string) (s : MarkerEngineService.t) :
  MarkerEngineService.cancelJob jobId s =
    match Supabase.next_reply (MarkerEngineService.supabase s) with
    | (Supabase.Answers, db) =>
        (Js.Returned true,
         MarkerEngineService.set_processingQueue
           (delete (Js.Val jobId) (MarkerEngineService.processingQueue s))
           (MarkerEngineService.set_supabase
              (Supabase.set_marker_jobs
                 (cancelled_at jobId (Supabase.now (MarkerEngineService.supabase s))
                    (Supabase.marker_jobs db)) db) s))
    | (Supabase.AnswersError e, db) | (Supabase.Rejects e, db) =>
        (Js.Thrown e, MarkerEngineService.set_supabase db s)
    end.
Proof.
  destruct (Supabase.next_reply (MarkerEngineService.supabase s)) as [reply db] eqn:Hreply.
  unfold MarkerEngineService.cancelJob, Js.try_catch, Js.bind, MarkerEngineService.Date_now,
    Js.gets, MarkerEngineService.await, Js.zoom, Supabase.update_job_status.
  destruct reply as [|e|e].
  - by rewrite (request_answers _ _ _ Hreply).
  - by rewrite (request_error _ _ _ _ Hreply).
  - by rewrite (request_rejects _ _ _ _ Hreply).
Qed.

Lemma next_reply_empty_script (db : Supabase.t) :
  Supabase.script db = [] -> Supabase.next_reply db = (Supabase.Answers, db).
Proof. unfold Supabase.next_reply. by intros ->. Qed.

(** X24. [cancelCurrentJob] with a current job, when the backend answers:
    the rows of that job are marked cancelled, the job leaves the queue, its
    subscription is removed and no job is current afterwards; the other
    subscriptions stay, the user sees one notification, and the status view
    is not told: it shows what it showed before. *)
Theorem cancelCurrentJob_cancels_and_unsubscribes (a : t) (jobId : string) :
  Supabase.script (client a) = [] ->
  currentJobId a = Js.Val jobId ->
  jobId <> "" ->
  exists a',
    cancelCurrentJob a = (Js.Returned tt, a')
    /\ currentJobId a' = Js.Null
    /\ Supabase.marker_jobs (client a')
       = cancelled_at jobId (Supabase.now (client a)) (Supabase.marker_jobs (client a))
    /\ MarkerEngineService.processingQueue (markerService a') !! Js.Val jobId = None
    /\ subscriptions a' !! jobId = None
    /\ (forall other, other <> jobId -> subscriptions a' !! other = subscriptions a !! other)
    /\ MarkerIntegrationApp.notifications (app a')
       = (MarkerIntegrationApp.notifications (app a)
          ++ [("Job erfolgreich abgebrochen", "info")])%list
    /\ MarkerIntegrationApp.statusComponent (app a')
       = MarkerIntegrationApp.statusComponent (app a).
Proof.
  intros Hscript Hcur Hne. unfold client in Hscript.
  unfold cancelCurrentJob, Js.bind at 1, Js.gets at 1. rewrite Hcur.
  assert (Js.truthy_string (Js.Val jobId) = true) as -> by by destruct jobId.
  cbn [negb template]. unfold Js.try_catch, Js.bind at 1, marker at 1, Js.zoom at 1.
  rewrite cancelJob_unfold, (next_reply_empty_script _ Hscript).
  unfold Js.bind at 1. rewrite showNotification_run.
  unfold Js.bind at 1, realtime at 1, Js.zoom at 1.
  rewrite unsubscribeFromJob_unfold.
  destruct (subscriptions a !! jobId) as [c|] eqn:Hsub.
  - assert (RealtimeAnnotationsService.subscriptions
              (realtimeService
                 (notified [("Job erfolgreich abgebrochen", "info")]
                    (set_markerService
                       (MarkerEngineService.set_processingQueue
                          (delete (Js.Val jobId)
                             (MarkerEngineService.processingQueue (markerService a)))
                          (MarkerEngineService.set_supabase
                             (Supabase.set_marker_jobs
                                (cancelled_at jobId
                                   (Supabase.now
                                      (MarkerEngineService.supabase (markerService a)))
                                   (Supabase.marker_jobs
                                      (MarkerEngineService.supabase (markerService a))))
                                (MarkerEngineService.supabase (markerService a)))
                             (markerService a))) a)))
            !! jobId = Some c) as -> by exact Hsub.
    rewrite next_reply_empty_script by exact Hscript.
    eexists. split; [reflexivity|].
    session_fields. cbn.
    split_and!; try done.
    + apply lookup_delete_eq.
    + apply lookup_delete_eq.
    + intros other Ho. by rewrite lookup_delete_ne.
  - assert (RealtimeAnnotationsService.subscriptions
              (realtimeService
                 (notified [("Job erfolgreich abgebrochen", "info")]
                    (set_markerService
                       (MarkerEngineService.set_processingQueue
                          (delete (Js.Val jobId)
                             (MarkerEngineService.processingQueue (markerService a)))
                          (MarkerEngineService.set_supabase
                             (Supabase.set_marker_jobs
                                (cancelled_at jobId
                                   (Supabase.now
                                      (MarkerEngineService.supabase (markerService a)))
                                   (Supabase.marker_jobs
                                      (MarkerEngineService.supabase (markerService a))))
                                (MarkerEngineService.supabase (markerService a)))
                             (markerService a))) a)))
            !! jobId = None) as -> by exact Hsub.
    eexists. split; [reflexivity|].
    session_fields. cbn.
    split_and!; try done.
    apply lookup_delete_eq.
Qed.

(** X25. When the backend refuses the cancellation, by an [error] answer or
    a rejected request, [cancelCurrentJob] returns after an error
    notification and gives nothing up: the job is still the current one and
    still subscribed, and its rows are as they were. *)
Theorem cancelCurrentJob_failure_keeps_job (a : t) (jobId : string) (e : Js.JsError)
    (db : Supabase.t) :
  currentJobId a = Js.Val jobId ->
  jobId <> "" ->
  Supabase.next_reply (client a) = (Supabase.AnswersError e, db)
  \/ Supabase.next_reply (client a) = (Supabase.Rejects e, db) ->
  exists a',
    cancelCurrentJob a = (Js.Returned tt, a')
    /\ currentJobId a' = Js.Val jobId
    /\ subscriptions a' = subscriptions a
    /\ eventHandlers a' = eventHandlers a
    /\ Supabase.marker_jobs (client a') = Supabase.marker_jobs (client a)
    /\ Supabase.channels (client a') = Supabase.channels (client a)
    /\ MarkerEngineService.processingQueue (markerService a')
       = MarkerEngineService.processingQueue (markerService a)
    /\ MarkerIntegrationApp.notifications (app a')
       = (MarkerIntegrationApp.notifications (app a)
          ++ [("Fehler beim Abbrechen: " +:+ Js.message e, "error")])%list.
Proof.
  intros Hcur Hne Hreply. unfold client in Hreply.
  unfold cancelCurrentJob, Js.bind at 1, Js.gets at 1. rewrite Hcur.
  assert (Js.truthy_string (Js.Val jobId) = true) as -> by by destruct jobId.
  cbn [negb template]. unfold Js.try_catch, Js.bind at 1, marker at 1, Js.zoom at 1.
  rewrite cancelJob_unfold.
  destruct Hreply as [Hreply|Hreply]; rewrite Hreply;
    pose proof (next_reply_frame _ _ _ Hreply) as (_ & Hj & _ & Hc & _);
    rewrite showNotification_run; (eexists; split; [reflexivity|]);
    session_fields; cbn; split_and!; done.
Qed.

(** X26. When the cancellation is accepted and the removal of the channel is
    then rejected, the job is cancelled on the backend and out of the queue,
    and yet it stays the current job and stays subscribed; the user is told
    of the success and then of a failure. *)
Theorem cancelCurrentJob_half_done (a : t) (jobId : string) (e : Js.JsError)
    (later : list Supabase.Reply) (c : Supabase.Channel) :
  Supabase.script (client a) = Supabase.Answers :: Supabase.Rejects e :: later ->
  currentJobId a = Js.Val jobId ->
  jobId <> "" ->
  subscriptions a !! jobId = Some c ->
  exists a',
    cancelCurrentJob a = (Js.Returned tt, a')
    /\ Supabase.marker_jobs (client a')
       = cancelled_at jobId (Supabase.now (client a)) (Supabase.marker_jobs (client a))
    /\ MarkerEngineService.processingQueue (markerService a') !! Js.Val jobId = None
    /\ currentJobId a' = Js.Val jobId
    /\ subscriptions a' !! jobId = Some c
    /\ Supabase.channels (client a') = Supabase.channels (client a)
    /\ MarkerIntegrationApp.notifications (app a')
       = (MarkerIntegrationApp.notifications (app a)
          ++ [("Job erfolgreich abgebrochen", "info");
              ("Fehler beim Abbrechen: " +:+ Js.message e, "error")])%list.
Proof.
  intros Hscript Hcur Hne Hsub. unfold client in Hscript.
  unfold cancelCurrentJob, Js.bind at 1, Js.gets at 1. rewrite Hcur.
  assert (Js.truthy_string (Js.Val jobId) = true) as -> by by destruct jobId.
  cbn [negb template]. unfold Js.try_catch, Js.bind at 1, marker at 1, Js.zoom at 1.
  rewrite cancelJob_unfold. unfold Supabase.next_reply at 1. rewrite Hscript.
  unfold Js.bind at 1. rewrite showNotification_run.
  unfold Js.bind at 1, realtime at 1, Js.zoom at 1.
  rewrite unsubscribeFromJob_unfold.
  session_fields. rewrite Hsub. unfold Supabase.next_reply. session_fields.
  rewrite showNotification_run.
  eexists. split; [reflexivity|].
  session_fields. cbn. rewrite Hsub. split_and!; try done.
  - apply lookup_delete_eq.
  - by rewrite <- app_assoc.
Qed.

(** [getExtractedText] when the backend answers and holds one row of the
    job. *)
Lemma getExtractedText_answers (jobId : string) (s : MarkerEngineService.t) (row : Job.row) :
  Supabase.script (MarkerEngineService.supabase s) = [] ->
  filter (fun r => Job.id r = Js.Val jobId)
         (Supabase.marker_jobs (MarkerEngineService.supabase s)) = [row] ->
  MarkerEngineService.getExtractedText jobId s
  = (Js.Returned (Js.or_string (Js.or_else (Job.extracted_text row) (Job.markdown_output row))
                    ""), s).
Proof.
  intros Hscript Hrow.
  pose proof (next_reply_empty_script _ Hscript) as Hreply.
  unfold MarkerEngineService.getExtractedText, Js.try_catch, Js.bind,
    MarkerEngineService.await, Js.zoom, Supabase.select_job_single.
  rewrite (request_answers _ _ _ Hreply). cbn [fst snd]. rewrite Hrow.
  cbn. by destruct s.
Qed.

(** [loadAnnotations] by what [getAnnotations] does. *)
Lemma loadAnnotations_run (jobId : string) (a : t) :
  loadAnnotations jobId a =
    match MarkerEngineService.getAnnotations jobId (markerService a) with
    | (Js.Returned rows, m') =>
        (Js.Returned tt,
         notified [(pretty (length rows) +:+ " Annotations geladen", "success")]
           (set_app
              (MarkerIntegrationApp.set_annotationsViewer
                 (AnnotationsViewerComponent.loadAnnotations rows
                    (MarkerIntegrationApp.annotationsViewer (app a)))
                 (app a))
              (set_markerService m' a)))
    | (Js.Thrown e, m') =>
        (Js.Returned tt,
         notified [("Fehler beim Laden der Annotations: " +:+ Js.message e, "error")]
           (set_markerService m' a))
    end.
Proof.
  unfold loadAnnotations, Js.try_catch, Js.bind at 1, marker at 1, Js.zoom at 1.
  destruct (MarkerEngineService.getAnnotations jobId (markerService a)) as [[rows|e] m'].
  - unfold Js.bind, on_app, Js.zoom, Js.modify. cbn [fst snd]. by rewrite showNotification_run.
  - by rewrite showNotification_run.
Qed.

(** [loadAnnotations] shows what [getAnnotations] returns: the view
    holds these rows, rendered anew in ascending order of position, and the
    notification counts them. The selection of the view is not cleared by
    the load. *)
Theorem loadAnnotations_shows_the_rows (jobId : string) (a : t)
    (rows : list Annotation.row) (m' : MarkerEngineService.t) :
  MarkerEngineService.getAnnotations jobId (markerService a) = (Js.Returned rows, m') ->
  exists a',
    loadAnnotations jobId a = (Js.Returned tt, a')
    /\ AnnotationsViewerComponent.annotations (MarkerIntegrationApp.annotationsViewer (app a'))
       = rows
    /\ AnnotationsViewerComponent.fragments (MarkerIntegrationApp.annotationsViewer (app a'))
       = imap (AnnotationsViewerComponent.span_element
                 (MarkerIntegrationApp.annotationsViewer (app a)))
              (AnnotationsViewerComponent.sortedAnnotations rows)
    /\ AnnotationsViewerComponent.selectedAnnotation
         (MarkerIntegrationApp.annotationsViewer (app a'))
       = AnnotationsViewerComponent.selectedAnnotation
           (MarkerIntegrationApp.annotationsViewer (app a))
    /\ MarkerEngineService.annotationCache (markerService a') !! jobId = Some rows
    /\ MarkerIntegrationApp.notifications (app a')
       = (MarkerIntegrationApp.notifications (app a)
          ++ [(pretty (length rows) +:+ " Annotations geladen", "success")])%list.
Proof.
  intros Hget. rewrite loadAnnotations_run, Hget.
  eexists. split; [reflexivity|].
  cbn [app notified set_app set_markerService markerService
       MarkerIntegrationApp.annotationsViewer MarkerIntegrationApp.set_annotationsViewer
       MarkerIntegrationApp.notifications].
  unfold AnnotationsViewerComponent.loadAnnotations.
  rewrite annotations_renderAnnotations, fragments_renderAnnotations.
  destruct (renderAnnotations_keeps_selection
              (AnnotationsViewerComponent.set_annotations rows
                 (MarkerIntegrationApp.annotationsViewer (app a)))) as (-> & _).
  split; [done|]. split; [by apply imap_ext|]. split; [done|].
  split; [apply (getAnnotations_returned _ _ _ _ Hget)|done].
Qed.

Lemma fetched_supabase (jobId : string) (s s' : MarkerEngineService.t) :
  Supabase.text_annotations (MarkerEngineService.supabase s')
  = Supabase.text_annotations (MarkerEngineService.supabase s) ->
  fetched jobId s' = fetched jobId s.
Proof. unfold fetched. by intros ->. Qed.

(** X27. [handleProcessingComplete] for a job with one row, when the backend
    answers and the cache has no entry for the job: a text that is not empty
    is filed for sentiment analysis as one pending row that carries the job
    and the text; an empty text files nothing. Either way the annotation
    rows of the job are loaded into the view, and the last notification
    reports extraction and analysis as done. *)
Theorem handleProcessingComplete_files_and_loads (data row : Job.row) (jobId : string)
    (a : t) :
  Supabase.script (client a) = [] ->
  Job.id data = Js.Val jobId ->
  filter (fun r => Job.id r = Js.Val jobId) (Supabase.marker_jobs (client a)) = [row] ->
  MarkerEngineService.annotationCache (markerService a) !! jobId = None ->
  exists a',
    handleProcessingComplete data a = (Js.Returned tt, a')
    /\ sentiment_analysis a'
       = (sentiment_analysis a
          ++ if bool_decide (extracted row = "") then []
             else [mkSentimentRow (Supabase.uuid (client a) (Supabase.next_uuid (client a)))
                     jobId (extracted row) "pending" (Supabase.now (client a))])%list
    /\ AnnotationsViewerComponent.annotations (MarkerIntegrationApp.annotationsViewer (app a'))
       = fetched jobId (markerService a)
    /\ MarkerIntegrationApp.notifications (app a')
       = (MarkerIntegrationApp.notifications (app a)
          ++ (if bool_decide (extracted row = "") then []
              else [("Sentiment-Analyse gestartet", "info")])
          ++ [(pretty (length (fetched jobId (markerService a))) +:+ " Annotations geladen",
               "success");
              ("Text erfolgreich extrahiert und analysiert!", "success")])%list.
Proof.
  intros Hscript Hid Hrow Hcache. unfold client in *.
  pose proof (next_reply_empty_script _ Hscript) as Hreply.
  unfold handleProcessingComplete. rewrite Hid. cbn [template].
  unfold Js.try_catch, Js.bind at 1, marker at 1, Js.zoom at 1.
  rewrite (getExtractedText_answers jobId _ row Hscript Hrow).
  fold (extracted row). unfold Js.bind at 1.
  destruct (extracted row) as [|ch text] eqn:Htext.
  - rewrite bool_decide_eq_true_2 by done. unfold Js.ret at 1.
    unfold Js.bind at 1. rewrite loadAnnotations_run.
    cbn [markerService set_markerService].
    rewrite (getAnnotations_fetched jobId _ _ Hcache Hreply).
    rewrite showNotification_run.
    eexists. split; [reflexivity|].
    cbn [app notified set_app set_markerService markerService sentiment_analysis
         MarkerIntegrationApp.annotationsViewer MarkerIntegrationApp.set_annotationsViewer
         MarkerIntegrationApp.notifications].
    unfold AnnotationsViewerComponent.loadAnnotations.
    rewrite annotations_renderAnnotations. rewrite app_nil_r.
    split; [done|]. split; [done|]. by rewrite <- app_assoc.
  - rewrite bool_decide_eq_false_2 by done.
    unfold Js.bind at 1, analyzeSentiment, Js.try_catch at 1, Js.bind at 1.
    unfold markerService_analyzeSentiment, Js.try_catch at 1, Js.bind at 1, Js.gets at 1.
    unfold Js.bind at 1, insert_sentiment_analysis at 1.
    unfold client. cbn [markerService set_markerService fst snd]. rewrite Hreply.
    rewrite bool_decide_eq_true_2.
    2: { apply Exists_exists. exists row.
         assert (row ∈ filter (fun r => Job.id r = Js.Val jobId)
                   (Supabase.marker_jobs (MarkerEngineService.supabase (markerService a))))
           as Hin by (rewrite Hrow; left).
         apply list_elem_of_filter in Hin. by destruct Hin. }
    unfold Supabase.gen_random_uuid. cbn [Supabase.error Supabase.data].
    unfold Js.ret at 1. unfold Js.bind at 1. rewrite showNotification_run.
    unfold Js.ret at 1. unfold Js.ret at 1.
    unfold Js.bind at 1. rewrite loadAnnotations_run.
    unfold set_client. cbn [markerService set_markerService notified set_app
                            set_sentiment_analysis].
    rewrite (getAnnotations_fetched jobId _
               (Supabase.set_next_uuid
                  (S (Supabase.next_uuid (MarkerEngineService.supabase (markerService a))))
                  (MarkerEngineService.supabase (markerService a))));
      [|exact Hcache|by apply next_reply_empty_script].
    rewrite showNotification_run.
    eexists. split; [reflexivity|].
    cbn [app notified set_app set_markerService markerService sentiment_analysis
         set_sentiment_analysis
         MarkerIntegrationApp.annotationsViewer MarkerIntegrationApp.set_annotationsViewer
         MarkerIntegrationApp.notifications].
    unfold AnnotationsViewerComponent.loadAnnotations.
    rewrite annotations_renderAnnotations.
    split; [done|]. split; [done|].
    rewrite <- !app_assoc. done.
Qed.

Lemma getExtractedText_answered (jobId : string) (s : MarkerEngineService.t)
    (db : Supabase.t) (row : Job.row) :
  Supabase.next_reply (MarkerEngineService.supabase s) = (Supabase.Answers, db) ->
  filter (fun r => Job.id r = Js.Val jobId)
         (Supabase.marker_jobs (MarkerEngineService.supabase s)) = [row] ->
  MarkerEngineService.getExtractedText jobId s
  = (Js.Returned (extracted row), MarkerEngineService.set_supabase db s).
Proof.
  intros Hreply Hrow.
  pose proof (next_reply_frame _ _ _ Hreply) as (_ & Hj & _).
  unfold MarkerEngineService.getExtractedText, Js.try_catch, Js.bind,
    MarkerEngineService.await, Js.zoom, Supabase.select_job_single.
  rewrite (request_answers _ _ _ Hreply). cbn [fst snd]. rewrite Hj, Hrow. done.
Qed.

Lemma getAnnotations_failed (jobId : string) (s : MarkerEngineService.t) (db : Supabase.t)
    (reply : Supabase.Reply) (e : Js.JsError) :
  MarkerEngineService.annotationCache s !! jobId = None ->
  Supabase.next_reply (MarkerEngineService.supabase s) = (reply, db) ->
  reply = Supabase.AnswersError e \/ reply = Supabase.Rejects e ->
  MarkerEngineService.getAnnotations jobId s
  = (Js.Thrown e, MarkerEngineService.set_supabase db s).
Proof.
  intros Hc Hreply Hbad.
  unfold MarkerEngineService.getAnnotations, Js.try_catch, Js.bind, Js.gets, Js.ret,
    MarkerEngineService.await, Js.zoom, Supabase.select_annotations.
  rewrite Hc.
  destruct Hbad as [-> | ->].
  - by rewrite (request_error _ _ _ _ Hreply).
  - by rewrite (request_rejects _ _ _ _ Hreply).
Qed.

(** X28. When the text is read and the filing for sentiment analysis fails,
    by an [error] answer or a rejected request, [handleProcessingComplete]
    gives up there: the annotations are not loaded, the view and the cache
    stay as they were, nothing is filed, and the user sees the failure
    twice, as a warning and as an error. *)
Theorem handleProcessingComplete_analysis_failure (data row : Job.row) (jobId : string)
    (a : t) (reply : Supabase.Reply) (e : Js.JsError) (later : list Supabase.Reply) :
  Supabase.script (client a) = Supabase.Answers :: reply :: later ->
  reply = Supabase.AnswersError e \/ reply = Supabase.Rejects e ->
  Job.id data = Js.Val jobId ->
  filter (fun r => Job.id r = Js.Val jobId) (Supabase.marker_jobs (client a)) = [row] ->
  extracted row <> "" ->
  exists a',
    handleProcessingComplete data a = (Js.Returned tt, a')
    /\ sentiment_analysis a' = sentiment_analysis a
    /\ MarkerIntegrationApp.annotationsViewer (app a')
       = MarkerIntegrationApp.annotationsViewer (app a)
    /\ MarkerEngineService.annotationCache (markerService a')
       = MarkerEngineService.annotationCache (markerService a)
    /\ Supabase.script (client a') = later
    /\ MarkerIntegrationApp.notifications (app a')
       = (MarkerIntegrationApp.notifications (app a)
          ++ [("Fehler bei Sentiment-Analyse: " +:+ Js.message e, "warning");
              ("Fehler bei der Nachbearbeitung: " +:+ Js.message e, "error")])%list.
Proof.
  intros Hscript Hbad Hid Hrow Htext. unfold client in *.
  assert (Supabase.next_reply (MarkerEngineService.supabase (markerService a))
          = (Supabase.Answers,
             Supabase.set_script (reply :: later)
               (MarkerEngineService.supabase (markerService a)))) as Hreply
    by (unfold Supabase.next_reply; by rewrite Hscript).
  unfold handleProcessingComplete. rewrite Hid. cbn [template].
  unfold Js.try_catch, Js.bind at 1, marker at 1, Js.zoom at 1.
  rewrite (getExtractedText_answered jobId _ _ row Hreply Hrow).
  unfold Js.bind at 1.
  destruct (extracted row) as [|ch text] eqn:Hx; [done|].
  unfold Js.bind at 1, analyzeSentiment, Js.try_catch at 1, Js.bind at 1.
  unfold markerService_analyzeSentiment, Js.try_catch at 1, Js.bind at 1, Js.gets at 1.
  unfold Js.bind at 1, insert_sentiment_analysis at 1.
  unfold client, Supabase.next_reply.
  cbn [markerService set_markerService fst snd MarkerEngineService.supabase
       MarkerEngineService.set_supabase Supabase.script Supabase.set_script].
  destruct Hbad as [-> | ->];
    cbn [Supabase.error Supabase.data]; unfold Js.throw, Js.bind;
    rewrite !showNotification_run;
    (eexists; split; [reflexivity|]);
    session_fields; cbn; rewrite <- ?app_assoc; split_and!; done.
Qed.

(** X29. A failure to load the annotations does not reach
    [handleProcessingComplete]: with an empty text, so that nothing is filed,
    and a failing annotation request, the user sees the load error and right
    after it the notification that extraction and analysis succeeded; the
    view keeps the annotations it had. *)
Theorem handleProcessingComplete_load_failure_reported_as_success (data row : Job.row)
    (jobId : string) (a : t) (reply : Supabase.Reply) (e : Js.JsError)
    (later : list Supabase.Reply) :
  Supabase.script (client a) = Supabase.Answers :: reply :: later ->
  reply = Supabase.AnswersError e \/ reply = Supabase.Rejects e ->
  Job.id data = Js.Val jobId ->
  filter (fun r => Job.id r = Js.Val jobId) (Supabase.marker_jobs (client a)) = [row] ->
  extracted row = "" ->
  MarkerEngineService.annotationCache (markerService a) !! jobId = None ->
  exists a',
    handleProcessingComplete data a = (Js.Returned tt, a')
    /\ sentiment_analysis a' = sentiment_analysis a
    /\ MarkerIntegrationApp.annotationsViewer (app a')
       = MarkerIntegrationApp.annotationsViewer (app a)
    /\ MarkerIntegrationApp.notifications (app a')
       = (MarkerIntegrationApp.notifications (app a)
          ++ [("Fehler beim Laden der Annotations: " +:+ Js.message e, "error");
              ("Text erfolgreich extrahiert und analysiert!", "success")])%list.
Proof.
  intros Hscript Hbad Hid Hrow Htext Hcache. unfold client in *.
  assert (Supabase.next_reply (MarkerEngineService.supabase (markerService a))
          = (Supabase.Answers,
             Supabase.set_script (reply :: later)
               (MarkerEngineService.supabase (markerService a)))) as Hreply
    by (unfold Supabase.next_reply; by rewrite Hscript).
  unfold handleProcessingComplete. rewrite Hid. cbn [template].
  unfold Js.try_catch, Js.bind at 1, marker at 1, Js.zoom at 1.
  rewrite (getExtractedText_answered jobId _ _ row Hreply Hrow), Htext.
  unfold Js.bind at 1. unfold Js.ret at 1. unfold Js.bind at 1.
  rewrite loadAnnotations_run. cbn [markerService set_markerService].
  rewrite (getAnnotations_failed jobId _
             (Supabase.set_script later (MarkerEngineService.supabase (markerService a)))
             reply e); [|exact Hcache|reflexivity|exact Hbad].
  rewrite showNotification_run.
  eexists. split; [reflexivity|].
  session_fields. cbn. rewrite <- ?app_assoc. split_and!; done.
Qed.

(** X30. [cleanup], when no removal is rejected, leaves no subscription, no
    live channel on the client and an empty annotation cache. *)
Theorem cleanup_releases_everything (keys : list string) (a : t) :
  keys ≡ₚ (map_to_list (subscriptions a)).*1 ->
  never_rejects (client a) ->
  tracked (client a) (subscriptions a) ->
  exists a',
    cleanup keys a = (Js.Returned tt, a')
    /\ subscriptions a' = ∅
    /\ Supabase.channels (client a') = []
    /\ MarkerEngineService.annotationCache (markerService a') = ∅
    /\ currentJobId a' = currentJobId a.
Proof.
  intros Hkeys Hn Ht.
  destruct (unsubscribeAll_answered keys (realtimeService a) Hkeys Hn Ht)
    as (r' & Hrun & Hempty & _ & Hch & _).
  unfold cleanup, Js.try_catch, Js.bind, realtime, Js.zoom. rewrite Hrun.
  eexists. split; [reflexivity|].
  unfold client in *. cbn. split_and!; done.
Qed.

(** When a removal is rejected, [cleanup] returns all the same, and the
    annotation cache is not cleared. *)
Theorem cleanup_rejection_keeps_cache (keys : list string) (a : t) (e : Js.JsError)
    (r' : RealtimeAnnotationsService.t MarkerIntegrationApp.t) :
  RealtimeCleanup.unsubscribeAll keys (realtimeService a) = (Js.Thrown e, r') ->
  cleanup keys a = (Js.Returned tt, set_realtimeService r' a)
  /\ MarkerEngineService.annotationCache (markerService (set_realtimeService r' a))
     = MarkerEngineService.annotationCache (markerService a).
Proof.
  intros Hrun. unfold cleanup, Js.try_catch, Js.bind, realtime, Js.zoom. by rewrite Hrun.
Qed.

(** [reset] empties the three views and forgets the current job, and
    that is all: the subscriptions, their handlers, the channels of the
    client and the annotation cache are as before, so a row change of a job
    subscribed earlier still reaches the handlers. *)
Theorem reset_keeps_subscriptions (a : t) :
  currentJobId (reset a) = Js.Null
  /\ ProcessingStatusComponent.currentJob
       (MarkerIntegrationApp.statusComponent (app (reset a))) = None
  /\ ProcessingStatusComponent.statusInterval
       (MarkerIntegrationApp.statusComponent (app (reset a))) = None
  /\ AnnotationsViewerComponent.annotations
       (MarkerIntegrationApp.annotationsViewer (app (reset a))) = []
  /\ AnnotationsViewerComponent.fragments
       (MarkerIntegrationApp.annotationsViewer (app (reset a))) = []
  /\ UploadView.selectedFiles (uploadComponent (reset a)) = []
  /\ UploadView.file_list (uploadComponent (reset a)) = []
  /\ subscriptions (reset a) = subscriptions a
  /\ eventHandlers (reset a) = eventHandlers a
  /\ markerService (reset a) = markerService a
  /\ MarkerIntegrationApp.notifications (app (reset a))
     = MarkerIntegrationApp.notifications (app a).
Proof.
  unfold reset. session_fields. cbn.
  split_and!; try done;
    match goal with |- context [ProcessingStatusControls.reset ?c] =>
      generalize c; intros [job ticker]; by destruct ticker
    end.
Qed.
End SessionProps.

Section SessionWitnesses.
Import Session Props MoreProps.

Lemma processDocument_tracks_and_subscribes_witness :
  exists a',
    processDocument report_pdf new_session = (Js.Returned tt, a')
    /\ currentJobId a' = Js.Val "uuid-0"
    /\ ProcessingStatusComponent.cancel_button_display
         (MarkerIntegrationApp.statusComponent (app a')) = "block".
Proof.
  destruct (processDocument_tracks_and_subscribes report_pdf new_session _ _
              eq_refl eq_refl) as (a' & Hrun & Hcur & _ & _ & _ & Hbtn & _).
  exists a'. split; [exact Hrun|]. split; [exact Hcur|exact Hbtn].
Defined.

Lemma processDocument_failure_witness :
  (processDocument report_pdf
     (with_script [Supabase.AnswersError (Js.mkError "quota exceeded")] new_session)).1
  = Js.Thrown (Js.mkError "quota exceeded").
Proof.
  rewrite (processDocument_failure report_pdf
             (with_script [Supabase.AnswersError (Js.mkError "quota exceeded")] new_session)
             (Js.mkError "quota exceeded") _ eq_refl).
  reflexivity.
Defined.

Lemma handleUploadStart_stops_at_first_failure_witness :
  (handleUploadStart [report_pdf; File.mk "notes.md" 1024 "text/markdown"]
     (with_script [Supabase.Answers; Supabase.Answers;
                   Supabase.Rejects (Js.mkError "offline")] new_session)).1
  = Js.Returned tt.
Proof.
  pose (a := with_script [Supabase.Answers; Supabase.Answers;
                          Supabase.Rejects (Js.mkError "offline")] new_session).
  assert (process_each [report_pdf] a
          = (Js.Returned tt, (process_each [report_pdf] a).2)) as H1
    by (apply run_pair; vm_compute; reflexivity).
  assert (processDocument (File.mk "notes.md" 1024 "text/markdown")
            (process_each [report_pdf] a).2
          = (Js.Thrown (Js.mkError "offline"),
             (processDocument (File.mk "notes.md" 1024 "text/markdown")
                (process_each [report_pdf] a).2).2)) as H2
    by (apply run_pair; vm_compute; reflexivity).
  exact (f_equal fst
           (handleUploadStart_stops_at_first_failure [report_pdf] []
              (File.mk "notes.md" 1024 "text/markdown") a _ _ (Js.mkError "offline")
              H1 H2)).
Defined.

Lemma cancelCurrentJob_cancels_and_unsubscribes_witness :
  exists a',
    cancelCurrentJob tracking_session = (Js.Returned tt, a')
    /\ currentJobId a' = Js.Null
    /\ subscriptions a' !! "uuid-0" = None.
Proof.
  destruct (cancelCurrentJob_cancels_and_unsubscribes tracking_session "uuid-0")
    as (a' & Hrun & Hcur & _ & _ & Hsub & _);
    [vm_compute; reflexivity|vm_compute; reflexivity|discriminate|].
  exists a'. split; [exact Hrun|]. split; [exact Hcur|exact Hsub].
Defined.

Lemma cancelCurrentJob_failure_keeps_job_witness :
  exists a',
    cancelCurrentJob
      (with_script [Supabase.Rejects (Js.mkError "offline")] tracking_session)
    = (Js.Returned tt, a')
    /\ currentJobId a' = Js.Val "uuid-0".
Proof.
  destruct (cancelCurrentJob_failure_keeps_job
              (with_script [Supabase.Rejects (Js.mkError "offline")] tracking_session)
              "uuid-0" (Js.mkError "offline")
              (with_script [] tracking_session).(markerService).(MarkerEngineService.supabase))
    as (a' & Hrun & Hcur & _);
    [vm_compute; reflexivity|discriminate|right; vm_compute; reflexivity|].
  exists a'. split; [exact Hrun|exact Hcur].
Defined.

Lemma cancelCurrentJob_half_done_witness :
  exists a',
    cancelCurrentJob
      (with_script [Supabase.Answers; Supabase.Rejects (Js.mkError "offline")]
         tracking_session)
    = (Js.Returned tt, a')
    /\ currentJobId a' = Js.Val "uuid-0"
    /\ map Job.status (Supabase.marker_jobs (client a')) = [Js.Val "cancelled"].
Proof.
  destruct (cancelCurrentJob_half_done
              (with_script [Supabase.Answers; Supabase.Rejects (Js.mkError "offline")]
                 tracking_session)
              "uuid-0" (Js.mkError "offline") []
              (Supabase.mkChannel 0 "job-uuid-0"
                 (RealtimeAnnotationsService.job_bindings "uuid-0")))
    as (a' & Hrun & Hjobs & _ & Hcur & _);
    [vm_compute; reflexivity|vm_compute; reflexivity|discriminate|vm_compute; reflexivity|].
  exists a'. split; [exact Hrun|]. split; [exact Hcur|].
  rewrite Hjobs. vm_compute. reflexivity.
Defined.

Lemma loadAnnotations_shows_the_rows_witness :
  exists a',
    loadAnnotations "job-2" finished_session = (Js.Returned tt, a')
    /\ map Annotation.text
         (AnnotationsViewerComponent.annotations
            (MarkerIntegrationApp.annotationsViewer (app a')))
       = ["sooner"; "later"].
Proof.
  destruct (loadAnnotations_shows_the_rows "job-2" finished_session _ _ eq_refl)
    as (a' & Hrun & Hrows & _).
  exists a'. split; [exact Hrun|]. rewrite Hrows. reflexivity.
Defined.

Lemma handleProcessingComplete_files_and_loads_witness :
  exists a',
    handleProcessingComplete extracted_job finished_session = (Js.Returned tt, a')
    /\ map sa_text (sentiment_analysis a') = ["# Report"]
    /\ map fst (MarkerIntegrationApp.notifications (app a'))
       = ["Sentiment-Analyse gestartet"; "2 Annotations geladen";
          "Text erfolgreich extrahiert und analysiert!"].
Proof.
  destruct (handleProcessingComplete_files_and_loads extracted_job extracted_job "job-2"
              finished_session)
    as (a' & Hrun & Hrows & _ & Hnotes);
    [reflexivity|reflexivity|vm_compute; reflexivity|reflexivity|].
  exists a'. split; [exact Hrun|]. rewrite Hrows, Hnotes.
  split; vm_compute; reflexivity.
Defined.

Lemma handleProcessingComplete_analysis_failure_witness :
  exists a',
    handleProcessingComplete extracted_job
      (with_script [Supabase.Answers; Supabase.AnswersError (Js.mkError "denied")]
         finished_session)
    = (Js.Returned tt, a')
    /\ AnnotationsViewerComponent.annotations
         (MarkerIntegrationApp.annotationsViewer (app a')) = [].
Proof.
  destruct (handleProcessingComplete_analysis_failure extracted_job extracted_job "job-2"
              (with_script [Supabase.Answers; Supabase.AnswersError (Js.mkError "denied")]
                 finished_session)
              (Supabase.AnswersError (Js.mkError "denied")) (Js.mkError "denied") [])
    as (a' & Hrun & _ & Hview & _);
    [reflexivity|by left|reflexivity|vm_compute; reflexivity|discriminate|].
  exists a'. split; [exact Hrun|]. rewrite Hview. reflexivity.
Defined.

Lemma handleProcessingComplete_load_failure_reported_as_success_witness :
  exists a',
    handleProcessingComplete (job_at "completed" 100)
      (with_script [Supabase.Answers; Supabase.Rejects (Js.mkError "offline")]
         (Session.new (sample_backend [job_at "completed" 100] [])))
    = (Js.Returned tt, a')
    /\ map fst (MarkerIntegrationApp.notifications (app a'))
       = ["Fehler beim Laden der Annotations: offline";
          "Text erfolgreich extrahiert und analysiert!"].
Proof.
  destruct (handleProcessingComplete_load_failure_reported_as_success
              (job_at "completed" 100) (job_at "completed" 100) "job-1"
              (with_script [Supabase.Answers; Supabase.Rejects (Js.mkError "offline")]
                 (Session.new (sample_backend [job_at "completed" 100] [])))
              (Supabase.Rejects (Js.mkError "offline")) (Js.mkError "offline") [])
    as (a' & Hrun & _ & _ & Hnotes);
    [reflexivity|by right|reflexivity|vm_compute; reflexivity|reflexivity|reflexivity|].
  exists a'. split; [exact Hrun|]. rewrite Hnotes. reflexivity.
Defined.

Lemma cleanup_releases_everything_witness :
  exists a',
    cleanup ["job-1"] subscribed_session = (Js.Returned tt, a')
    /\ subscriptions a' = ∅
    /\ Supabase.channels (client a') = [].
Proof.
  destruct (cleanup_releases_everything ["job-1"] subscribed_session)
    as (a' & Hrun & Hsubs & Hch & _).
  - apply (bool_decide_unpack _). vm_compute. reflexivity.
  - constructor.
  - apply (calls_tracked
             [RealtimeAnnotationsService.CallSubscribeToJob "job-1"
                MarkerIntegrationApp.job_handlers]
             (RealtimeAnnotationsService.create (sample_backend [] []))),
      create_tracked.
    reflexivity.
  - exists a'. split; [exact Hrun|]. split; [exact Hsubs|exact Hch].
Defined.

Lemma cleanup_rejection_keeps_cache_witness :
  (cleanup ["job-1"]
     (with_script [Supabase.Rejects (Js.mkError "offline")] subscribed_session)).1
  = Js.Returned tt.
Proof.
  destruct (cleanup_rejection_keeps_cache ["job-1"]
              (with_script [Supabase.Rejects (Js.mkError "offline")] subscribed_session)
              (Js.mkError "offline") _ eq_refl) as [Hrun _].
  rewrite Hrun. reflexivity.
Defined.
End SessionWitnesses.
